(** * Complaint orchestration engine: dialogue loop and outbound-call driver

    A shallow embedding of the TypeScript sources of the complaint bot
    (ConfidenceEvaluator, FollowupHandler, ConversationManager, CallManager,
    FallbackHandler, TwilioController, and the transcript heuristics of
    BlandAICallManager), together with the properties the specification
    states about them.

    Conventions.
    - A JavaScript [number] is an IEEE-754 binary64 value: [float].
    - A JavaScript string is a [string] holding its text in UTF-8.  [trim]
      knows all the white space of the language, so that a blank answer is
      blank whatever the user typed.  Case mapping, lengths and the classes
      of the regular expressions are the ASCII ones: they are applied to
      prompts, replies of the LLM and transcripts only.
    - A [Record<string, any>] is a finite map [gmap string string].
    - An [async] method is a computation [M A]: it threads the state of the
      outside world (Firestore, the telephony and LLM providers) and either
      returns a value or throws. *)

From Stdlib Require Import ZArith List String Ascii Bool Lia Floats.
From stdpp Require Import base option list strings gmap pretty.
Import ListNotations.

#[local] Set Warnings "-inexact-float".
Local Open Scope string_scope.
Local Open Scope nat_scope.

(** ** JavaScript strings *)

Module JS.

(** The white space of the language (WhiteSpace and LineTerminator), which
    is what [String.prototype.trim] strips.  A string holds its text in
    UTF-8, so a white space character takes one, two or three bytes.

    One byte: TAB, LF, VT, FF, CR and SPACE.  This part is also what the
    class [\s] of the regular expressions below knows. *)
Definition is_white_space (c : ascii) : bool :=
  let n := nat_of_ascii c in
  ((9 <=? n) && (n <=? 13)) || (n =? 32).

(** Two bytes: U+00A0 (C2 A0). *)
Definition is_white_space2 (c1 c2 : ascii) : bool :=
  (nat_of_ascii c1 =? 194) && (nat_of_ascii c2 =? 160).

(** Three bytes: U+1680 (E1 9A 80); U+2000 to U+200A, U+2028, U+2029 and
    U+202F (E2 80 and 80 to 8A, A8, A9, AF); U+205F (E2 81 9F); U+3000
    (E3 80 80); U+FEFF (EF BB BF). *)
Definition is_white_space3 (c1 c2 c3 : ascii) : bool :=
  let n1 := nat_of_ascii c1 in
  let n2 := nat_of_ascii c2 in
  let n3 := nat_of_ascii c3 in
  ((n1 =? 225) && (n2 =? 154) && (n3 =? 128))
  || ((n1 =? 226) && (n2 =? 128)
      && (((128 <=? n3) && (n3 <=? 138)) || (n3 =? 168) || (n3 =? 169) || (n3 =? 175)))
  || ((n1 =? 226) && (n2 =? 129) && (n3 =? 159))
  || ((n1 =? 227) && (n2 =? 128) && (n3 =? 128))
  || ((n1 =? 239) && (n2 =? 187) && (n3 =? 191)).

Definition is_upper (c : ascii) : bool :=
  let n := nat_of_ascii c in (65 <=? n) && (n <=? 90).

Definition is_lower (c : ascii) : bool :=
  let n := nat_of_ascii c in (97 <=? n) && (n <=? 122).

Definition upper_char (c : ascii) : ascii :=
  if is_lower c then ascii_of_nat (nat_of_ascii c - 32) else c.

Definition lower_char (c : ascii) : ascii :=
  if is_upper c then ascii_of_nat (nat_of_ascii c + 32) else c.

Fixpoint map_chars (f : ascii -> ascii) (s : string) : string :=
  match s with
  | EmptyString => EmptyString
  | String c rest => String (f c) (map_chars f rest)
  end.

Definition toUpperCase : string -> string := map_chars upper_char.
Definition toLowerCase : string -> string := map_chars lower_char.

(** [trimStart] drops white space characters, of whatever width, as long as
    the string starts with one. *)
Fixpoint trimStart (s : string) : string :=
  match s with
  | String c1 rest1 =>
      if is_white_space c1 then trimStart rest1
      else
        match rest1 with
        | String c2 rest2 =>
            if is_white_space2 c1 c2 then trimStart rest2
            else
              match rest2 with
              | String c3 rest3 => if is_white_space3 c1 c2 c3 then trimStart rest3 else s
              | EmptyString => s
              end
        | EmptyString => s
        end
  | EmptyString => EmptyString
  end.

(** [trimEnd] cuts the string where only white space follows.  (Inside a
    character of several bytes the rest never starts with white space: the
    bytes that continue a character start none.) *)
Fixpoint trimEnd (s : string) : string :=
  match s with
  | EmptyString => EmptyString
  | String c rest =>
      match trimStart s with
      | EmptyString => EmptyString
      | _ => String c (trimEnd rest)
      end
  end.

Definition trim (s : string) : string := trimEnd (trimStart s).

(** Truthiness of a string value: every string but the empty one. *)
Definition truthy (s : string) : bool :=
  match s with EmptyString => false | _ => true end.

(** [s.includes(needle)] *)
Fixpoint includes (s needle : string) : bool :=
  String.prefix needle s ||
  match s with
  | EmptyString => false
  | String _ rest => includes rest needle
  end.

(** [a || b] on strings. *)
Definition or_else (a b : string) : string := if truthy a then a else b.

Definition newline : string := String (ascii_of_nat 10) EmptyString.

(** [s.split('\n')] *)
Fixpoint split_lines (s : string) : list string :=
  match s with
  | EmptyString => [EmptyString]
  | String c rest =>
      if Ascii.eqb c (ascii_of_nat 10) then EmptyString :: split_lines rest
      else
        match split_lines rest with
        | line :: lines => String c line :: lines
        | [] => [String c EmptyString]
        end
  end.

(** [parts.join(sep)] *)
Fixpoint join (sep : string) (parts : list string) : string :=
  match parts with
  | [] => EmptyString
  | [p] => p
  | p :: others => p ++ sep ++ join sep others
  end.

End JS.

(** ** Outcome of a call that may throw *)

Inductive Outcome (A : Type) : Type :=
| Returned (value : A)
| Thrown (message : string).
Arguments Returned {A} value.
Arguments Thrown {A} message.

Definition is_thrown {A} (o : Outcome A) : bool :=
  match o with Thrown _ => true | Returned _ => false end.

(** ** Data model (types/followupQuestions.ts, types/inputHandler.ts) *)

Abbreviation Fields := (gmap string string).

Record ConversationTurn := {
  id : string;
  question : string;
  answer : string;
  timestamp : nat;
  extractedInfo : Fields;
  confidenceDelta : float
}.

(** The two filters every method of the dialogue uses:
    [!turn.answer || turn.answer.trim() === ''] and its complement
    [turn.answer && turn.answer.trim() !== ''].  [trim] strips all the white
    space of the language, so a turn whose answer is made of no-break spaces
    is pending. *)
Definition is_pending (turn : ConversationTurn) : bool :=
  negb (JS.truthy (answer turn)) || String.eqb (JS.trim (answer turn)) "".

Definition is_answered (turn : ConversationTurn) : bool :=
  JS.truthy (answer turn) && negb (String.eqb (JS.trim (answer turn)) "").

(** ** Math.min on two numbers *)

Module JSMath.

(** NaN if either argument is NaN; otherwise the smaller one, where -0 is
    smaller than +0. *)
Definition min (x y : float) : float :=
  if is_nan x || is_nan y then nan
  else if (y <? x)%float then y
  else if (x <? y)%float then x
  else if is_zero x then (if get_sign x then x else y)
  else x.

End JSMath.

(** ** ConfidenceEvaluator.calculateOverallConfidence *)

Module ConfidenceEvaluator.

(** The loop [for (const turn of conversationHistory) confidence += turn.confidenceDelta]. *)
Fixpoint accumulate (confidence : float) (conversationHistory : list ConversationTurn) : float :=
  match conversationHistory with
  | [] => confidence
  | turn :: rest => accumulate (confidence + confidenceDelta turn)%float rest
  end.

Definition calculateOverallConfidence
    (initialConfidence : float) (conversationHistory : list ConversationTurn) : float :=
  JSMath.min 1 (accumulate initialConfidence conversationHistory).

End ConfidenceEvaluator.

(** ** Regular expressions (the fragment of ECMAScript the sources use) *)

Module RegExp.

Inductive CharSet :=
| Ranges (rs : list (ascii * ascii))   (* [a-bc-d...] *)
| WhiteSpace                           (* \s *)
| Digit                                (* \d *)
| AnyChar.                             (* [\s\S] *)

Inductive Pattern :=
| Empty
| Char (c : ascii)
| Class (cs : CharSet)
| Seq (r1 r2 : Pattern)
| Alt (r1 r2 : Pattern)
| Group (index : nat) (r : Pattern)                       (* ( r ), numbered from 1 *)
| Quant (min : nat) (max : option nat) (greedy : bool) (r : Pattern)
| LineStart.                                              (* ^ without the m flag *)

Record RegExp := {
  source : Pattern;
  groups : nat;          (* number of capturing groups *)
  ignoreCase : bool;     (* flag i *)
  global : bool          (* flag g *)
}.

(** A literal word [abc] is the sequence of its characters. *)
Fixpoint Lit (s : string) : Pattern :=
  match s with
  | EmptyString => Empty
  | String c EmptyString => Char c
  | String c rest => Seq (Char c) (Lit rest)
  end.

Definition Star r := Quant 0 None true r.
Definition LazyStar r := Quant 0 None false r.
Definition Opt r := Quant 0 (Some 1) true r.
Definition AtLeast n r := Quant n None true r.

Fixpoint Seqs (rs : list Pattern) : Pattern :=
  match rs with
  | [] => Empty
  | [r] => r
  | r :: rest => Seq r (Seqs rest)
  end.

Fixpoint Alts (rs : list Pattern) : Pattern :=
  match rs with
  | [] => Empty
  | [r] => r
  | r :: rest => Alt r (Alts rest)
  end.

(** Canonicalize: with flag i characters are compared after upper-casing. *)
Definition canonicalize (ic : bool) (c : ascii) : ascii :=
  if ic then JS.upper_char c else c.

Definition in_range (c : ascii) (r : ascii * ascii) : bool :=
  (nat_of_ascii (fst r) <=? nat_of_ascii c) && (nat_of_ascii c <=? nat_of_ascii (snd r)).

Definition in_set (cs : CharSet) (c : ascii) : bool :=
  match cs with
  | Ranges rs => existsb (in_range c) rs
  | WhiteSpace => JS.is_white_space c
  | Digit => in_range c ("0"%char, "9"%char)
  | AnyChar => true
  end.

(** CharacterSetMatcher: [c] matches when some member of the set has the
    same canonical form; for ASCII the candidates are the two cases of [c]. *)
Definition set_matches (ic : bool) (cs : CharSet) (c : ascii) : bool :=
  if ic then in_set cs (JS.upper_char c) || in_set cs (JS.lower_char c) || in_set cs c
  else in_set cs c.

(** Matcher state: the input from [endIndex] on, [endIndex], the captures. *)
Record State := {
  rest : list ascii;
  endIndex : nat;
  captures : list (option string)
}.

Definition step (x : State) (tl : list ascii) : State :=
  {| rest := tl; endIndex := S (endIndex x); captures := captures x |}.

Definition set_capture (index : nat) (v : option string) (x : State) : State :=
  {| rest := rest x; endIndex := endIndex x;
     captures := <[pred index := v]> (captures x) |}.

Fixpoint group_indices (r : Pattern) : list nat :=
  match r with
  | Group i r1 => i :: group_indices r1
  | Seq r1 r2 | Alt r1 r2 => group_indices r1 ++ group_indices r2
  | Quant _ _ _ r1 => group_indices r1
  | _ => []
  end.

Definition clear_captures (r : Pattern) (x : State) : State :=
  fold_right (fun i y => set_capture i None y) x (group_indices r).

Definition Continuation := State -> option State.

(** The backtracking matcher of the language specification, in
    continuation-passing style.  [Quant] is RepeatMatcher: captures inside
    the repeated atom are reset before each iteration, and an iteration
    beyond [min] that consumes nothing is rejected, so that [min] plus the
    length of the remaining input bounds the number of iterations. *)
Fixpoint matcher (ic : bool) (r : Pattern) (x : State) (c : Continuation)
    {struct r} : option State :=
  match r with
  | Empty => c x
  | Char ch =>
      match rest x with
      | a :: tl =>
          if Ascii.eqb (canonicalize ic a) (canonicalize ic ch) then c (step x tl) else None
      | [] => None
      end
  | Class cs =>
      match rest x with
      | a :: tl => if set_matches ic cs a then c (step x tl) else None
      | [] => None
      end
  | Seq r1 r2 => matcher ic r1 x (fun y => matcher ic r2 y c)
  | Alt r1 r2 =>
      match matcher ic r1 x c with
      | Some z => Some z
      | None => matcher ic r2 x c
      end
  | Group i r1 =>
      matcher ic r1 x (fun y =>
        let captured := string_of_list_ascii (take (endIndex y - endIndex x) (rest x)) in
        c (set_capture i (Some captured) y))
  | LineStart => if endIndex x =? 0 then c x else None
  | Quant min max greedy r1 =>
      (fix repeat_matcher (fuel min : nat) (max : option nat) (x : State)
           {struct fuel} : option State :=
         match fuel with
         | 0 => None
         | S fuel' =>
             match max with
             | Some 0 => c x
             | _ =>
                 let d : Continuation := fun y =>
                   if (min =? 0) && (endIndex y =? endIndex x) then None
                   else repeat_matcher fuel' (pred min) (pred <$> max) y in
                 let xr := clear_captures r1 x in
                 if negb (min =? 0) then matcher ic r1 xr d
                 else if negb greedy then
                   match c x with
                   | Some z => Some z
                   | None => matcher ic r1 xr d
                   end
                 else
                   match matcher ic r1 xr d with
                   | Some z => Some z
                   | None => c x
                   end
             end
         end) (S (min + length (rest x))) min max x
  end.

(** RegExpBuiltinExec: the first index, from [index] on, at which the
    pattern matches; [input] is the subject from [index] on. *)
Fixpoint search (re : RegExp) (input : list ascii) (index : nat) : option (nat * State) :=
  let x := {| rest := input; endIndex := index; captures := replicate (groups re) None |} in
  match matcher (ignoreCase re) (source re) x Some with
  | Some y => Some (index, y)
  | None =>
      match input with
      | [] => None
      | _ :: tl => search re tl (S index)
      end
  end.

Definition matched_text (input : list ascii) (index start : nat) (y : State) : string :=
  string_of_list_ascii (take (endIndex y - start) (drop (start - index) input)).

(** The loop of [RegExp.prototype[Symbol.match]] for a global expression:
    every match in turn; after an empty match the search resumes one
    character further. *)
Fixpoint match_all (fuel : nat) (re : RegExp) (input : list ascii) (index : nat) : list string :=
  match fuel with
  | 0 => []
  | S fuel' =>
      match search re input index with
      | None => []
      | Some (start, y) =>
          matched_text input index start y ::
          (if endIndex y =? start then
             match rest y with
             | [] => []
             | _ :: tl => match_all fuel' re tl (S start)
             end
           else match_all fuel' re (rest y) (endIndex y))
      end
  end.

(** [str.match(re)]: [null] when nothing matches; with flag g the array of
    all matched texts; otherwise the matched text followed by the captures
    ([undefined] for a group that did not take part). *)
Definition match_ (str : string) (re : RegExp) : option (list (option string)) :=
  let input := list_ascii_of_string str in
  if global re then
    match match_all (S (length input)) re input 0 with
    | [] => None
    | texts => Some (Some <$> texts)
    end
  else
    match search re input 0 with
    | None => None
    | Some (start, y) => Some (Some (matched_text input 0 start y) :: captures y)
    end.

(** [str.replace(re, replacement)] for an expression without flag g and a
    replacement without [$] patterns: the first match is replaced. *)
Definition replace (str : string) (re : RegExp) (replacement : string) : string :=
  let input := list_ascii_of_string str in
  match search re input 0 with
  | None => str
  | Some (start, y) =>
      string_of_list_ascii (take start input) ++ replacement ++ string_of_list_ascii (rest y)
  end.

End RegExp.

(** ** Transcript heuristics of BlandAICallManager *)

Record TranscriptEntry := { user : string; text : string }.

Module BlandAICallManager.
Import RegExp.

Definition upper_or_digit : CharSet := Ranges [("A", "Z"); ("0", "9")]%char.
Definition upper : CharSet := Ranges [("A", "Z")]%char.

(** /(?:reference|confirmation|case|ticket|order|claim)\s*(?:number|#|id)?\s*:?\s*([A-Z0-9]{4,})/i *)
Definition labelled_reference : RegExp :=
  {| source :=
       Seqs [ Alts (Lit <$> ["reference"; "confirmation"; "case"; "ticket"; "order"; "claim"]);
              Star (Class WhiteSpace);
              Opt (Alts (Lit <$> ["number"; "#"; "id"]));
              Star (Class WhiteSpace);
              Opt (Char ":");
              Star (Class WhiteSpace);
              Group 1 (AtLeast 4 (Class upper_or_digit)) ];
     groups := 1; ignoreCase := true; global := false |}.

(** /([A-Z]{2,}\d{4,}|\d{6,}[A-Z]{2,})/g *)
Definition letters_and_digits : RegExp :=
  {| source :=
       Group 1 (Alt (Seq (AtLeast 2 (Class upper)) (AtLeast 4 (Class Digit)))
                    (Seq (AtLeast 6 (Class Digit)) (AtLeast 2 (Class upper))));
     groups := 1; ignoreCase := false; global := true |}.

(** /([A-Z0-9]{8,})/g *)
Definition long_token : RegExp :=
  {| source := Group 1 (AtLeast 8 (Class upper_or_digit));
     groups := 1; ignoreCase := false; global := true |}.

Definition referencePatterns : list RegExp :=
  [labelled_reference; letters_and_digits; long_token].

(** [matches[1] || matches[0]] *)
Definition first_group_or_match (matches : list (option string)) : string :=
  let at_ i := default "" (mjoin (matches !! i)) in
  JS.or_else (at_ 1) (at_ 0).

(** The inner loop over [referencePatterns] for one entry. *)
Fixpoint try_patterns (patterns : list RegExp) (entry_text : string) : option string :=
  match patterns with
  | [] => None
  | pattern :: others =>
      match match_ entry_text pattern with
      | Some matches => Some (first_group_or_match matches)
      | None => try_patterns others entry_text
      end
  end.

(** The outer loop, over the entries already reversed. *)
Fixpoint scan_entries (entries : list TranscriptEntry) : option string :=
  match entries with
  | [] => None
  | entry :: older =>
      if String.eqb (user entry) "assistant" then scan_entries older
      else
        match try_patterns referencePatterns (text entry) with
        | Some reference => Some reference
        | None => scan_entries older
        end
  end.

Definition extractReferenceNumber (transcript : list TranscriptEntry) : option string :=
  match transcript with
  | [] => None
  | _ => scan_entries (rev transcript)
  end.

End BlandAICallManager.

(** ** Contact details and IVR plans (types/entityResolver.ts, types/callOrchestration.ts) *)

Inductive IVROption :=
  { key : string; description : string; nextNode : option IVRNode }
with IVRNode :=
  { prompt : string; options : list IVROption }.

Inductive IVRAction := wait | press | say.

#[global] Instance IVRAction_eq_dec : EqDecision IVRAction.
Proof. solve_decision. Defined.

Record IVRNavigationStep := {
  action : IVRAction;
  value : string;
  delayMs : Z;
  step_description : string
}.

Record IVRNavigationPlan := {
  steps : list IVRNavigationStep;
  estimatedDuration : Z
}.

Record ContactDetails := {
  phoneNumbers : list string;
  ivrStructure : option (list IVRNode)
}.

Module TwilioPlans.

(** TwilioController.generateIVRNavigationPlan.  The test
    [ivrStructure && ivrStructure.length > 0] fails for [undefined] and for
    the empty array. *)
Definition generateIVRNavigationPlan
    (ivrStructure : option (list IVRNode)) (targetDepartment : string) : IVRNavigationPlan :=
  match ivrStructure with
  | Some (_ :: _) =>
      {| steps :=
           [ {| action := wait; value := "greeting"; delayMs := 5000%Z;
                step_description := "Wait for initial greeting" |};
             {| action := press; value := "2"; delayMs := 1000%Z;
                step_description := "Press 2 for customer service" |};
             {| action := wait; value := "menu"; delayMs := 3000%Z;
                step_description := "Wait for department menu" |};
             {| action := press; value := "1"; delayMs := 1000%Z;
                step_description := "Press 1 for billing issues" |} ];
         estimatedDuration := 10000%Z |}
  | _ =>
      {| steps :=
           [ {| action := wait; value := "greeting"; delayMs := 5000%Z;
                step_description := "Wait for initial greeting" |};
             {| action := press; value := "0"; delayMs := 1000%Z;
                step_description := "Press 0 to reach an operator" |};
             {| action := wait; value := "operator"; delayMs := 10000%Z;
                step_description := "Wait for operator" |} ];
         estimatedDuration := 16000%Z |}
  end.

(** The keys a plan presses, in order. *)
Definition pressed_keys (plan : IVRNavigationPlan) : list string :=
  value <$> filter (fun s => action s = press) (steps plan).

End TwilioPlans.

(** ** Contexts *)

Record UserDetails := { name : string; email : string; phone : string }.

Record ComplaintContext := {
  rawText : string;
  confidence : float;
  cc_complaintType : option string;
  extractedFeatures : Fields
}.

Record CompanyInfo := { company_name : string; company_confidence : float }.

Record EnhancedComplaintContext := {
  originalComplaint : string;
  issue : option string;
  customerDetails : option UserDetails;
  contactDetails : option ContactDetails;
  conversationHistory : list ConversationTurn;
  finalConfidence : float;
  extractedFields : Fields;
  complaintType : option string;
  userDetails : option UserDetails
}.

Definition with_history (h : list ConversationTurn) (c : EnhancedComplaintContext) :=
  {| originalComplaint := originalComplaint c; issue := issue c;
     customerDetails := customerDetails c; contactDetails := contactDetails c;
     conversationHistory := h; finalConfidence := finalConfidence c;
     extractedFields := extractedFields c; complaintType := complaintType c;
     userDetails := userDetails c |}.

Definition with_confidence (f : float) (c : EnhancedComplaintContext) :=
  {| originalComplaint := originalComplaint c; issue := issue c;
     customerDetails := customerDetails c; contactDetails := contactDetails c;
     conversationHistory := conversationHistory c; finalConfidence := f;
     extractedFields := extractedFields c; complaintType := complaintType c;
     userDetails := userDetails c |}.

Definition with_fields (fs : Fields) (c : EnhancedComplaintContext) :=
  {| originalComplaint := originalComplaint c; issue := issue c;
     customerDetails := customerDetails c; contactDetails := contactDetails c;
     conversationHistory := conversationHistory c; finalConfidence := finalConfidence c;
     extractedFields := fs; complaintType := complaintType c;
     userDetails := userDetails c |}.

(** ** Call results (types/callOrchestration.ts) *)

Inductive CallStatus := pending | failed | resolved | escalated | call_failed.

Record CallResult := {
  status : CallStatus;
  resolution : string;
  nextSteps : list string;
  callId : option string
}.

Record FallbackResult := {
  userResponses : Fields;
  callResumed : bool;
  resumeTimestamp : float
}.

(** ** The outside world *)

(** Firestore documents are schemaless: a map from field names to values. *)
Inductive FsValue :=
| VStr (s : string)
| VInt (n : Z)
| VNum (x : float)
| VBool (b : bool)
| VStrs (l : list string)
| VTurns (turns : list ConversationTurn)
| VFields (fs : Fields)
| VUser (u : UserDetails)
| VStatus (s : CallStatus)
| VNull
| VTime (t : nat).

Abbreviation Document := (gmap string FsValue).

(** What a field of an [update] payload asks for: a value, or one of the
    sentinels [FieldValue.increment(n)] and [FieldValue.serverTimestamp()]. *)
Inductive FieldUpdate :=
| SetTo (v : FsValue)
| Increment (n : Z)
| ServerTimestamp.

Inductive Collection := complaints | users | fallbacks (complaintId : string).

#[global] Instance Collection_eq_dec : EqDecision Collection.
Proof. solve_decision. Defined.

(** The prompts the dialogue sends; the fixed wording of each template is
    left out, its interpolated parts are kept. *)
Inductive Prompt :=
| PreAnalysisPrompt (complaint : string)
| ContinuePrompt (complaint summary : string) (known : Fields)
| QuestionPrompt (complaint summary : string) (known : Fields) (isLastQuestion : bool)
| AnswerPrompt (complaint asked answered : string) (known : Fields).

Inductive ClientMethod := generateFollowupQuestions_ | extractInformation_.

Record CallRequest := { to : option string; from : string; url : string }.

Record World := {
  complaintDocs : gmap string Document;
  userDocs : gmap string Document;
  fallbackDocs : list (string * Document);     (* complaints/{id}/fallbacks, in order of creation *)
  firestoreRequests : nat;                     (* requests issued so far *)
  completions : list (ClientMethod * Prompt);  (* chat completions requested so far *)
  dialled : list CallRequest;                  (* calls.create requests so far *)
  draws : nat                                  (* uuid and clock readings so far *)
}.

(** The behaviour of the collaborators.  Each is indexed by how many
    requests of its kind came before, so that any behaviour over time can be
    expressed. *)
Record Env := {
  firestore_rejects : nat -> bool;                      (* the n-th request fails *)
  openai_create : nat -> ClientMethod -> Prompt -> Outcome (option string);
                                                        (* message content, possibly null *)
  twilio_calls_create : nat -> CallRequest -> Outcome string;   (* the sid *)
  uuidv4 : nat -> string;
  clock : nat -> nat;
  JSON_parse : string -> option Fields;                 (* [None]: SyntaxError *)
  TWILIO_PHONE_NUMBER : string;
  PUBLIC_URL : string
}.

Definition M (A : Type) : Type := World -> Outcome A * World.

#[global] Instance M_ret : MRet M := fun A (a : A) w => (Returned a, w).

#[global] Instance M_bind : MBind M := fun A B (k : A -> M B) (m : M A) w =>
  match m w with
  | (Returned a, w') => k a w'
  | (Thrown e, w') => (Thrown e, w')
  end.

Definition throw {A} (message : string) : M A := fun w => (Thrown message, w).

(** [try { body } catch (error) { handler(error.message) }] *)
Definition try_catch {A} (body : M A) (handler : string -> M A) : M A := fun w =>
  match body w with
  | (Returned a, w') => (Returned a, w')
  | (Thrown e, w') => handler e w'
  end.

Definition get_world : M World := fun w => (Returned w, w).
Definition put_world (w' : World) : M unit := fun _ => (Returned tt, w').

Definition bump_firestore (w : World) : World :=
  {| complaintDocs := complaintDocs w; userDocs := userDocs w; fallbackDocs := fallbackDocs w;
     firestoreRequests := S (firestoreRequests w); completions := completions w;
     dialled := dialled w; draws := draws w |}.

Definition bump_draws (w : World) : World :=
  {| complaintDocs := complaintDocs w; userDocs := userDocs w; fallbackDocs := fallbackDocs w;
     firestoreRequests := firestoreRequests w; completions := completions w;
     dialled := dialled w; draws := S (draws w) |}.

Definition set_complaintDocs (docs : gmap string Document) (w : World) : World :=
  {| complaintDocs := docs; userDocs := userDocs w; fallbackDocs := fallbackDocs w;
     firestoreRequests := firestoreRequests w; completions := completions w;
     dialled := dialled w; draws := draws w |}.

Definition set_userDocs (docs : gmap string Document) (w : World) : World :=
  {| complaintDocs := complaintDocs w; userDocs := docs; fallbackDocs := fallbackDocs w;
     firestoreRequests := firestoreRequests w; completions := completions w;
     dialled := dialled w; draws := draws w |}.

Definition set_fallbackDocs (docs : list (string * Document)) (w : World) : World :=
  {| complaintDocs := complaintDocs w; userDocs := userDocs w; fallbackDocs := docs;
     firestoreRequests := firestoreRequests w; completions := completions w;
     dialled := dialled w; draws := draws w |}.

Definition log_completion (c : ClientMethod * Prompt) (w : World) : World :=
  {| complaintDocs := complaintDocs w; userDocs := userDocs w; fallbackDocs := fallbackDocs w;
     firestoreRequests := firestoreRequests w; completions := completions w ++ [c];
     dialled := dialled w; draws := draws w |}.

Definition log_dial (r : CallRequest) (w : World) : World :=
  {| complaintDocs := complaintDocs w; userDocs := userDocs w; fallbackDocs := fallbackDocs w;
     firestoreRequests := firestoreRequests w; completions := completions w;
     dialled := dialled w ++ [r]; draws := draws w |}.

(** Typed reads of a document, with the [x || default] idiom of the sources. *)
Definition str_field (d : Document) (k : string) : option string :=
  match d !! k with Some (VStr s) => Some s | _ => None end.

Definition str_or (d : Document) (k dflt : string) : string :=
  match str_field d k with Some s => JS.or_else s dflt | None => dflt end.

Definition turns_or_empty (d : Document) : list ConversationTurn :=
  match d !! "conversationHistory" with Some (VTurns h) => h | _ => [] end.

Definition fields_or_empty (d : Document) (k : string) : Fields :=
  match d !! k with Some (VFields fs) => fs | _ => ∅ end.

(** [data.finalConfidence || 0.5]: 0, -0, NaN and a missing field are falsy. *)
Definition num_or (d : Document) (k : string) (dflt : float) : float :=
  match d !! k with
  | Some (VNum x) => if is_zero x || is_nan x then dflt else x
  | _ => dflt
  end.

(** [data?.retryCount || 0] *)
Definition int_or_zero (d : Document) (k : string) : Z :=
  match d !! k with Some (VInt n) => n | _ => 0%Z end.

Definition user_field (d : Document) (k : string) : option UserDetails :=
  match d !! k with Some (VUser u) => Some u | _ => None end.

Definition user_of_document (d : Document) : UserDetails :=
  {| name := default "" (str_field d "name");
     email := default "" (str_field d "email");
     phone := default "" (str_field d "phone") |}.

(** The stored conversation history of a complaint ([[]] when there is no
    document or no such field). *)
(** ** Firestore *)

Definition stored_history (w : World) (complaintId : string) : list ConversationTurn :=
  match complaintDocs w !! complaintId with
  | Some d => turns_or_empty d
  | None => []
  end.

Module Firestore.
Section WithEnv.

Variable env : Env.

Definition now : M nat := fun w => (Returned (clock env (draws w)), bump_draws w).
Definition fresh_uuid : M string := fun w => (Returned (uuidv4 env (draws w)), bump_draws w).

(** Every request may be rejected by the service. *)
Definition request : M unit := fun w =>
  if firestore_rejects env (firestoreRequests w)
  then (Thrown "Firestore request failed", bump_firestore w)
  else (Returned tt, bump_firestore w).

Definition lookup_document (c : Collection) (docId : string) (w : World) : option Document :=
  match c with
  | complaints => complaintDocs w !! docId
  | users => userDocs w !! docId
  | fallbacks _ => None
  end.

(** [db.collection(c).doc(docId).get()]; [None] is a snapshot with
    [exists = false]. *)
Definition get (c : Collection) (docId : string) : M (option Document) :=
  request ;; w ← get_world; mret (lookup_document c docId w).

Definition resolve_update (t : nat) (old : option FsValue) (u : FieldUpdate) : FsValue :=
  match u with
  | SetTo v => v
  | Increment n => match old with Some (VInt m) => VInt (m + n) | _ => VInt n end
  | ServerTimestamp => VTime t
  end.

Definition apply_update (t : nat) (payload : gmap string FieldUpdate) (d : Document) : Document :=
  map_imap (fun k u => Some (resolve_update t (d !! k) u)) payload ∪ d.

(** [db.collection(c).doc(docId).update(payload)]: rejected when the
    document does not exist. *)
Definition update (c : Collection) (docId : string)
    (payload : gmap string FieldUpdate) : M unit :=
  request ;;
  t ← now;
  w ← get_world;
  match lookup_document c docId w with
  | None => throw "No document to update"
  | Some d =>
      let d' := apply_update t payload d in
      match c with
      | complaints => put_world (set_complaintDocs (<[docId := d']> (complaintDocs w)) w)
      | users => put_world (set_userDocs (<[docId := d']> (userDocs w)) w)
      | fallbacks _ => mret tt
      end
  end.

(** [db.collection(c).add(data)]: a new document under a generated id. *)
Definition add (c : Collection) (payload : gmap string FieldUpdate) : M string :=
  request ;;
  t ← now;
  newId ← fresh_uuid;
  w ← get_world;
  let d := apply_update t payload ∅ in
  match c with
  | complaints => put_world (set_complaintDocs (<[newId := d]> (complaintDocs w)) w)
  | users => put_world (set_userDocs (<[newId := d]> (userDocs w)) w)
  | fallbacks cid => put_world (set_fallbackDocs (fallbackDocs w ++ [(cid, d)]) w)
  end ;;
  mret newId.

End WithEnv.
End Firestore.

(** ** OpenAIClient (modules/llm/openAIClient.ts) *)

Module OpenAIClient.
Section WithEnv.

Variable env : Env.

Definition chat_completions_create (method : ClientMethod) (p : Prompt) : M (option string) :=
  fun w =>
    let w' := log_completion (method, p) w in
    match openai_create env (length (completions w)) method p with
    | Returned content => (Returned content, w')
    | Thrown e => (Thrown e, w')
    end.

(** [content || fallback] for a nullable string. *)
Definition content_or (content : option string) (fallback : string) : string :=
  match content with Some s => JS.or_else s fallback | None => fallback end.

Definition generateFollowupQuestions (p : Prompt) : M string :=
  try_catch
    (content ← chat_completions_create generateFollowupQuestions_ p;
     mret (content_or content
       "I apologize, but I need more information to help you better. Could you please provide more details about your complaint?"))
    (fun _ => throw "Failed to generate follow-up questions").

Definition extractInformation (p : Prompt) : M string :=
  try_catch
    (content ← chat_completions_create extractInformation_ p;
     mret (content_or content "{}"))
    (fun _ => mret "{}").

End WithEnv.
End OpenAIClient.

(** ** FollowupHandler (modules/followupQuestions/followupHandler.ts) *)

Module FollowupHandler.
Section WithEnv.

Variable env : Env.
Variable maxQuestions : nat.     (* followupQuestionsConfig.maxQuestions *)

(** /\{[\s\S]*?\}/ *)
Definition json_object : RegExp.RegExp :=
  {| RegExp.source :=
       RegExp.Seqs [RegExp.Char "{"; RegExp.LazyStar (RegExp.Class RegExp.AnyChar); RegExp.Char "}"];
     RegExp.groups := 0; RegExp.ignoreCase := false; RegExp.global := false |}.

Definition first_match (str : string) (re : RegExp.RegExp) : option string :=
  match RegExp.match_ str re with
  | Some (Some m :: _) => Some m
  | _ => None
  end.

(** [JSON.parse] guarded by its own [try]; a value that is not an object
    counts as [{}]. *)
Definition parse_fields (jsonStr : string) : Fields := default ∅ (JSON_parse env jsonStr).

Definition extractInformationFromText (text_ : string) : M Fields :=
  try_catch
    (response ← OpenAIClient.extractInformation env (PreAnalysisPrompt text_);
     let jsonStr := default response (first_match response json_object) in
     mret (parse_fields jsonStr))
    (fun _ => mret ∅).

Definition preAnalyzeComplaint (context : EnhancedComplaintContext) : M EnhancedComplaintContext :=
  try_catch
    (extracted ← extractInformationFromText (originalComplaint context);
     mret (with_fields (extracted ∪ extractedFields context) context))
    (fun _ => mret context).

Definition summary_of_turn (index : nat) (turn : ConversationTurn) : string :=
  let n := pretty (S index) in
  let questionPart := "Q" ++ n ++ ": " ++ question turn in
  let answerPart :=
    if JS.truthy (answer turn) && JS.truthy (JS.trim (answer turn))
    then "A" ++ n ++ ": " ++ answer turn
    else "A" ++ n ++ ": [No answer yet]" in
  questionPart ++ JS.newline ++ answerPart.

Definition buildConversationSummary (context : EnhancedComplaintContext) : string :=
  match conversationHistory context with
  | [] => "No previous questions asked."
  | history => JS.join (JS.newline ++ JS.newline) (imap summary_of_turn history)
  end.

Definition llmShouldContinueAsking (context : EnhancedComplaintContext) : M bool :=
  let conversationSummary := buildConversationSummary context in
  let prompt_ :=
    ContinuePrompt (originalComplaint context) conversationSummary (extractedFields context) in
  try_catch
    (response ← OpenAIClient.generateFollowupQuestions env prompt_;
     let decision := JS.toUpperCase (JS.trim response) in
     mret (String.eqb decision "CONTINUE"))
    (fun _ => mret false).

Definition shouldAskMoreQuestions (context : EnhancedComplaintContext) : M bool :=
  if maxQuestions <=? length (conversationHistory context) then mret false
  else
    try_catch
      (llmShouldContinueAsking context)
      (fun _ =>
         let answeredQuestions := length (List.filter is_answered (conversationHistory context)) in
         mret (answeredQuestions <? 2)).

(** The prefix stripped from a generated question: at the start of the
    text, one of [Question:], [Q:], [Answer:], digits and a dot, a dash or
    a star, then any white space; flag i. *)
Definition question_prefix : RegExp.RegExp :=
  {| RegExp.source :=
       RegExp.Seqs
         [ RegExp.LineStart;
           RegExp.Group 1 (RegExp.Alts
             [ RegExp.Lit "Question:"; RegExp.Lit "Q:"; RegExp.Lit "Answer:";
               RegExp.Seq (RegExp.AtLeast 1 (RegExp.Class RegExp.Digit)) (RegExp.Char ".");
               RegExp.Char "-"; RegExp.Char "*" ]);
           RegExp.Star (RegExp.Class RegExp.WhiteSpace) ];
     RegExp.groups := 1; RegExp.ignoreCase := true; RegExp.global := false |}.

Definition vaguePhrases : list string :=
  ["more details"; "clarify"; "can you tell me"; "additional information"].

(** [lines.find(line => line.includes('?')) || lines[0] || response] *)
Definition pick_question (lines : list string) (response : string) : string :=
  JS.or_else
    (JS.or_else (default "" (List.find (fun line => JS.includes line "?") lines))
                (default "" (head lines)))
    response.

Definition llmGenerateIntelligentQuestion
    (context : EnhancedComplaintContext) (isLastQuestion : bool) : M string :=
  let conversationSummary := buildConversationSummary context in
  let prompt_ :=
    QuestionPrompt (originalComplaint context) conversationSummary
                   (extractedFields context) isLastQuestion in
  response ← OpenAIClient.generateFollowupQuestions env prompt_;
  let lines := List.filter (fun line => JS.truthy (JS.trim line)) (JS.split_lines response) in
  let picked := pick_question lines response in
  let cleaned := JS.trim (RegExp.replace picked question_prefix "") in
  if (String.length cleaned <? 10) || (150 <? String.length cleaned)
  then throw "Generated question is too short or too long"
  else
    let isVague :=
      existsb (fun phrase => JS.includes (JS.toLowerCase cleaned) phrase) vaguePhrases in
    if isVague && negb isLastQuestion
    then throw "Generated question is too vague"
    else mret cleaned.

Definition getFallbackQuestion (context : EnhancedComplaintContext) (isLastQuestion : bool) : string :=
  let conversationLength := length (conversationHistory context) in
  if conversationLength =? 0 then
    "To help resolve your issue quickly, could you tell me when this problem first occurred?"
  else if conversationLength =? 1 then
    "What specific outcome or resolution are you hoping for with this issue?"
  else if isLastQuestion then
    "Is there any other important information you think would help us resolve this issue?"
  else
    "Could you provide any reference numbers, account details, or other specific information related to this problem?".

Definition generateFollowupQuestion (context : EnhancedComplaintContext) : M string :=
  let used := length (conversationHistory context) in
  let isLastQuestion := maxQuestions =? S used in     (* questionsRemaining === 1 *)
  if maxQuestions <=? used                            (* questionsRemaining <= 0 *)
  then mret ""
  else
    try_catch
      (llmGenerateIntelligentQuestion context isLastQuestion)
      (fun _ => mret (getFallbackQuestion context isLastQuestion)).

Definition extractInformationFromAnswer
    (context : EnhancedComplaintContext) (asked answered : string) : M Fields :=
  try_catch
    (let prompt_ :=
       AnswerPrompt (originalComplaint context) asked answered (extractedFields context) in
     response ← OpenAIClient.extractInformation env prompt_;
     let jsonStr := default "{}" (first_match response json_object) in
     mret (parse_fields jsonStr))
    (fun _ => mret ∅).

End WithEnv.
End FollowupHandler.

(** ** ConversationManager (modules/followupQuestions/conversationManager.ts) *)

Module ConversationManager.
Section WithEnv.

Variable env : Env.
Variable maxQuestions : nat.     (* followupQuestionsConfig.maxQuestions *)

Definition not_found (complaintId : string) : string :=
  "Complaint document " ++ complaintId ++ " not found".

(** The user document is read only when the complaint names a user, and a
    failure of that read is logged and ignored. *)
Definition load_user (existingData : Document) : M (option UserDetails) :=
  match str_field existingData "userId" with
  | Some userId =>
      if JS.truthy userId then
        try_catch
          (userDoc ← Firestore.get env users userId;
           mret (user_of_document <$> userDoc))
          (fun _ => mret None)
      else mret None
  | None => mret None
  end.

Definition user_fields (u : option UserDetails) : Fields :=
  match u with
  | Some d => {[ "name" := name d; "email" := email d; "phone" := phone d ]}
  | None => ∅
  end.

Definition new_turn (newId question_ : string) (t : nat) : ConversationTurn :=
  {| id := newId; question := question_; answer := ""; timestamp := t;
     extractedInfo := ∅; confidenceDelta := 0 |}.

(** The block guarded by [questionCount < MAX_QUESTIONS]: the history after
    it, with a new unanswered turn pushed or not. *)
Definition maybe_ask (enhancedContext : EnhancedComplaintContext) (questionCount : nat)
    : M (list ConversationTurn) :=
  let history := conversationHistory enhancedContext in
  if questionCount <? maxQuestions then
    shouldContinue ← FollowupHandler.shouldAskMoreQuestions env maxQuestions enhancedContext;
    if (shouldContinue : bool) then
      question_ ← FollowupHandler.generateFollowupQuestion env maxQuestions enhancedContext;
      if JS.truthy question_ && (0 <? String.length (JS.trim question_)) then
        newId ← Firestore.fresh_uuid env;
        t ← Firestore.now env;
        mret (history ++ [new_turn newId question_ t])%list
      else mret history
    else mret history
  else mret history.

Definition askQuestions (context : ComplaintContext) (companyInfo : CompanyInfo)
    (complaintId : string) : M EnhancedComplaintContext :=
  (* Verify complaint document exists and get existing data *)
  existingData ←
    try_catch
      (complaintDoc ← Firestore.get env complaints complaintId;
       match complaintDoc with
       | None => throw (not_found complaintId)
       | Some data => mret data
       end)
      (fun e => throw e);
  userDetails_ ← load_user existingData;
  (* Initialize enhanced context with existing conversation history *)
  let initial :=
    {| originalComplaint := rawText context;
       issue := None; customerDetails := None; contactDetails := None;
       conversationHistory := turns_or_empty existingData;
       finalConfidence := confidence context;
       complaintType := cc_complaintType context;
       extractedFields :=
         user_fields userDetails_ ∪ fields_or_empty existingData "extractedFields"
           ∪ extractedFeatures context;
       userDetails := userDetails_ |} in
  (* Pre-analyze the complaint (only if no existing history) *)
  enhancedContext ←
    (if length (conversationHistory initial) =? 0
     then FollowupHandler.preAnalyzeComplaint env initial
     else mret initial);
  (* Check for pending (unanswered) questions *)
  let pendingQuestions := List.filter is_pending (conversationHistory enhancedContext) in
  if 0 <? length pendingQuestions then
    let finalConfidence_ :=
      ConfidenceEvaluator.calculateOverallConfidence
        (confidence context) (conversationHistory enhancedContext) in
    mret (with_confidence finalConfidence_ enhancedContext)
  else
    let answeredQuestions := List.filter is_answered (conversationHistory enhancedContext) in
    let questionCount := length answeredQuestions in
    history' ← maybe_ask enhancedContext questionCount;
    (* Calculate final confidence *)
    let finalConfidence_ :=
      ConfidenceEvaluator.calculateOverallConfidence
        (confidence context) (List.filter is_answered history') in
    let result := with_confidence finalConfidence_ (with_history history' enhancedContext) in
    let hasUnansweredQuestions := existsb is_pending history' in
    let questionFlowCompleted := negb hasUnansweredQuestions in
    (* Update Firebase with the current state *)
    try_catch
      (Firestore.update env complaints complaintId
         (list_to_map
            [ ("conversationHistory", SetTo (VTurns history'));
              ("extractedFields", SetTo (VFields (extractedFields result)));
              ("finalConfidence", SetTo (VNum finalConfidence_));
              ("questionFlowCompleted", SetTo (VBool questionFlowCompleted));
              ("questionsAsked", SetTo (VInt (Z.of_nat (length history'))));
              ("questionsAnswered", SetTo (VInt (Z.of_nat (length answeredQuestions))));
              ("updatedAt", ServerTimestamp) ]))
      (fun e => throw e) ;;
    mret result.

(** [conversationHistory.findIndex(turn => turn.id === questionId)]; [None]
    stands for -1. *)
Fixpoint findIndex (questionId : string) (history : list ConversationTurn) : option nat :=
  match history with
  | [] => None
  | turn :: later =>
      if String.eqb (id turn) questionId then Some 0
      else S <$> findIndex questionId later
  end.

Definition answered_turn (turn : ConversationTurn) (answer_ : string) (t : nat)
    (extracted : Fields) : ConversationTurn :=
  {| id := id turn; question := question turn; answer := answer_; timestamp := t;
     extractedInfo := extracted;
     confidenceDelta := if 0 <? size extracted then 0.2%float else 0.1%float |}.

(** The context built for the information extraction: the stored complaint
    with [conversationHistory.slice(0, questionIndex)], the previous turns
    only. *)
Definition tempContext (complaintData : Document) (questionIndex : nat) : EnhancedComplaintContext :=
  {| originalComplaint := str_or complaintData "rawText" "";
     issue := None; customerDetails := None; contactDetails := None;
     conversationHistory := take questionIndex (turns_or_empty complaintData);
     finalConfidence := num_or complaintData "finalConfidence" 0.5;
     complaintType := Some (str_or complaintData "complaintType" "GENERAL");
     extractedFields := fields_or_empty complaintData "extractedFields";
     userDetails := user_field complaintData "userDetails" |}.

(** The pause of 200 ms before returning has no counterpart here. *)
Definition processAnswer (complaintId questionId answer_ : string) : M EnhancedComplaintContext :=
  try_catch
    ((* Get current state from Firebase *)
     complaintDoc ← Firestore.get env complaints complaintId;
     match complaintDoc with
     | None => throw (not_found complaintId)
     | Some complaintData =>
         let history := turns_or_empty complaintData in
         match findIndex questionId history with
         | None => throw ("No question found matching questionId: " ++ questionId)
         | Some questionIndex =>
             match history !! questionIndex with
             | None => throw "TypeError: Cannot read properties of undefined (reading 'question')"
             | Some turn =>
                 let questionToAnswer := question turn in
                 let storedConfidence := num_or complaintData "finalConfidence" 0.5 in
                 let storedFields := fields_or_empty complaintData "extractedFields" in
                 (* Extract information from the answer, on the previous turns only *)
                 extracted ←
                   FollowupHandler.extractInformationFromAnswer env
                     (tempContext complaintData questionIndex) questionToAnswer answer_;
                 (* Update the conversation turn with the answer and extracted info *)
                 t ← Firestore.now env;
                 let history' := <[questionIndex := answered_turn turn answer_ t extracted]> history in
                 let updatedFields := extracted ∪ storedFields in
                 (* Calculate updated confidence *)
                 let finalConfidence_ :=
                   ConfidenceEvaluator.calculateOverallConfidence
                     storedConfidence (List.filter is_answered history') in
                 let enhancedContext :=
                   with_confidence finalConfidence_
                     (with_fields updatedFields
                        (with_history history' (tempContext complaintData questionIndex))) in
                 let hasUnansweredQuestions := existsb is_pending history' in
                 try_catch
                   (Firestore.update env complaints complaintId
                      (list_to_map
                         [ ("conversationHistory", SetTo (VTurns history'));
                           ("extractedFields", SetTo (VFields updatedFields));
                           ("finalConfidence", SetTo (VNum finalConfidence_));
                           ("questionFlowCompleted", SetTo (VBool (negb hasUnansweredQuestions)));
                           ("questionsAnswered",
                            SetTo (VInt (Z.of_nat (length (List.filter is_answered history')))));
                           ("lastAnswerProcessedAt", ServerTimestamp);
                           ("updatedAt", ServerTimestamp) ]))
                   (fun e => throw e) ;;
                 mret enhancedContext
             end
         end
     end)
    (fun e => throw e).

End WithEnv.
End ConversationManager.

(** The configuration shipped with the sources. *)
Definition followupQuestionsConfig_maxQuestions : nat := 4.

(** ** TwilioController (modules/callOrchestration/twilioController.ts) *)

(** The methods of the controller the fallback handler is constructed with. *)
Record TwilioControllerMethods := {
  invoke_placeCallOnHold : string -> M bool;
  invoke_resumeCall : string -> M bool;
  invoke_callUserForFallback : string -> list string -> string -> M FallbackResult
}.

Module TwilioController.
Section WithEnv.

Variable env : Env.

(** Both bodies only log and report success; nothing in the [try] can throw. *)
Definition placeCallOnHold (callSid : string) : M bool :=
  try_catch (mret true) (fun _ => mret false).

Definition resumeCall (callSid : string) : M bool :=
  try_catch (mret true) (fun _ => mret false).

Definition simulated_response (info : string) : string :=
  if JS.includes info "account" then "AC123456789"
  else if JS.includes info "date" then "2025-05-15"
  else if JS.includes info "amount" then "$249.99"
  else "Information about " ++ info.

(** [missingInfo.forEach(info => userResponses[info] = ...)] *)
Definition simulated_responses (missingInfo : list string) : Fields :=
  fold_left (fun responses info => <[info := simulated_response info]> responses) missingInfo ∅.

(** [Date.now() / 1000] *)
Definition seconds (ms : nat) : float :=
  (PrimFloat.of_uint63 (Uint63.of_Z (Z.of_nat ms)) / 1000)%float.

Definition callUserForFallback (userPhoneNumber : string) (missingInfo : list string)
    (complaintId : string) : M FallbackResult :=
  try_catch
    (let responses := simulated_responses missingInfo in
     Firestore.add env (fallbacks complaintId)
       (list_to_map
          [ ("timestamp", ServerTimestamp);
            ("userPhoneNumber", SetTo (VStr userPhoneNumber));
            ("missingInfo", SetTo (VStrs missingInfo));
            ("userResponses", SetTo (VFields responses)) ]) ;;
     t ← Firestore.now env;
     mret {| userResponses := responses; callResumed := true; resumeTimestamp := seconds t |})
    (fun e => throw ("Failed to call user for fallback: " ++ e)).

Definition methods : TwilioControllerMethods :=
  {| invoke_placeCallOnHold := placeCallOnHold;
     invoke_resumeCall := resumeCall;
     invoke_callUserForFallback := callUserForFallback |}.

End WithEnv.
End TwilioController.

(** ** FallbackHandler (modules/callOrchestration/fallbackHandler.ts) *)

Module FallbackHandler.
Section WithController.

Variable twilioController : TwilioControllerMethods.

Definition getUserPhoneNumber (context : EnhancedComplaintContext) : string :=
  let phoneNumber := default "" (phone <$> customerDetails context) in
  if JS.truthy phoneNumber then phoneNumber
  else
    let contactPhone := default "" (contactDetails context ≫= fun c => head (phoneNumbers c)) in
    if JS.truthy contactPhone then contactPhone
    else "+15551234567".

Definition handleFallback (callSid : string) (context : EnhancedComplaintContext)
    (missingInfo : list string) (complaintId : string) : M FallbackResult :=
  try_catch
    ((* Put current customer service call on hold *)
     holdSuccess ← invoke_placeCallOnHold twilioController callSid;
     if negb holdSuccess then throw "Failed to place call on hold"
     else
       (* Get user's phone number *)
       let userPhoneNumber := getUserPhoneNumber context in
       if negb (JS.truthy userPhoneNumber)
       then throw "User phone number not available for fallback"
       else
         (* Call user for missing info *)
         fallbackResult ←
           invoke_callUserForFallback twilioController userPhoneNumber missingInfo complaintId;
         (* Resume customer service call *)
         resumeSuccess ← invoke_resumeCall twilioController callSid;
         if negb resumeSuccess then throw "Failed to resume call after fallback"
         else mret fallbackResult)
    (fun e => throw ("Fallback handling failed: " ++ e)).

End WithController.
End FallbackHandler.

(** ** CallManager (modules/callOrchestration/callManager.ts) *)

(** The stored retry counter of a complaint, read as [retryCount || 0]. *)
Definition retryCount_of (w : World) (complaintId : string) : option Z :=
  (fun d => int_or_zero d "retryCount") <$> complaintDocs w !! complaintId.

Module CallManager.
Section WithEnv.

Variable env : Env.
Variable maxRetries : Z.         (* callOrchestrationConfig.maxRetries *)

(** [twilioClient.calls.create(request)] *)
Definition calls_create (request : CallRequest) : M string := fun w =>
  let w' := log_dial request w in
  match twilio_calls_create env (length (dialled w)) request with
  | Returned sid => (Returned sid, w')
  | Thrown e => (Thrown e, w')
  end.

Definition shouldRetryCall (complaintId : string) : M bool :=
  try_catch
    (complaintDoc ← Firestore.get env complaints complaintId;
     match complaintDoc with
     | None => mret false
     | Some complaintData =>
         (* Check retry count against max retries *)
         let retryCount := int_or_zero complaintData "retryCount" in
         if (maxRetries <=? retryCount)%Z then mret false
         else
           (* Increment retry count *)
           Firestore.update env complaints complaintId
             (list_to_map [ ("retryCount", Increment 1); ("lastRetryAt", ServerTimestamp) ]) ;;
           mret true
     end)
    (fun _ => mret false).

(** A failure of the status update is logged and ignored. *)
Definition updateComplaintStatus (complaintId : string) (callResult : CallResult) : M unit :=
  try_catch
    (Firestore.update env complaints complaintId
       (list_to_map
          [ ("status", SetTo (VStatus (status callResult)));
            ("resolution",
             SetTo (if JS.truthy (resolution callResult)
                    then VStr (resolution callResult) else VNull));
            ("nextSteps", SetTo (VStrs (nextSteps callResult)));
            ("lastCallId", SetTo (match callId callResult with Some c => VStr c | None => VNull end));
            ("updatedAt", ServerTimestamp) ]))
    (fun _ => mret tt).

Definition call_request (contact : ContactDetails) : CallRequest :=
  {| to := head (phoneNumbers contact);
     from := TWILIO_PHONE_NUMBER env;
     url := PUBLIC_URL env ++ "/twiml-entrypoint" |}.

(** [placeComplaintCall] calls itself to retry.  [fuel] bounds the depth of
    that recursion; [None] means the bound was reached. *)
Fixpoint placeComplaintCall_within (fuel : nat)
    (context : EnhancedComplaintContext) (contact : ContactDetails) (complaintId : string)
    (w : World) : option (Outcome CallResult * World) :=
  match fuel with
  | 0 => None
  | S fuel' =>
      match calls_create (call_request contact) w with
      | (Returned sid, w1) =>
          let callResult :=
            {| status := resolved; callId := Some sid;
               resolution := "Call initiated successfully";
               nextSteps := ["Awaiting customer service response"] |} in
          Some ((updateComplaintStatus complaintId callResult ;; mret callResult) w1)
      | (Thrown error, w1) =>
          (* Handle retries if configured *)
          match shouldRetryCall complaintId w1 with
          | (Returned true, w2) => placeComplaintCall_within fuel' context contact complaintId w2
          | (Returned false, w2) =>
              (* If no retry or retries exhausted, return failure *)
              let failureResult :=
                {| status := failed; callId := Some "failed_call";
                   resolution := "Call failed: " ++ error;
                   nextSteps := [] |} in
              Some ((updateComplaintStatus complaintId failureResult ;; mret failureResult) w2)
          | (Thrown e, w2) => Some (Thrown e, w2)
          end
      end
  end.

(** Every retry follows an increment of the stored counter, which is then
    read again and compared with [maxRetries]: the depth of the recursion
    never exceeds the distance of the stored counter from [maxRetries], plus
    one. *)
Definition retry_bound (complaintId : string) (w : World) : nat :=
  S (Z.to_nat (maxRetries - default 0%Z (retryCount_of w complaintId))).

Definition placeComplaintCall
    (context : EnhancedComplaintContext) (contact : ContactDetails) (complaintId : string)
    (w : World) : option (Outcome CallResult * World) :=
  placeComplaintCall_within (retry_bound complaintId w) context contact complaintId w.

Definition handleFallback (fallbackHandler : TwilioControllerMethods)
    (callSid : string) (missingInfo : list string)
    (context : EnhancedComplaintContext) (complaintId : string) : M FallbackResult :=
  try_catch
    (FallbackHandler.handleFallback fallbackHandler callSid context missingInfo complaintId)
    (fun e => throw ("Fallback handling failed: " ++ e)).

End WithEnv.
End CallManager.

(** The configuration shipped with the sources ([MAX_RETRIES] unset). *)
Definition callOrchestrationConfig_maxRetries : Z := 2.

(** ** Inputs used in the examples below *)

Definition turn_with_delta (delta : float) : ConversationTurn :=
  {| id := "t"; question := "When did this occur?"; answer := "yesterday"; timestamp := 0;
     extractedInfo := ∅; confidenceDelta := delta |}.

(** Scenario C of the specification. *)
Definition scenarioC : list TranscriptEntry :=
  [ {| user := "human"; text := "Your case number is ABC12345, thank you" |} ].

(** A one-level menu that maps key 5 to billing. *)
Definition billing_menu : list IVRNode :=
  [ {| prompt := "Main menu";
       options := [ {| key := "5"; description := "billing"; nextNode := None |};
                    {| key := "7"; description := "technical_support"; nextNode := None |} ] |} ].

(** Following the specification: the key a known menu maps to a department
    is the key of the first option, over the menus in order, whose
    description names that department. *)
Definition key_mapped_to (structure : list IVRNode) (department : string) : option string :=
  key <$> List.find (fun o => JS.includes (JS.toLowerCase (description o)) (JS.toLowerCase department))
                    (structure ≫= options).

(** Collaborators that all work, except that nobody picks up the phone; the
    LLM answers STOP (or an empty object) to everything. *)
Definition quiet_env : Env :=
  {| firestore_rejects := fun _ => false;
     openai_create := fun _ method _ =>
       Returned (Some match method with
                      | generateFollowupQuestions_ => "STOP"
                      | extractInformation_ => "{}"
                      end);
     twilio_calls_create := fun _ _ => Thrown "line busy";
     uuidv4 := fun n => "uuid-" ++ pretty n;
     clock := fun n => n;
     JSON_parse := fun _ => Some ∅;
     TWILIO_PHONE_NUMBER := "+15550000000";
     PUBLIC_URL := "https://bot.example" |}.

Definition empty_world : World :=
  {| complaintDocs := ∅; userDocs := ∅; fallbackDocs := []; firestoreRequests := 0;
     completions := []; dialled := []; draws := 0 |}.

(** A controller like the one in the sources, except for what holding and
    resuming report. *)
Definition controller_reporting (env : Env) (hold resume : bool) : TwilioControllerMethods :=
  {| invoke_placeCallOnHold := fun _ => mret hold;
     invoke_resumeCall := fun _ => mret resume;
     invoke_callUserForFallback := TwilioController.callUserForFallback env |}.

(** A world whose only document is complaint c1, never retried. *)
Definition world_with_complaint : World :=
  {| complaintDocs := {[ "c1" := {[ "retryCount" := VInt 0 ]} ]};
     userDocs := ∅; fallbackDocs := []; firestoreRequests := 0;
     completions := []; dialled := []; draws := 0 |}.

Definition acme_contact : ContactDetails :=
  {| phoneNumbers := ["+18005550100"]; ivrStructure := None |}.

Definition bare_context : EnhancedComplaintContext :=
  {| originalComplaint := "My card was charged twice";
     issue := None; customerDetails := None; contactDetails := None;
     conversationHistory := []; finalConfidence := 0.5; extractedFields := ∅;
     complaintType := None; userDetails := None |}.

(** The same collaborators with an LLM provider that is down. *)
Definition llm_down_env : Env :=
  {| firestore_rejects := firestore_rejects quiet_env;
     openai_create := fun _ _ _ => Thrown "503 Service Unavailable";
     twilio_calls_create := twilio_calls_create quiet_env;
     uuidv4 := uuidv4 quiet_env;
     clock := clock quiet_env;
     JSON_parse := JSON_parse quiet_env;
     TWILIO_PHONE_NUMBER := TWILIO_PHONE_NUMBER quiet_env;
     PUBLIC_URL := PUBLIC_URL quiet_env |}.

(** What an update of one complaint document leaves alone. *)
Definition same_but_complaint (complaintId : string) (w w' : World) : Prop :=
  dialled w' = dialled w /\ completions w' = completions w /\
  fallbackDocs w' = fallbackDocs w /\ userDocs w' = userDocs w /\
  (forall other, other <> complaintId -> complaintDocs w' !! other = complaintDocs w !! other).

(** Collaborators for which the first call connects. *)
Definition answering_env : Env :=
  {| firestore_rejects := firestore_rejects quiet_env;
     openai_create := openai_create quiet_env;
     twilio_calls_create := fun _ _ => Returned "CA42";
     uuidv4 := uuidv4 quiet_env;
     clock := clock quiet_env;
     JSON_parse := JSON_parse quiet_env;
     TWILIO_PHONE_NUMBER := TWILIO_PHONE_NUMBER quiet_env;
     PUBLIC_URL := PUBLIC_URL quiet_env |}.

(** Collaborators with an LLM that always wants one more question and has
    one to offer. *)
Definition chatty_env : Env :=
  {| firestore_rejects := fun _ => false;
     openai_create := fun _ _ p =>
       Returned (Some match p with
                      | ContinuePrompt _ _ _ => "CONTINUE"
                      | QuestionPrompt _ _ _ _ => "Question: When exactly did the double charge happen?"
                      | _ => "{}"
                      end);
     twilio_calls_create := twilio_calls_create quiet_env;
     uuidv4 := uuidv4 quiet_env;
     clock := clock quiet_env;
     JSON_parse := JSON_parse quiet_env;
     TWILIO_PHONE_NUMBER := TWILIO_PHONE_NUMBER quiet_env;
     PUBLIC_URL := PUBLIC_URL quiet_env |}.


Definition card_complaint : ComplaintContext :=
  {| rawText := "My card was charged twice"; confidence := 0.5;
     cc_complaintType := None; extractedFeatures := ∅ |}.

Definition acme : CompanyInfo := {| company_name := "Acme Bank"; company_confidence := 0.9 |}.

(** A world whose complaint c1 has one question waiting for its answer. *)
Definition world_with_question : World :=
  {| complaintDocs :=
       {[ "c1" := {[ "conversationHistory" :=
                       VTurns [ ConversationManager.new_turn "q1" "When did this occur?" 0 ] ]} ]};
     userDocs := ∅; fallbackDocs := []; firestoreRequests := 0;
     completions := []; dialled := []; draws := 0 |}.

(** ** Sequences of dialogue operations *)

Inductive Operation :=
| AskQuestions (context : ComplaintContext) (companyInfo : CompanyInfo) (complaintId : string)
| ProcessAnswer (complaintId questionId answer_ : string).

(** The world after an operation, whether it returned or threw. *)
Definition run_operation (env : Env) (maxQuestions : nat) (op : Operation) (w : World) : World :=
  match op with
  | AskQuestions context companyInfo complaintId =>
      snd (ConversationManager.askQuestions env maxQuestions context companyInfo complaintId w)
  | ProcessAnswer complaintId questionId answer_ =>
      snd (ConversationManager.processAnswer env complaintId questionId answer_ w)
  end.

Definition run_operations (env : Env) (maxQuestions : nat) (ops : list Operation) (w : World) : World :=
  fold_left (fun w' op => run_operation env maxQuestions op w') ops w.

Definition answered_count (history : list ConversationTurn) : nat :=
  length (List.filter is_answered history).

Definition pending_count (history : list ConversationTurn) : nat :=
  length (List.filter is_pending history).

(** The answers an operation submits are not blank. *)
Definition submits_text (op : Operation) : Prop :=
  match op with
  | AskQuestions _ _ _ => True
  | ProcessAnswer _ _ answer_ => JS.truthy answer_ && negb (String.eqb (JS.trim answer_) "") = true
  end.

(** A computation that leaves the complaint documents as they are. *)
Definition keeps_complaints {A} (m : M A) : Prop :=
  forall w, complaintDocs (snd (m w)) = complaintDocs w.

(** How one [askQuestions] may change a stored history: not at all, or by
    pushing one unanswered turn onto a history without pending turns that is
    shorter than the limit. *)
Definition ask_step (maxQuestions : nat) (h h' : list ConversationTurn) : Prop :=
  h' = h \/
  (pending_count h = 0 /\ length h < maxQuestions /\
   exists turn, answer turn = "" /\ h' = (h ++ [turn])%list).

(** How one [processAnswer] may change a stored history: not at all, or by
    rewriting one turn with the submitted answer. *)
Definition answer_step (answer_ : string) (h h' : list ConversationTurn) : Prop :=
  h' = h \/
  (exists index turn t extracted,
     h !! index = Some turn /\
     h' = <[index := ConversationManager.answered_turn turn answer_ t extracted]> h).

(** The sign test behind [0 <= x] on IEEE-754 values. *)
Definition sf_nonneg (x : spec_float) : bool :=
  match x with
  | S754_zero _ => true
  | S754_infinity s => negb s
  | S754_nan => false
  | S754_finite s _ _ => negb s
  end.

(** ** More of BlandAICallManager: resolution and next steps *)

Module BlandAITranscripts.

Definition resolutionKeywords : list string :=
  [ "reference number"; "confirmation number"; "case number"; "ticket number";
    "refund processed"; "replacement shipped"; "issue resolved"; "problem solved";
    "ticket created"; "escalated to"; "will be resolved"; "resolution";
    "we will"; "i will"; "expect"; "within"; "timeline"; "follow up" ].

Definition stepKeywords : list string :=
  [ "next steps"; "what happens next"; "follow up"; "within";
    "will contact you"; "expect"; "timeline"; "will receive";
    "please"; "you should"; "make sure to"; "need to" ].

(** [keywords.some(keyword => entry.text.toLowerCase().includes(keyword))] *)
Definition mentions (keywords : list string) (entry : TranscriptEntry) : bool :=
  existsb (fun keyword => JS.includes (JS.toLowerCase (text entry)) keyword) keywords.

Definition is_assistant (entry : TranscriptEntry) : bool :=
  String.eqb (user entry) "assistant".

(** The first loop of [extractResolutionFromTranscript], over the reversed
    entries. *)
Fixpoint recent_resolution (entries : list TranscriptEntry) : option string :=
  match entries with
  | [] => None
  | entry :: older =>
      if is_assistant entry then recent_resolution older
      else if mentions resolutionKeywords entry then Some (text entry)
      else recent_resolution older
  end.

(** Its second loop: the last substantial human response. *)
Fixpoint recent_substantial (entries : list TranscriptEntry) : option string :=
  match entries with
  | [] => None
  | entry :: older =>
      if negb (is_assistant entry) && (20 <? String.length (text entry)) then Some (text entry)
      else recent_substantial older
  end.

Definition extractResolutionFromTranscript (transcript : list TranscriptEntry) : option string :=
  match transcript with
  | [] => None
  | _ =>
      match recent_resolution (rev transcript) with
      | Some found => Some found
      | None => recent_substantial (rev transcript)
      end
  end.

Fixpoint recent_steps (entries : list TranscriptEntry) : option string :=
  match entries with
  | [] => None
  | entry :: older =>
      if is_assistant entry then recent_steps older
      else if mentions stepKeywords entry && (30 <? String.length (text entry))
           then Some (text entry)
      else recent_steps older
  end.

Definition extractNextSteps (transcript : list TranscriptEntry) : string :=
  match transcript with
  | [] => "No specific next steps provided"
  | _ =>
      default "Please follow up if you don't hear back within 24-48 hours"
              (recent_steps (rev transcript))
  end.

End BlandAITranscripts.

(** ** FallbackHandler.detectFallbackNeeded *)

(** The entries the detection reads: [{ speaker: string; text: string }]. *)
Record SpokenLine := { speaker : string; spoken : string }.

Module FallbackDetection.
Section WithTriggers.

Variable fallbackTriggers : list string.   (* callOrchestrationConfig.fallbackTriggers *)

(** [list.slice(-3)] *)
Definition last_three {A} (l : list A) : list A := drop (length l - 3) l.

(** The category pushed for a message that contains a trigger. *)
Definition missing_category (message : string) : string :=
  if JS.includes message "account" then "account_number"
  else if JS.includes message "order" then "order_number"
  else if JS.includes message "date" then "purchase_date"
  else if JS.includes message "address" then "shipping_address"
  else "additional_details".

(** The inner loop: one push per trigger the message contains. *)
Definition pushes_for (message : string) : list string :=
  (fun _ => missing_category message) <$>
    List.filter (fun trigger => JS.includes message (JS.toLowerCase trigger)) fallbackTriggers.

(** [[...new Set(list)]]: the first occurrence of each element, in order. *)
Definition in_insertion_order (l : list string) : list string :=
  fold_left (fun seen x => if existsb (String.eqb x) seen then seen else (seen ++ [x])%list) l [].

Definition recentMessages (transcript : list SpokenLine) : list string :=
  (fun entry => JS.toLowerCase (spoken entry)) <$>
    last_three (List.filter (fun entry => String.eqb (speaker entry) "customer_service") transcript).

Definition detectFallbackNeeded (transcript : list SpokenLine) : list string :=
  match recentMessages transcript with
  | [] => []
  | messages => in_insertion_order (messages ≫= pushes_for)
  end.

End WithTriggers.
End FallbackDetection.

(** The triggers of the shipped configuration ([FALLBACK_TRIGGERS] unset). *)
Definition callOrchestrationConfig_fallbackTriggers : list string :=
  ["need more information"; "cannot proceed"; "missing details"].

(** ** IVRNavigator and the execution of a plan *)

(** What executing a plan does: it sleeps, and it logs the key or the text
    that a real controller would send. *)
Inductive NavigationEffect :=
| Slept (ms : Z)
| LoggedDTMF (keys : string)
| LoggedSaying (words : string).

Module IVRNavigator.

(** The keys logged for sending, in order, and the time spent asleep. *)
Definition keys_logged (effects : list NavigationEffect) : list string :=
  omap (fun effect => match effect with LoggedDTMF keys => Some keys | _ => None end) effects.

Definition time_slept (effects : list NavigationEffect) : Z :=
  foldr (fun effect total => match effect with Slept ms => (ms + total)%Z | _ => total end)
        0%Z effects.

(** TwilioController.executeNavigationStep *)
Definition executeNavigationStep (callSid : string) (step : IVRNavigationStep)
    : list NavigationEffect :=
  Slept (delayMs step) ::
  match action step with
  | press => [LoggedDTMF (value step)]
  | say => [LoggedSaying (value step)]
  | wait => []
  end.

(** TwilioController.navigateIVR: nothing in the loop can throw, so the
    [catch] that would answer [false] is never entered. *)
Definition navigateIVR (callSid : string) (navigationPlan : IVRNavigationPlan)
    : bool * list NavigationEffect :=
  (true, steps navigationPlan ≫= executeNavigationStep callSid).

Definition determineTargetDepartment (context : EnhancedComplaintContext) : string :=
  let issueType := default "" (JS.toLowerCase <$> issue context) in
  if JS.includes issueType "bill" || JS.includes issueType "charge" || JS.includes issueType "payment"
  then "billing"
  else if JS.includes issueType "technical" || JS.includes issueType "error"
          || JS.includes issueType "not working"
  then "technical_support"
  else if JS.includes issueType "cancel" || JS.includes issueType "subscription"
  then "account_management"
  else if JS.includes issueType "refund" || JS.includes issueType "return"
  then "returns"
  else "general_customer_service".

Definition navigateToHuman (callSid : string) (context : EnhancedComplaintContext)
    (contact : ContactDetails) : bool * list NavigationEffect :=
  let targetDepartment := determineTargetDepartment context in
  let navigationPlan :=
    TwilioPlans.generateIVRNavigationPlan (ivrStructure contact) targetDepartment in
  navigateIVR callSid navigationPlan.

End IVRNavigator.

(** ** ConfidenceEvaluator.evaluateAnswer *)

Module JSNumber.

(** [Math.max]: NaN if either argument is NaN; otherwise the larger one,
    where +0 is larger than -0. *)
Definition max (x y : float) : float :=
  if is_nan x || is_nan y then nan
  else if (x <? y)%float then y
  else if (y <? x)%float then x
  else if is_zero x then (if get_sign x then y else x)
  else x.

(** [x || fallback] on an optional number: [undefined], 0, -0 and NaN are
    falsy. *)
Definition or_else (x : option float) (fallback : float) : float :=
  match x with
  | Some v => if is_zero v || is_nan v then fallback else v
  | None => fallback
  end.

End JSNumber.

(** What [JSON.parse] made of the reply, as far as [extractInfoWithOpenAI]
    looks at it: [null], on which reading a property throws, or any other
    value with its [extractedInfo] (if truthy) and its [confidenceDelta] (if
    [typeof] gives number). *)
Inductive ParsedReply :=
| ReplyNull
| ReplyValue (info : option Fields) (delta : option float).

Record Evaluation := { evaluated_info : Fields; evaluated_delta : float }.

(** The interpolated parts of the evaluation prompt. *)
Record EvaluationPrompt := {
  expected_fields : list string;
  prompt_complaint : string;
  prompt_company : string;
  prompt_question : string;
  prompt_answer : string
}.

Module AnswerEvaluation.
Section WithCollaborators.

Variable openaiApiKey : string.    (* followupQuestionsConfig.openaiApiKey *)
(** [axios.post] followed by [response.data.choices[0].message.content]:
    the content, possibly [null], or the failure of either. *)
Variable axios_post : EvaluationPrompt -> Outcome (option string).
Variable JSON_parse_reply : string -> Outcome ParsedReply.

(** The pattern that salvages an object from a chatty reply: an opening
    brace, anything (greedy), a closing brace. *)
Definition json_in_text : RegExp.RegExp :=
  {| RegExp.source :=
       RegExp.Seqs [RegExp.Char "{"; RegExp.Star (RegExp.Class RegExp.AnyChar); RegExp.Char "}"];
     RegExp.groups := 0; RegExp.ignoreCase := false; RegExp.global := false |}.

(** The [try]/[catch] around [JSON.parse(content)]. *)
Definition parse_content (content : option string) : Outcome ParsedReply :=
  match content with
  | None => Returned ReplyNull                       (* JSON.parse(null) is null *)
  | Some content_ =>
      match JSON_parse_reply content_ with
      | Returned parsedResult => Returned parsedResult
      | Thrown _ =>
          match RegExp.match_ content_ json_in_text with
          | Some (Some jsonText :: _) => JSON_parse_reply jsonText
          | _ => Thrown "Failed to parse OpenAI response as JSON"
          end
      end
  end.

Definition evaluation_of (parsedResult : ParsedReply) : Outcome Evaluation :=
  match parsedResult with
  | ReplyNull => Thrown "Cannot read properties of null (reading 'extractedInfo')"
  | ReplyValue info delta =>
      Returned {| evaluated_info := default ∅ info;
                  evaluated_delta :=
                    match delta with
                    | Some d => JSMath.min 0.3 (JSNumber.max 0 d)
                    | None => 0.1%float
                    end |}
  end.

Definition extractInfoWithOpenAI (question_ answer_ : string) (context : ComplaintContext)
    (companyInfo : CompanyInfo) (expectedInfoFields : list string) : Outcome Evaluation :=
  if negb (JS.truthy openaiApiKey) then Thrown "OpenAI API key not configured"
  else
    let attempt :=
      match axios_post {| expected_fields := expectedInfoFields;
                          prompt_complaint := rawText context;
                          prompt_company := company_name companyInfo;
                          prompt_question := question_;
                          prompt_answer := answer_ |} with
      | Thrown e => Thrown e
      | Returned content =>
          match parse_content content with
          | Thrown e => Thrown e
          | Returned parsedResult => evaluation_of parsedResult
          end
      end in
    match attempt with
    | Returned evaluation => Returned evaluation
    | Thrown e => Thrown ("OpenAI API error: " ++ e)
    end.

Definition evaluateAnswer (question_ answer_ : string) (context : ComplaintContext)
    (companyInfo : CompanyInfo) (expectedInfoFields : list string) : Outcome Evaluation :=
  match extractInfoWithOpenAI question_ answer_ context companyInfo expectedInfoFields with
  | Returned evaluation => Returned evaluation
  | Thrown e => Thrown ("Failed to evaluate answer: " ++ e)
  end.

End WithCollaborators.
End AnswerEvaluation.

(** ** BlandAICallManager: placing a call and watching it *)

(** What a poll of [GET /v1/calls/{id}] reports, as far as the monitor reads
    it (the IVR interactions, which are only passed through, are left out). *)
Record CallInfo := {
  call_status : string;
  error_message : option string;
  call_transcript : option (list TranscriptEntry);
  call_length : option float;
  call_cost : option float
}.

(** What the monitor resolves with. *)
Record MonitoredCall := {
  monitored_resolution : string;
  monitored_nextSteps : string;
  monitored_transcript : list TranscriptEntry;
  monitored_referenceNumber : option string;
  monitored_duration : float;
  monitored_cost : float
}.

(** The result of [initiateCall]. *)
Record BlandCallResult := {
  bland_status : string;
  bland_callId : option string;
  bland_resolution : string;
  bland_nextSteps : string;
  bland_transcript : option (list TranscriptEntry);
  bland_referenceNumber : option string;
  bland_duration : option float;
  bland_cost : option float;
  bland_error : option string
}.

Inductive Tick :=
| Settled (outcome : Outcome MonitoredCall)   (* clearInterval, then resolve or reject *)
| KeepPolling.

Module BlandAICalls.
Section WithAPI.

(** [POST /v1/calls] for a phone number: the call id, or a failure. *)
Variable axios_post : string -> Outcome string.
(** The n-th poll (counted from 1) of a call. *)
Variable axios_get : nat -> string -> Outcome CallInfo.

Definition maxChecks : nat := 400.

(** One firing of the interval callback, [checkCount] already incremented. *)
Definition on_tick (callId companyName : string) (checkCount : nat) : Tick :=
  match axios_get checkCount callId with
  | Thrown e => Settled (Thrown e)
  | Returned call =>
      let transcript := default [] (call_transcript call) in
      if String.eqb (call_status call) "completed" then
        let resolution_ := BlandAITranscripts.extractResolutionFromTranscript transcript in
        let referenceNumber := BlandAICallManager.extractReferenceNumber transcript in
        let nextSteps_ := BlandAITranscripts.extractNextSteps transcript in
        Settled (Returned
          {| monitored_resolution :=
               OpenAIClient.content_or resolution_
                 ("Call completed successfully with " ++ companyName ++ " customer service");
             monitored_nextSteps :=
               JS.or_else nextSteps_ "Follow up as needed based on agent instructions";
             monitored_transcript := transcript;
             monitored_referenceNumber := referenceNumber;
             monitored_duration := JSNumber.or_else (call_length call) 0;
             monitored_cost := JSNumber.or_else (call_cost call) 0 |})
      else if String.eqb (call_status call) "failed" || String.eqb (call_status call) "cancelled"
              || String.eqb (call_status call) "no-answer" then
        let errorMessage :=
          OpenAIClient.content_or (error_message call) ("Call " ++ call_status call) in
        Settled (Thrown ("Call " ++ call_status call ++ ": " ++ errorMessage))
      else if maxChecks <=? checkCount then
        Settled (Thrown "Call monitoring timeout - call may still be in progress")
      else KeepPolling
  end.

(** The interval fires every three seconds until it is cleared; each
    firing is taken to finish before the next one.  [fuel] bounds the
    number of firings; [None] means the bound was reached.  The result comes
    with the number of polls made. *)
Fixpoint monitor_within (fuel : nat) (callId companyName : string) (checkCount : nat)
    : option (Outcome MonitoredCall * nat) :=
  match fuel with
  | 0 => None
  | S fuel' =>
      match on_tick callId companyName (S checkCount) with
      | Settled outcome => Some (outcome, S checkCount)
      | KeepPolling => monitor_within fuel' callId companyName (S checkCount)
      end
  end.

Definition monitorCallProgress (callId companyName : string)
    : option (Outcome MonitoredCall * nat) :=
  monitor_within maxChecks callId companyName 0.

Definition failed_call (message : string) : BlandCallResult :=
  {| bland_status := "failed"; bland_callId := None;
     bland_resolution := "Call could not be completed due to technical issues";
     bland_nextSteps := "Please try calling the customer service number manually";
     bland_transcript := None; bland_referenceNumber := None;
     bland_duration := None; bland_cost := None;
     bland_error := Some message |}.

Definition initiateCall (phoneNumber : string) (companyInfo : CompanyInfo)
    : option (BlandCallResult * nat) :=
  match axios_post phoneNumber with
  | Thrown e => Some (failed_call e, 0)
  | Returned callId_ =>
      match monitorCallProgress callId_ (company_name companyInfo) with
      | None => None
      | Some (Thrown e, polls) => Some (failed_call e, polls)
      | Some (Returned callResult, polls) =>
          Some ({| bland_status := "completed"; bland_callId := Some callId_;
                   bland_resolution := monitored_resolution callResult;
                   bland_nextSteps := monitored_nextSteps callResult;
                   bland_transcript := Some (monitored_transcript callResult);
                   bland_referenceNumber := monitored_referenceNumber callResult;
                   bland_duration := Some (monitored_duration callResult);
                   bland_cost := Some (monitored_cost callResult);
                   bland_error := None |}, polls)
      end
  end.

End WithAPI.
End BlandAICalls.

(** ** FollowupHandler.processAnswer *)

Module FollowupHandlerAnswers.
Section WithEnv.

Variable env : Env.

(** [complaintId && typeof complaintId === 'string' && complaintId.trim() !== ''] *)
Definition names_a_complaint (complaintId : option string) : bool :=
  match complaintId with
  | Some cid => JS.truthy cid && negb (String.eqb (JS.trim cid) "")
  | None => false
  end.

Definition processAnswer (context : EnhancedComplaintContext) (question_ answer_ : string)
    (complaintId : option string) : M EnhancedComplaintContext :=
  (* Extract meaningful information from the answer *)
  extracted ← FollowupHandler.extractInformationFromAnswer env context question_ answer_;
  (* Add the Q&A to conversation history *)
  newId ← Firestore.fresh_uuid env;
  t ← Firestore.now env;
  let turn :=
    {| id := newId; question := question_; answer := answer_; timestamp := t;
       extractedInfo := extracted;
       confidenceDelta := if 0 <? size extracted then 0.2%float else 0.1%float |} in
  let updatedHistory := (conversationHistory context ++ [turn])%list in
  let updatedFields := extracted ∪ extractedFields context in
  let updatedContext := with_fields updatedFields (with_history updatedHistory context) in
  (* Update Firestore if complaintId is provided *)
  (if names_a_complaint complaintId then
     try_catch
       (Firestore.update env complaints (default "" complaintId)
          (list_to_map
             [ ("conversationHistory", SetTo (VTurns updatedHistory));
               ("extractedFields", SetTo (VFields updatedFields));
               ("updatedAt", ServerTimestamp) ]))
       (fun e => throw e)
   else mret tt) ;;
  mret updatedContext.

End WithEnv.
End FollowupHandlerAnswers.

(** ** The module interfaces: FollowupQuestionFlow and CallOrchestrator *)

Module FollowupQuestionFlow.
Section WithEnv.

Variable env : Env.
Variable maxQuestions : nat.

Definition askQuestions (context : ComplaintContext) (companyInfo : CompanyInfo)
    (complaintId : string) : M EnhancedComplaintContext :=
  try_catch
    (ConversationManager.askQuestions env maxQuestions context companyInfo complaintId)
    (fun e => throw ("Failed to process follow-up questions: " ++ e)).

End WithEnv.
End FollowupQuestionFlow.

Module CallOrchestrator.
Section WithEnv.

Variable env : Env.
Variable maxRetries : Z.

Definition placeComplaintCall
    (context : EnhancedComplaintContext) (contact : ContactDetails) (complaintId : string)
    (w : World) : option (Outcome CallResult * World) :=
  match CallManager.placeComplaintCall env maxRetries context contact complaintId w with
  | Some (Thrown e, w') => Some (Thrown ("Call orchestration failed: " ++ e), w')
  | other => other
  end.

(** The call manager is constructed with a fallback handler that has a
    [TwilioController] of its own. *)
Definition handleFallback (callSid : string) (missingInfo : list string)
    (context : EnhancedComplaintContext) (complaintId : string) : M FallbackResult :=
  try_catch
    (CallManager.handleFallback (TwilioController.methods env)
       callSid missingInfo context complaintId)
    (fun e => throw ("Fallback handling failed: " ++ e)).

End WithEnv.
End CallOrchestrator.

(** ** The follow-up branch of processUnifiedComplaint *)

(** The questions of a reply; the constant [type: 'text'] of both shapes is
    left out. *)
Record NextQuestion := { next_id : string; next_question : string }.

Record FollowUpQuestion := {
  followup_id : string;
  followup_question : string;
  followup_answer : string
}.

Inductive UnifiedResponse :=
| NotSaved (message : string)            (* { success: false, message } *)
| Saved (complaintId : string)           (* { success: true, ... } *)
        (nextQuestion : option NextQuestion)
        (followUpQuestions : list FollowUpQuestion)
        (conversationComplete : bool)
        (totalQuestions answeredQuestions : nat).

Module UnifiedComplaint.
Section WithEnv.

Variable env : Env.
Variable maxQuestions : nat.

(** [!turn.answer || turn.answer === ''] *)
Definition lacks_answer (turn : ConversationTurn) : bool :=
  negb (JS.truthy (answer turn)) || String.eqb (answer turn) "".

(** [!!turn.answer && turn.answer !== ''] *)
Definition has_answer (turn : ConversationTurn) : bool :=
  JS.truthy (answer turn) && negb (String.eqb (answer turn) "").

Definition next_of (turn : ConversationTurn) : NextQuestion :=
  {| next_id := id turn; next_question := question turn |}.

Definition followup_of (turn : ConversationTurn) : FollowUpQuestion :=
  {| followup_id := id turn; followup_question := question turn;
     followup_answer := answer turn |}.

Definition response_for (complaintId : string) (enhancedContext : EnhancedComplaintContext)
    : UnifiedResponse :=
  let pendingQuestions := List.filter lacks_answer (conversationHistory enhancedContext) in
  let hasMoreQuestions := 0 <? length pendingQuestions in
  Saved complaintId
    (if hasMoreQuestions then next_of <$> head pendingQuestions else None)
    (followup_of <$> pendingQuestions)
    (negb hasMoreQuestions)
    (length (conversationHistory enhancedContext))
    (length (List.filter has_answer (conversationHistory enhancedContext))).

(** The body of the branch taken for a follow-up request, with its
    complaint id, question id and answer.  A complaint stored without
    [rawText] or [company] is read with the empty text in their place. *)
Definition followUp (complaintId questionId answer_ : string) : M UnifiedResponse :=
  saved ←
    try_catch
      (ConversationManager.processAnswer env complaintId questionId answer_ ;; mret true)
      (fun _ => mret false);
  if negb saved then mret (NotSaved "Could not save your answer, please retry")
  else
    (* Fetch the latest complaint document for context *)
    complaintDoc ← Firestore.get env complaints complaintId;
    match complaintDoc with
    | None => throw (ConversationManager.not_found complaintId)
    | Some complaintData =>
        let context :=
          {| rawText := default "" (str_field complaintData "rawText");
             confidence := num_or complaintData "finalConfidence" 0.5;
             cc_complaintType := Some (str_or complaintData "complaintType" "GENERAL");
             extractedFeatures := fields_or_empty complaintData "extractedFields" |} in
        let companyInfo :=
          {| company_name := default "" (str_field complaintData "company");
             company_confidence := num_or complaintData "finalConfidence" 0.5 |} in
        enhancedContext ←
          FollowupQuestionFlow.askQuestions env maxQuestions context companyInfo complaintId;
        mret (response_for complaintId enhancedContext)
    end.

End WithEnv.
End UnifiedComplaint.

(** ** ComplaintProcessor: the question loop of the command-line dialogue
    (modules/complaintProcessing/complaintProcessor.ts) *)

Module ComplaintProcessor.
Section WithEnv.

Variable env : Env.
Variable maxQuestions : nat.
(** [promptUserInput]: what the user types at the n-th prompt (counted from
    0) when shown the question. *)
Variable promptUserInput : nat -> string -> string.

(** The context the loop starts from. *)
Definition initial_context (complaintText : string) : EnhancedComplaintContext :=
  {| originalComplaint := complaintText;
     issue := None; customerDetails := None; contactDetails := None;
     conversationHistory := []; finalConfidence := 0; extractedFields := ∅;
     complaintType := None; userDetails := None |}.

(** The body of the loop at the n-th prompt: whether the loop goes on, and
    the value of [context] after the body.  The assignment to [context]
    comes before the update of the stored history, so a failed update
    breaks with the new context; every other exit breaks with the old one. *)
Definition questionRound (complaintId : string) (prompts : nat)
    (context : EnhancedComplaintContext) : M (bool * EnhancedComplaintContext) :=
  try_catch
    (question_ ← FollowupHandler.generateFollowupQuestion env maxQuestions context;
     if negb (JS.truthy question_) then mret (false, context)
     else
       (* Prompt the user for input in the CLI *)
       let answer_ := promptUserInput prompts question_ in
       context' ← FollowupHandlerAnswers.processAnswer env context question_ answer_ None;
       (* Update conversation history in Firebase *)
       try_catch
         (Firestore.update env complaints complaintId
            (list_to_map
               [ ("conversationHistory", SetTo (VTurns (conversationHistory context')));
                 ("updatedAt", ServerTimestamp) ]) ;;
          mret (true, context'))
         (fun _ => mret (false, context')))
    (fun _ => mret (false, context)).

(** [while (this.followupHandler.shouldAskMoreQuestions(context)) { ... }].
    The condition calls [shouldAskMoreQuestions], which issues its request
    at once, and tests the promise the call returns: the promise is not
    awaited, and a promise is truthy whatever it resolves to.  So the call
    is made for what it does to the world, and the loop is left by [break]
    only.  [fuel] bounds the number of rounds; [None] means the bound was
    reached. *)
Fixpoint questionLoop (fuel : nat) (complaintId : string) (prompts : nat)
    (context : EnhancedComplaintContext) (w : World)
    : option (EnhancedComplaintContext * World) :=
  match fuel with
  | 0 => None
  | S fuel' =>
      let w1 := snd (FollowupHandler.shouldAskMoreQuestions env maxQuestions context w) in
      match questionRound complaintId prompts context w1 with
      | (Returned (true, context'), w2) =>
          questionLoop fuel' complaintId (S prompts) context' w2
      | (Returned (false, context'), w2) => Some (context', w2)
      | (Thrown _, w2) => Some (context, w2)
      end
  end.

(** The loop of [processComplaint]: every round but the last adds a turn,
    and no question is generated once there are [maxQuestions] turns. *)
Definition askFollowupQuestions (complaintId complaintText : string) (w : World)
    : option (EnhancedComplaintContext * World) :=
  questionLoop (S maxQuestions) complaintId 0 (initial_context complaintText) w.

End WithEnv.
End ComplaintProcessor.

(** White space beyond ASCII, in UTF-8: U+00A0, U+2003 and U+FEFF. *)
Definition no_break_space : string :=
  String (ascii_of_nat 194) (String (ascii_of_nat 160) EmptyString).

Definition em_space : string :=
  String (ascii_of_nat 226) (String (ascii_of_nat 128) (String (ascii_of_nat 131) EmptyString)).

Definition byte_order_mark : string :=
  String (ascii_of_nat 239) (String (ascii_of_nat 187) (String (ascii_of_nat 191) EmptyString)).

(** The letter a with a grave accent, U+00E0 (C3 A0): its second byte is
    the second byte of U+00A0. *)
Definition a_grave : string :=
  String (ascii_of_nat 195) (String (ascii_of_nat 160) EmptyString).

(** * Properties *)

(** ** The string and pattern functions at work *)

Example trim_strips_both_ends :
  JS.trim (" " ++ JS.newline ++ "continue " ++ JS.newline) = "continue".
Proof. reflexivity. Qed.

Example split_lines_keeps_empty_lines :
  JS.split_lines ("a" ++ JS.newline ++ JS.newline ++ "b") = ["a"; ""; "b"].
Proof. reflexivity. Qed.

Example labelled_reference_upper_case :
  RegExp.match_ "Reference #: ZX81 ok" BlandAICallManager.labelled_reference
  = Some [Some "Reference #: ZX81"; Some "ZX81"].
Proof. vm_compute. reflexivity. Qed.

Example global_match_lists_every_match :
  RegExp.match_ "first AB1234 then CD56789" BlandAICallManager.letters_and_digits
  = Some [Some "AB1234"; Some "CD56789"].
Proof. vm_compute. reflexivity. Qed.

Example json_object_is_lazy :
  FollowupHandler.first_match "noise {a: 1} tail {b: 2}" FollowupHandler.json_object
  = Some "{a: 1}".
Proof. vm_compute. reflexivity. Qed.

Example question_prefix_is_stripped :
  RegExp.replace "2. when did it happen?" FollowupHandler.question_prefix "" = "when did it happen?" /\
  RegExp.replace "Q: when?" FollowupHandler.question_prefix "" = "when?" /\
  RegExp.replace "So: when?" FollowupHandler.question_prefix "" = "So: when?".
Proof. vm_compute. auto. Qed.

Example generated_question_is_cleaned :
  fst (FollowupHandler.generateFollowupQuestion chatty_env 4 bare_context empty_world)
  = Returned "When exactly did the double charge happen?".
Proof. vm_compute. reflexivity. Qed.

Example fallback_question_when_llm_is_down :
  fst (FollowupHandler.generateFollowupQuestion llm_down_env 4 bare_context empty_world)
  = Returned "To help resolve your issue quickly, could you tell me when this problem first occurred?".
Proof. vm_compute. reflexivity. Qed.

(** ** White space beyond ASCII *)

Example trim_strips_unicode_white_space :
  JS.trim (no_break_space ++ byte_order_mark ++ " ok" ++ em_space ++ JS.newline ++ no_break_space)
    = "ok" /\
  JS.trim (" voil" ++ a_grave ++ " ") = "voil" ++ a_grave /\
  JS.trim (em_space ++ no_break_space) = "".
Proof. repeat split. Qed.

(** An answer of no-break spaces is not empty, and it is blank: the turn
    that holds it is pending and not answered, and [submits_text] rules it
    out. *)
Example answer_of_no_break_spaces_is_blank :
  let turn := {| id := "q1"; question := "When did this occur?";
                 answer := no_break_space ++ no_break_space; timestamp := 0;
                 extractedInfo := ∅; confidenceDelta := 0.1 |} in
  JS.truthy (answer turn) = true /\
  is_pending turn = true /\ is_answered turn = false /\
  pending_count [turn] = 1 /\
  ~ submits_text (ProcessAnswer "c1" "q1" (no_break_space ++ no_break_space)).
Proof. cbv zeta. repeat (split; [reflexivity|]). cbv. discriminate. Qed.

(** ** IEEE-754 facts used for the confidence bounds *)

Section FloatFacts.

Lemma leb_zero_nonneg (x : float) : (0 <=? x)%float = sf_nonneg (Prim2SF x).
Proof.
  rewrite FloatAxioms.leb_spec. change (Prim2SF 0) with (S754_zero false).
  unfold SFleb, SFcompare.
  destruct (Prim2SF x) as [s|s| |s m e]; try destruct s; reflexivity.
Qed.

Lemma shr_1_nonneg mrs : (0 <= shr_m mrs)%Z -> (0 <= shr_m (shr_1 mrs))%Z.
Proof.
  destruct mrs as [m r s]. simpl. intros H.
  destruct m as [|p|p]; [simpl; lia| |lia].
  destruct p; simpl; lia.
Qed.

Lemma iter_pos_shr_1_nonneg p : forall mrs,
  (0 <= shr_m mrs)%Z -> (0 <= shr_m (SpecFloat.iter_pos shr_1 p mrs))%Z.
Proof.
  induction p as [p IH|p IH|]; intros mrs H; simpl.
  - apply IH, IH, shr_1_nonneg, H.
  - apply IH, IH, H.
  - apply shr_1_nonneg, H.
Qed.

Lemma shr_fexp_nonneg m e l :
  (0 <= m)%Z -> (0 <= shr_m (fst (shr_fexp prec emax m e l)))%Z.
Proof.
  intros H. unfold shr_fexp, shr.
  assert (H0 : (0 <= shr_m (shr_record_of_loc m l))%Z).
  { destruct l as [|[]]; simpl; exact H. }
  destruct (fexp prec emax (Zdigits2 m + e) - e)%Z; simpl; auto.
  apply iter_pos_shr_1_nonneg, H0.
Qed.

Lemma round_nearest_even_nonneg m l : (0 <= m)%Z -> (0 <= round_nearest_even m l)%Z.
Proof.
  intros H. unfold round_nearest_even.
  destruct l as [|[]]; try lia. destruct (IntDef.Z.even m); lia.
Qed.

Lemma binary_round_aux_nonneg m e l :
  (0 <= m)%Z -> sf_nonneg (binary_round_aux prec emax false m e l) = true.
Proof.
  intros H. unfold binary_round_aux.
  pose proof (shr_fexp_nonneg m e l H) as H1.
  destruct (shr_fexp prec emax m e l) as [mrs' e'] eqn:E1. simpl in H1.
  pose proof (shr_fexp_nonneg _ e' loc_Exact
                (round_nearest_even_nonneg _ (loc_of_shr_record mrs') H1)) as H2.
  destruct (shr_fexp prec emax (round_nearest_even (shr_m mrs') (loc_of_shr_record mrs')) e' loc_Exact)
    as [mrs'' e''] eqn:E2. simpl in H2.
  destruct (shr_m mrs'') as [|p|p]; [reflexivity| |lia].
  destruct (e'' <=? emax - prec)%Z; reflexivity.
Qed.

Lemma binary_round_nonneg m e : sf_nonneg (binary_round prec emax false m e) = true.
Proof.
  unfold binary_round.
  destruct (shl_align m e (fexp prec emax (Z.pos (digits2_pos m) + e))) as [mz ez].
  apply binary_round_aux_nonneg. lia.
Qed.

Lemma SFadd_nonneg x y :
  sf_nonneg x = true -> sf_nonneg y = true -> sf_nonneg (SF64add x y) = true.
Proof.
  unfold SF64add, SFadd.
  destruct x as [sx|sx| |sx mx ex], y as [sy|sy| |sy my ey]; simpl;
    try destruct sx; try destruct sy; simpl; try reflexivity; try discriminate; intros _ _.
  unfold binary_normalize. simpl. apply binary_round_nonneg.
Qed.

(** The sum of two non-negative numbers is non-negative (and not NaN). *)
Lemma add_nonneg (x y : float) :
  (0 <=? x)%float = true -> (0 <=? y)%float = true -> (0 <=? x + y)%float = true.
Proof.
  rewrite !leb_zero_nonneg, FloatAxioms.add_spec. apply SFadd_nonneg.
Qed.

Lemma SFcompare_refl x : x <> S754_nan -> SFcompare x x = Some Eq.
Proof.
  destruct x as [s|s| |s m e]; simpl; intros H; try congruence.
  - destruct s; reflexivity.
  - rewrite Z.compare_refl.
    change (PosDef.Pos.compare_cont Eq m m) with (Pos.compare m m).
    rewrite Pos.compare_refl. destruct s; reflexivity.
Qed.

Lemma nonneg_not_nan (x : float) : (0 <=? x)%float = true -> is_nan x = false.
Proof.
  rewrite leb_zero_nonneg. unfold is_nan. rewrite FloatAxioms.eqb_spec. unfold SFeqb.
  intros H. rewrite SFcompare_refl; [reflexivity|].
  intros E. rewrite E in H. discriminate.
Qed.

Lemma ltb_leb (x y : float) : (x <? y)%float = true -> (x <=? y)%float = true.
Proof.
  rewrite FloatAxioms.ltb_spec, FloatAxioms.leb_spec. unfold SFltb, SFleb.
  destruct (SFcompare (Prim2SF x) (Prim2SF y)) as [[]|]; congruence.
Qed.

(** [Math.min(1.0, c)] of a non-negative [c] lies between 0 and 1. *)
Lemma min_one_range (c : float) :
  (0 <=? c)%float = true ->
  (0 <=? JSMath.min 1 c)%float = true /\ (JSMath.min 1 c <=? 1)%float = true.
Proof.
  intros H. unfold JSMath.min.
  rewrite (nonneg_not_nan c H).
  change (is_nan 1) with false. change (is_zero 1) with false. simpl.
  destruct (c <? 1)%float eqn:E.
  - split; [exact H | apply ltb_leb, E].
  - destruct (1 <? c)%float; split; reflexivity.
Qed.

End FloatFacts.

(** ** ConfidenceEvaluator *)

Lemma accumulate_fold init history :
  ConfidenceEvaluator.accumulate init history =
  fold_left (fun c turn => (c + confidenceDelta turn)%float) history init.
Proof. revert init. induction history as [|turn rest IH]; intros init; simpl; auto. Qed.

Lemma accumulate_nonneg history : forall init,
  (0 <=? init)%float = true ->
  Forall (fun turn => (0 <=? confidenceDelta turn)%float = true) history ->
  (0 <=? ConfidenceEvaluator.accumulate init history)%float = true.
Proof.
  induction history as [|turn rest IH]; intros init Hinit Hall; simpl.
  - exact Hinit.
  - inversion Hall as [|? ? Hturn Hrest]; subst.
    apply IH; [apply add_nonneg; assumption | assumption].
Qed.

(** C3, as amended.  [calculateOverallConfidence init history] is
    [Math.min(1.0, s)] where [s] is the running binary64 sum
    [((init + d1) + d2) + ...] of the deltas taken in the order of the turns;
    and whenever [init] is non-negative (in particular within [0,1]) and no
    delta is negative, the result lies in [0,1], however large the deltas. *)
Theorem calculateOverallConfidence_clamped_running_sum
    (initialConfidence : float) (history : list ConversationTurn) :
  ConfidenceEvaluator.calculateOverallConfidence initialConfidence history =
    JSMath.min 1 (fold_left (fun c turn => (c + confidenceDelta turn)%float) history initialConfidence)
  /\ ((0 <=? initialConfidence)%float = true ->
      Forall (fun turn => (0 <=? confidenceDelta turn)%float = true) history ->
      (0 <=? ConfidenceEvaluator.calculateOverallConfidence initialConfidence history)%float = true /\
      (ConfidenceEvaluator.calculateOverallConfidence initialConfidence history <=? 1)%float = true).
Proof.
  split.
  - unfold ConfidenceEvaluator.calculateOverallConfidence. now rewrite accumulate_fold.
  - intros Hinit Hall. unfold ConfidenceEvaluator.calculateOverallConfidence.
    apply min_one_range, accumulate_nonneg; assumption.
Qed.

(** The bound at work: 0.9 and two deltas of 0.2 sum above 1 and are clamped
    to exactly 1. *)
Lemma calculateOverallConfidence_clamped_witness :
  (0 <=? 0.9)%float = true /\
  Forall (fun turn => (0 <=? confidenceDelta turn)%float = true)
         [turn_with_delta 0.2; turn_with_delta 0.2] /\
  ConfidenceEvaluator.calculateOverallConfidence 0.9 [turn_with_delta 0.2; turn_with_delta 0.2]
    = 1%float /\
  (0 <=? ConfidenceEvaluator.calculateOverallConfidence 0.9
           [turn_with_delta 0.2; turn_with_delta 0.2])%float = true /\
  (ConfidenceEvaluator.calculateOverallConfidence 0.9
     [turn_with_delta 0.2; turn_with_delta 0.2] <=? 1)%float = true.
Proof.
  split; [vm_compute; reflexivity|].
  split; [repeat constructor|].
  split; [vm_compute; reflexivity|].
  apply (proj2 (calculateOverallConfidence_clamped_running_sum
                  0.9 [turn_with_delta 0.2; turn_with_delta 0.2])).
  - vm_compute; reflexivity.
  - repeat constructor.
Defined.

(** C3, the part that fails: the result depends on the order of the turns.
    From 0.5, the deltas 0.1 then 0.2 give 0.8, while 0.2 then 0.1 give
    0.7999999999999999. *)
Lemma calculateOverallConfidence_order_matters :
  ConfidenceEvaluator.calculateOverallConfidence 0.5 [turn_with_delta 0.1; turn_with_delta 0.2] <>
  ConfidenceEvaluator.calculateOverallConfidence 0.5 [turn_with_delta 0.2; turn_with_delta 0.1].
Proof.
  intros H.
  assert (E : (ConfidenceEvaluator.calculateOverallConfidence 0.5
                 [turn_with_delta 0.1; turn_with_delta 0.2] <=?
               ConfidenceEvaluator.calculateOverallConfidence 0.5
                 [turn_with_delta 0.2; turn_with_delta 0.1])%float = true).
  { rewrite H. vm_compute. reflexivity. }
  vm_compute in E. discriminate.
Qed.

(** ** Reference extraction *)

(** C7: on scenario C the code answers ["number"], not ["ABC12345"].  The
    labelled pattern carries flag i, which also lets its class [A-Z0-9] match
    lower-case letters: after [case] the optional label is skipped and the
    word [number] itself is captured. *)
Theorem extractReferenceNumber_scenarioC :
  BlandAICallManager.extractReferenceNumber scenarioC = Some "number".
Proof. vm_compute. reflexivity. Qed.

(** The two other patterns, tried only when the labelled one finds nothing,
    would each have found the reference. *)
Lemma scenarioC_other_patterns :
  BlandAICallManager.try_patterns
    [BlandAICallManager.letters_and_digits; BlandAICallManager.long_token]
    "Your case number is ABC12345, thank you" = Some "ABC12345".
Proof. vm_compute. reflexivity. Qed.

(** ** IVR navigation plans *)

(** C9, as stated, fails: the menu maps billing to key 5, and the plan for
    billing never presses 5. *)
Lemma generateIVRNavigationPlan_ignores_menu :
  key_mapped_to billing_menu "billing" = Some "5" /\
  TwilioPlans.pressed_keys (TwilioPlans.generateIVRNavigationPlan (Some billing_menu) "billing")
    = ["2"; "1"] /\
  "5" ∉ TwilioPlans.pressed_keys (TwilioPlans.generateIVRNavigationPlan (Some billing_menu) "billing").
Proof.
  split; [reflexivity|]. split; [reflexivity|].
  vm_compute. intros H. repeat (inversion H as [|? ? ? H']; subst; clear H; rename H' into H).
Qed.

(** C9, as amended.  With a non-empty structure the plan is one fixed plan,
    the same for every structure and every department: wait for the
    greeting, press 2, wait for the menu, press 1.  Without a structure
    ([undefined] or empty) it is the generic plan: wait for the greeting,
    press 0 for the operator, wait for pickup. *)
Theorem generateIVRNavigationPlan_plans (node : IVRNode) (others : list IVRNode)
    (targetDepartment : string) :
  (let plan := TwilioPlans.generateIVRNavigationPlan (Some (node :: others)) targetDepartment in
   plan = TwilioPlans.generateIVRNavigationPlan (Some billing_menu) "billing" /\
   (action <$> steps plan) = [wait; press; wait; press] /\
   (value <$> steps plan) = ["greeting"; "2"; "menu"; "1"]) /\
  (let generic := TwilioPlans.generateIVRNavigationPlan None targetDepartment in
   TwilioPlans.generateIVRNavigationPlan (Some []) targetDepartment = generic /\
   (action <$> steps generic) = [wait; press; wait] /\
   (value <$> steps generic) = ["greeting"; "0"; "operator"] /\
   (step_description <$> steps generic) =
     ["Wait for initial greeting"; "Press 0 to reach an operator"; "Wait for operator"]).
Proof. repeat split. Qed.

(** ** Running computations *)

Ltac unfold_M :=
  unfold try_catch, throw, get_world, put_world, mbind, M_bind, mret, M_ret in *.

(** ** FallbackHandler *)

Lemma getUserPhoneNumber_truthy context :
  JS.truthy (FallbackHandler.getUserPhoneNumber context) = true.
Proof.
  unfold FallbackHandler.getUserPhoneNumber.
  destruct (JS.truthy (default "" (phone <$> customerDetails context))) eqn:E1; [exact E1|].
  destruct (JS.truthy (default "" (contactDetails context ≫= fun c => head (phoneNumbers c))))
    eqn:E2; [exact E2|reflexivity].
Qed.

(** C8.  [handleFallback] throws when holding reports failure, and then the
    world is the one the hold attempt left: the side call was not made.  It
    throws when resuming reports failure after the side call.  It returns a
    result exactly when the hold succeeded, then the side call returned that
    result, then the resume succeeded, each step starting from the world the
    previous one left. *)
Theorem handleFallback_hold_call_resume
    (tc : TwilioControllerMethods) (callSid : string) (context : EnhancedComplaintContext)
    (missingInfo : list string) (complaintId : string) (w : World) :
  let run := FallbackHandler.handleFallback tc callSid context missingInfo complaintId w in
  let userPhoneNumber := FallbackHandler.getUserPhoneNumber context in
  (forall w1,
      invoke_placeCallOnHold tc callSid w = (Returned false, w1) ->
      run = (Thrown "Fallback handling failed: Failed to place call on hold", w1)) /\
  (forall w1 result w2 w3,
      invoke_placeCallOnHold tc callSid w = (Returned true, w1) ->
      invoke_callUserForFallback tc userPhoneNumber missingInfo complaintId w1 = (Returned result, w2) ->
      invoke_resumeCall tc callSid w2 = (Returned false, w3) ->
      run = (Thrown "Fallback handling failed: Failed to resume call after fallback", w3)) /\
  (forall result w3,
      run = (Returned result, w3) <->
      exists w1 w2,
        invoke_placeCallOnHold tc callSid w = (Returned true, w1) /\
        invoke_callUserForFallback tc userPhoneNumber missingInfo complaintId w1 = (Returned result, w2) /\
        invoke_resumeCall tc callSid w2 = (Returned true, w3)).
Proof.
  cbv zeta. unfold FallbackHandler.handleFallback. unfold_M.
  rewrite getUserPhoneNumber_truthy. cbn [negb].
  split; [|split].
  - intros w1 Hhold. rewrite Hhold. reflexivity.
  - intros w1 result w2 w3 Hhold Hcall Hresume.
    rewrite Hhold. cbn [negb]. rewrite Hcall, Hresume. reflexivity.
  - intros result w3. split.
    + destruct (invoke_placeCallOnHold tc callSid w) as [[[|]|e] w1] eqn:Hhold; cbn [negb];
        try (intros H; discriminate H).
      destruct (invoke_callUserForFallback tc _ missingInfo complaintId w1) as [[r|e] w2]
        eqn:Hcall; try (intros H; discriminate H).
      destruct (invoke_resumeCall tc callSid w2) as [[[|]|e] w3'] eqn:Hresume; cbn [negb];
        try (intros H; discriminate H).
      intros H. inversion H; subst. exists w1, w2. auto.
    + intros (w1 & w2 & Hhold & Hcall & Hresume).
      rewrite Hhold. cbn [negb]. rewrite Hcall, Hresume. reflexivity.
Qed.

(** The three cases of C8 on a controller whose side call is the one of the
    sources: hold fails; resume fails; everything succeeds. *)
Lemma handleFallback_hold_call_resume_witness :
  let side_call :=
    TwilioController.callUserForFallback quiet_env
      (FallbackHandler.getUserPhoneNumber bare_context) ["account_number"] "c1" empty_world in
  (invoke_placeCallOnHold (controller_reporting quiet_env false true) "CA1" empty_world
     = (Returned false, empty_world) /\
   FallbackHandler.handleFallback (controller_reporting quiet_env false true)
       "CA1" bare_context ["account_number"] "c1" empty_world
     = (Thrown "Fallback handling failed: Failed to place call on hold", empty_world)) /\
  (fallbackDocs (snd side_call) <> [] /\
   FallbackHandler.handleFallback (controller_reporting quiet_env true false)
       "CA1" bare_context ["account_number"] "c1" empty_world
     = (Thrown "Fallback handling failed: Failed to resume call after fallback", snd side_call)) /\
  (exists result,
     userResponses result !! "account_number" = Some "AC123456789" /\
     FallbackHandler.handleFallback (controller_reporting quiet_env true true)
         "CA1" bare_context ["account_number"] "c1" empty_world
       = (Returned result, snd side_call)).
Proof.
  cbv zeta.
  pose (o := TwilioController.callUserForFallback quiet_env
               (FallbackHandler.getUserPhoneNumber bare_context) ["account_number"] "c1"
               empty_world).
  assert (Ho : o = (Returned {| userResponses := {[ "account_number" := "AC123456789" ]};
                                callResumed := true;
                                resumeTimestamp := TwilioController.seconds 2 |}, snd o)).
  { vm_compute. reflexivity. }
  fold o. split; [|split].
  - split; [reflexivity|].
    apply (proj1 (handleFallback_hold_call_resume
                    (controller_reporting quiet_env false true)
                    "CA1" bare_context ["account_number"] "c1" empty_world)).
    reflexivity.
  - split; [vm_compute; discriminate|].
    eapply (proj1 (proj2 (handleFallback_hold_call_resume
                    (controller_reporting quiet_env true false)
                    "CA1" bare_context ["account_number"] "c1" empty_world))).
    + reflexivity.
    + exact Ho.
    + reflexivity.
  - eexists. split; [|
      apply (proj2 (proj2 (handleFallback_hold_call_resume
                      (controller_reporting quiet_env true true)
                      "CA1" bare_context ["account_number"] "c1" empty_world)));
      exists empty_world, (snd o); split; [reflexivity|split; [exact Ho|reflexivity]]].
    vm_compute. reflexivity.
Defined.

(** ** Firestore requests *)

Section FirestoreFacts.

Variable env : Env.

Lemma get_unfold (c : Collection) (docId : string) (w : World) :
  Firestore.get env c docId w =
  if firestore_rejects env (firestoreRequests w)
  then (Thrown "Firestore request failed", bump_firestore w)
  else (Returned (Firestore.lookup_document c docId (bump_firestore w)), bump_firestore w).
Proof.
  unfold Firestore.get, Firestore.request. unfold_M.
  destruct (firestore_rejects env (firestoreRequests w)); reflexivity.
Qed.

Lemma update_complaints_unfold (docId : string) (payload : gmap string FieldUpdate) (w : World) :
  Firestore.update env complaints docId payload w =
  if firestore_rejects env (firestoreRequests w)
  then (Thrown "Firestore request failed", bump_firestore w)
  else
    let w1 := bump_draws (bump_firestore w) in
    match complaintDocs w !! docId with
    | None => (Thrown "No document to update", w1)
    | Some d =>
        (Returned tt,
         set_complaintDocs
           (<[docId := Firestore.apply_update (clock env (draws w)) payload d]> (complaintDocs w)) w1)
    end.
Proof.
  unfold Firestore.update, Firestore.request, Firestore.now. unfold_M.
  destruct (firestore_rejects env (firestoreRequests w)); [reflexivity|].
  cbn. destruct (complaintDocs w !! docId); reflexivity.
Qed.

Lemma update_complaints_frame (docId : string) payload (w : World) :
  same_but_complaint docId w (snd (Firestore.update env complaints docId payload w)).
Proof.
  rewrite update_complaints_unfold. unfold same_but_complaint.
  destruct (firestore_rejects env (firestoreRequests w)); cbn; [auto 6|].
  destruct (complaintDocs w !! docId); cbn; repeat split; auto.
  intros other Hne. now rewrite lookup_insert_ne.
Qed.

End FirestoreFacts.
(** ** FollowupHandler: the continuation decision *)

Lemma llmShouldContinueAsking_on_failure
    (env : Env) (context : EnhancedComplaintContext) (w : World) (error : string) :
  openai_create env (length (completions w)) generateFollowupQuestions_
    (ContinuePrompt (originalComplaint context)
                    (FollowupHandler.buildConversationSummary context)
                    (extractedFields context)) = Thrown error ->
  exists w', FollowupHandler.llmShouldContinueAsking env context w = (Returned false, w').
Proof.
  intros Hfail.
  unfold FollowupHandler.llmShouldContinueAsking, OpenAIClient.generateFollowupQuestions,
    OpenAIClient.chat_completions_create.
  unfold_M. rewrite Hfail. eauto.
Qed.

Lemma shouldAskMoreQuestions_on_failure
    (env : Env) (maxQuestions : nat) (context : EnhancedComplaintContext) (w : World)
    (error : string) :
  openai_create env (length (completions w)) generateFollowupQuestions_
    (ContinuePrompt (originalComplaint context)
                    (FollowupHandler.buildConversationSummary context)
                    (extractedFields context)) = Thrown error ->
  exists w', FollowupHandler.shouldAskMoreQuestions env maxQuestions context w = (Returned false, w').
Proof.
  intros Hfail.
  unfold FollowupHandler.shouldAskMoreQuestions.
  destruct (maxQuestions <=? length (conversationHistory context)); [cbn; eauto|].
  unfold try_catch.
  destruct (llmShouldContinueAsking_on_failure env context w error Hfail) as (w' & ->).
  eauto.
Qed.

(** C6.  With the LLM provider down every continuation decision fails, and
    [shouldAskMoreQuestions] resolves to [false] for every context.  The
    dialogue of [ConversationManager], which awaits the decision, then asks
    nothing.  The loop of [processComplaint] tests the promise, not what it
    resolves to: for the complaint of the example it makes the four
    decision requests, which all fail, and still asks the four canned
    questions, one after the other, and stores them with their answers. *)
Theorem processComplaint_asks_on_after_failed_decisions :
  (forall context w,
     fst (FollowupHandler.shouldAskMoreQuestions llm_down_env 4 context w) = Returned false) /\
  (exists context' w',
     ConversationManager.askQuestions llm_down_env 4 card_complaint acme "c1" world_with_complaint
       = (Returned context', w') /\
     conversationHistory context' = [] /\
     stored_history w' "c1" = []) /\
  (exists context' w',
     ComplaintProcessor.askFollowupQuestions llm_down_env 4 (fun _ _ => "It was on 3 May")
       "c1" "My card was charged twice" world_with_complaint = Some (context', w') /\
     List.map (fun turn => (question turn, answer turn)) (conversationHistory context') =
       [ ("To help resolve your issue quickly, could you tell me when this problem first occurred?",
          "It was on 3 May");
         ("What specific outcome or resolution are you hoping for with this issue?",
          "It was on 3 May");
         ("Could you provide any reference numbers, account details, or other specific information related to this problem?",
          "It was on 3 May");
         ("Is there any other important information you think would help us resolve this issue?",
          "It was on 3 May") ] /\
     stored_history w' "c1" = conversationHistory context' /\
     length (List.filter (fun request =>
                            match snd request with ContinuePrompt _ _ _ => true | _ => false end)
                         (completions w')) = 4 /\
     forall n method p, n < length (completions w') ->
       openai_create llm_down_env n method p = Thrown "503 Service Unavailable").
Proof.
  split.
  { intros context w.
    destruct (shouldAskMoreQuestions_on_failure llm_down_env 4 context w
                "503 Service Unavailable" eq_refl) as (w1 & ->).
    reflexivity. }
  split.
  { eexists _, _. split; [vm_compute; reflexivity|]. split; vm_compute; reflexivity. }
  eexists _, _. split; [vm_compute; reflexivity|].
  split; [vm_compute; reflexivity|]. split; [vm_compute; reflexivity|].
  split; [vm_compute; reflexivity|]. intros n method p _. reflexivity.
Qed.

(** ** CallManager *)

Section CallManagerFacts.

Variable env : Env.
Variable maxRetries : Z.

Lemma updateComplaintStatus_returns (complaintId : string) (callResult : CallResult) (w : World) :
  exists w',
    CallManager.updateComplaintStatus env complaintId callResult w = (Returned tt, w') /\
    same_but_complaint complaintId w w' /\
    retryCount_of w' complaintId = retryCount_of w complaintId.
Proof.
  unfold CallManager.updateComplaintStatus, try_catch.
  match goal with |- context [Firestore.update env complaints complaintId ?p w] =>
    pose proof (update_complaints_frame env complaintId p w) as Hframe;
    assert (Hkeep : retryCount_of (snd (Firestore.update env complaints complaintId p w))
                      complaintId = retryCount_of w complaintId);
    [|destruct (Firestore.update env complaints complaintId p w) as [[[]|e] w'];
      cbn in Hframe, Hkeep; eexists; split; try reflexivity; split; assumption] end.
  rewrite update_complaints_unfold. unfold retryCount_of.
  destruct (firestore_rejects env (firestoreRequests w)); [reflexivity|].
  cbn. destruct (complaintDocs w !! complaintId) as [d|] eqn:Hd; cbn; [|now rewrite Hd].
  rewrite lookup_insert_eq. cbn. f_equal.
  unfold int_or_zero, Firestore.apply_update.
  rewrite lookup_union, map_lookup_imap.
  repeat (rewrite lookup_insert_ne by discriminate). rewrite lookup_empty.
  cbn. destruct (d !! "retryCount"); reflexivity.
Qed.

Lemma calls_create_unfold (request : CallRequest) (w : World) :
  CallManager.calls_create env request w =
  (twilio_calls_create env (length (dialled w)) request, log_dial request w).
Proof.
  unfold CallManager.calls_create.
  destruct (twilio_calls_create env (length (dialled w)) request); reflexivity.
Qed.

(** C10.  When [calls.create] succeeds, [placeComplaintCall] returns at once
    a result with status [resolved], that resolution text and the sid of the
    new call.  The telephony provider has received that single request and
    nothing else happened but the status update of the complaint: no status
    poll, no transcript, no completion request. *)
Theorem placeComplaintCall_returns_on_initiation
    (context : EnhancedComplaintContext) (contact : ContactDetails) (complaintId : string)
    (w : World) (sid : string) :
  twilio_calls_create env (length (dialled w)) (CallManager.call_request env contact)
    = Returned sid ->
  exists w',
    CallManager.placeComplaintCall env maxRetries context contact complaintId w =
      Some (Returned {| status := resolved;
                        resolution := "Call initiated successfully";
                        nextSteps := ["Awaiting customer service response"];
                        callId := Some sid |}, w') /\
    dialled w' = (dialled w ++ [CallManager.call_request env contact])%list /\
    completions w' = completions w /\
    fallbackDocs w' = fallbackDocs w /\
    userDocs w' = userDocs w /\
    (forall other, other <> complaintId -> complaintDocs w' !! other = complaintDocs w !! other).
Proof.
  intros Hsid.
  unfold CallManager.placeComplaintCall, CallManager.retry_bound.
  cbn [CallManager.placeComplaintCall_within].
  rewrite calls_create_unfold, Hsid.
  match goal with |- context [CallManager.updateComplaintStatus env complaintId ?r] =>
    destruct (updateComplaintStatus_returns complaintId r
                (log_dial (CallManager.call_request env contact) w))
      as (w' & Hrun & (Hd & Hc & Hf & Hu & Ho) & _) end.
  exists w'. unfold_M. rewrite Hrun. cbn in *. auto 7.
Qed.

End CallManagerFacts.

Lemma placeComplaintCall_returns_on_initiation_witness :
  twilio_calls_create answering_env (length (dialled world_with_complaint))
    (CallManager.call_request answering_env acme_contact) = Returned "CA42" /\
  exists w',
    CallManager.placeComplaintCall answering_env 2 bare_context acme_contact "c1"
        world_with_complaint =
      Some (Returned {| status := resolved;
                        resolution := "Call initiated successfully";
                        nextSteps := ["Awaiting customer service response"];
                        callId := Some "CA42" |}, w') /\
    dialled w' = (dialled world_with_complaint ++
                  [CallManager.call_request answering_env acme_contact])%list /\
    completions w' = completions world_with_complaint /\
    fallbackDocs w' = fallbackDocs world_with_complaint /\
    userDocs w' = userDocs world_with_complaint /\
    (forall other, other <> "c1" ->
       complaintDocs w' !! other = complaintDocs world_with_complaint !! other).
Proof.
  split; [reflexivity|].
  apply placeComplaintCall_returns_on_initiation. reflexivity.
Defined.

Section RetryFacts.

Variable env : Env.
Variable maxRetries : Z.

Hypothesis firestore_available : forall n, firestore_rejects env n = false.

Lemma int_or_zero_after_increment (t : nat) (d : Document) :
  int_or_zero
    (Firestore.apply_update t
       (list_to_map [("retryCount", Increment 1); ("lastRetryAt", ServerTimestamp)]) d)
    "retryCount" = (int_or_zero d "retryCount" + 1)%Z.
Proof.
  unfold int_or_zero, Firestore.apply_update.
  rewrite lookup_union, map_lookup_imap.
  change ((list_to_map [("retryCount", Increment 1); ("lastRetryAt", ServerTimestamp)]
            : gmap string FieldUpdate) !! "retryCount") with (Some (Increment 1)).
  cbn. destruct (d !! "retryCount") as [[]|]; cbn; reflexivity.
Qed.

Lemma shouldRetryCall_below_cap (complaintId : string) (w : World) (count : Z) :
  retryCount_of w complaintId = Some count ->
  (count < maxRetries)%Z ->
  exists w',
    CallManager.shouldRetryCall env maxRetries complaintId w = (Returned true, w') /\
    retryCount_of w' complaintId = Some (count + 1)%Z /\
    dialled w' = dialled w.
Proof.
  unfold retryCount_of. intros Hcount Hlt.
  destruct (complaintDocs w !! complaintId) as [d|] eqn:Hd; [|discriminate].
  cbn in Hcount. injection Hcount as Hcount.
  unfold CallManager.shouldRetryCall. unfold_M.
  rewrite get_unfold, firestore_available. cbn. rewrite Hd, Hcount.
  destruct (maxRetries <=? count)%Z eqn:E; [lia|].
  rewrite update_complaints_unfold, firestore_available. cbn. rewrite Hd.
  eexists. split; [reflexivity|]. cbn. split; [|reflexivity].
  rewrite lookup_insert_eq. cbn. now rewrite int_or_zero_after_increment, Hcount.
Qed.

Lemma shouldRetryCall_at_cap (complaintId : string) (w : World) (count : Z) :
  retryCount_of w complaintId = Some count ->
  (maxRetries <= count)%Z ->
  exists w',
    CallManager.shouldRetryCall env maxRetries complaintId w = (Returned false, w') /\
    retryCount_of w' complaintId = Some count /\
    dialled w' = dialled w.
Proof.
  unfold retryCount_of. intros Hcount Hle.
  destruct (complaintDocs w !! complaintId) as [d|] eqn:Hd; [|discriminate].
  cbn in Hcount. injection Hcount as Hcount.
  unfold CallManager.shouldRetryCall. unfold_M.
  rewrite get_unfold, firestore_available. cbn. rewrite Hd, Hcount.
  destruct (maxRetries <=? count)%Z eqn:E; [|lia].
  eexists. split; [reflexivity|]. cbn. rewrite Hd. cbn. rewrite Hcount. auto.
Qed.

Variable context : EnhancedComplaintContext.
Variable contact : ContactDetails.
Variable complaintId : string.

Hypothesis nobody_answers :
  forall n, is_thrown (twilio_calls_create env n (CallManager.call_request env contact)) = true.

(** With [remaining] retries left before the cap, a telephony client that
    always fails is dialled [remaining + 1] times, and the call then returns
    a [failed] result carrying the message of the last attempt. *)
Lemma placeComplaintCall_exhausts_retries (remaining : nat) : forall (fuel : nat) (w : World) (count : Z),
  retryCount_of w complaintId = Some count ->
  (maxRetries - count = Z.of_nat remaining)%Z ->
  remaining < fuel ->
  exists w' message,
    CallManager.placeComplaintCall_within env maxRetries fuel context contact complaintId w =
      Some (Returned {| status := failed;
                        resolution := "Call failed: " ++ message;
                        nextSteps := [];
                        callId := Some "failed_call" |}, w') /\
    dialled w' = (dialled w ++ replicate (S remaining) (CallManager.call_request env contact))%list /\
    twilio_calls_create env (length (dialled w) + remaining) (CallManager.call_request env contact)
      = Thrown message /\
    retryCount_of w' complaintId = Some maxRetries.
Proof.
  induction remaining as [|remaining IH]; intros fuel w count Hcount Hrem Hfuel;
    (destruct fuel as [|fuel]; [lia|]); cbn [CallManager.placeComplaintCall_within];
    rewrite calls_create_unfold;
    pose proof (nobody_answers (length (dialled w))) as Hfail;
    destruct (twilio_calls_create env (length (dialled w)) (CallManager.call_request env contact))
      as [sid|message] eqn:Hdial; try discriminate Hfail.
  - destruct (shouldRetryCall_at_cap complaintId
                (log_dial (CallManager.call_request env contact) w) count Hcount ltac:(lia))
      as (w2 & Hretry & Hcount2 & Hdialled2).
    rewrite Hretry.
    match goal with |- context [CallManager.updateComplaintStatus env complaintId ?r] =>
      destruct (updateComplaintStatus_returns env complaintId r w2)
        as (w3 & Hrun & (Hd3 & _) & Hkeep) end.
    exists w3, message. unfold_M. rewrite Hrun.
    split; [reflexivity|]. split; [now rewrite Hd3, Hdialled2|].
    split; [now rewrite Nat.add_0_r|].
    rewrite Hkeep, Hcount2. f_equal. lia.
  - destruct (shouldRetryCall_below_cap complaintId
                (log_dial (CallManager.call_request env contact) w) count Hcount ltac:(lia))
      as (w2 & Hretry & Hcount2 & Hdialled2).
    rewrite Hretry.
    destruct (IH fuel w2 (count + 1)%Z Hcount2 ltac:(lia) ltac:(lia))
      as (w' & message' & Hrun & Hdialled & Hlast & Hfinal).
    exists w', message'. split; [exact Hrun|].
    rewrite Hdialled2 in Hdialled, Hlast. cbn [log_dial dialled] in Hdialled, Hlast.
    split; [rewrite Hdialled, <- app_assoc; reflexivity|].
    split; [|exact Hfinal].
    rewrite length_app in Hlast. cbn in Hlast.
    now replace (length (dialled w) + S remaining) with (length (dialled w) + 1 + remaining) by lia.
Qed.

End RetryFacts.

Section RetryTermination.

Variable env : Env.
Variable maxRetries : Z.

Lemma shouldRetryCall_true_inv (complaintId : string) (w w' : World) :
  CallManager.shouldRetryCall env maxRetries complaintId w = (Returned true, w') ->
  exists count,
    retryCount_of w complaintId = Some count /\ (count < maxRetries)%Z /\
    retryCount_of w' complaintId = Some (count + 1)%Z.
Proof.
  unfold CallManager.shouldRetryCall. unfold_M.
  rewrite get_unfold.
  destruct (firestore_rejects env (firestoreRequests w)); [discriminate|].
  cbn. unfold retryCount_of.
  destruct (complaintDocs w !! complaintId) as [d|] eqn:Hd; [|discriminate].
  destruct (maxRetries <=? int_or_zero d "retryCount")%Z eqn:E; [discriminate|].
  rewrite update_complaints_unfold. cbn.
  destruct (firestore_rejects env (S (firestoreRequests w))); [discriminate|].
  cbn. rewrite Hd. intros H. injection H as <-.
  exists (int_or_zero d "retryCount"). cbn.
  split; [reflexivity|]. split; [lia|].
  rewrite lookup_insert_eq. cbn. now rewrite int_or_zero_after_increment.
Qed.

(** [placeComplaintCall] always comes back: the recursion is bounded by the
    distance of the stored counter from the cap. *)
Lemma placeComplaintCall_within_total
    (context : EnhancedComplaintContext) (contact : ContactDetails) (complaintId : string)
    (fuel : nat) : forall w,
  Z.to_nat (maxRetries - default 0%Z (retryCount_of w complaintId)) < fuel ->
  is_Some (CallManager.placeComplaintCall_within env maxRetries fuel context contact complaintId w).
Proof.
  induction fuel as [|fuel IH]; intros w Hfuel; [lia|].
  cbn [CallManager.placeComplaintCall_within].
  rewrite calls_create_unfold.
  destruct (twilio_calls_create env (length (dialled w)) (CallManager.call_request env contact))
    as [sid|message]; [eauto|].
  destruct (CallManager.shouldRetryCall env maxRetries complaintId
              (log_dial (CallManager.call_request env contact) w)) as [[[|]|e] w2] eqn:Hretry;
    [|eauto|eauto].
  apply IH.
  destruct (shouldRetryCall_true_inv _ _ _ Hretry) as (count & Hcount & Hlt & Hcount2).
  rewrite Hcount2. cbn.
  change (retryCount_of (log_dial (CallManager.call_request env contact) w) complaintId)
    with (retryCount_of w complaintId) in Hcount.
  rewrite Hcount in Hfuel. cbn in Hfuel. lia.
Qed.

Lemma placeComplaintCall_total
    (context : EnhancedComplaintContext) (contact : ContactDetails) (complaintId : string)
    (w : World) :
  is_Some (CallManager.placeComplaintCall env maxRetries context contact complaintId w).
Proof.
  apply placeComplaintCall_within_total. unfold CallManager.retry_bound. lia.
Qed.

End RetryTermination.

(** C5.  With [maxRetries = 2], a stored [retryCount] of 0, a store that
    serves its requests and a telephony client whose [calls.create] always
    fails, [placeComplaintCall] dials exactly three times, leaves the counter
    at 2, and returns (does not throw) a [failed] result whose resolution
    text ends with the message of the last failure. *)
Theorem placeComplaintCall_three_attempts_then_failed
    (env : Env) (context : EnhancedComplaintContext) (contact : ContactDetails)
    (complaintId : string) (w : World) :
  (forall n, firestore_rejects env n = false) ->
  (forall n, is_thrown (twilio_calls_create env n (CallManager.call_request env contact)) = true) ->
  retryCount_of w complaintId = Some 0%Z ->
  exists w' message,
    CallManager.placeComplaintCall env 2 context contact complaintId w =
      Some (Returned {| status := failed;
                        resolution := "Call failed: " ++ message;
                        nextSteps := [];
                        callId := Some "failed_call" |}, w') /\
    dialled w' = (dialled w ++ [ CallManager.call_request env contact;
                                 CallManager.call_request env contact;
                                 CallManager.call_request env contact ])%list /\
    twilio_calls_create env (length (dialled w) + 2) (CallManager.call_request env contact)
      = Thrown message /\
    retryCount_of w' complaintId = Some 2%Z.
Proof.
  intros Hstore Hdial Hcount.
  unfold CallManager.placeComplaintCall, CallManager.retry_bound.
  rewrite Hcount.
  apply (placeComplaintCall_exhausts_retries env 2 Hstore context contact complaintId Hdial
           2 3 w 0%Z Hcount); [reflexivity | lia].
Qed.

Lemma placeComplaintCall_three_attempts_witness :
  (forall n, firestore_rejects quiet_env n = false) /\
  (forall n, is_thrown (twilio_calls_create quiet_env n
                          (CallManager.call_request quiet_env acme_contact)) = true) /\
  retryCount_of world_with_complaint "c1" = Some 0%Z /\
  exists w' message,
    CallManager.placeComplaintCall quiet_env 2 bare_context acme_contact "c1" world_with_complaint =
      Some (Returned {| status := failed;
                        resolution := "Call failed: " ++ message;
                        nextSteps := [];
                        callId := Some "failed_call" |}, w') /\
    dialled w' = (dialled world_with_complaint ++
                  [ CallManager.call_request quiet_env acme_contact;
                    CallManager.call_request quiet_env acme_contact;
                    CallManager.call_request quiet_env acme_contact ])%list /\
    twilio_calls_create quiet_env (length (dialled world_with_complaint) + 2)
      (CallManager.call_request quiet_env acme_contact) = Thrown message /\
    retryCount_of w' "c1" = Some 2%Z.
Proof.
  split; [reflexivity|]. split; [reflexivity|]. split; [reflexivity|].
  apply (placeComplaintCall_three_attempts_then_failed
           quiet_env bare_context acme_contact "c1" world_with_complaint);
    intros; reflexivity.
Defined.

Example placeComplaintCall_quiet_env_result :
  fst <$> CallManager.placeComplaintCall quiet_env 2 bare_context acme_contact "c1" world_with_complaint
  = Some (Returned {| status := failed; resolution := "Call failed: line busy";
                      nextSteps := []; callId := Some "failed_call" |}).
Proof. vm_compute. reflexivity. Qed.

(** ** Computations that leave the complaint documents alone *)

Section Keeps.

Variable env : Env.

Lemma keeps_ret {A} (a : A) : keeps_complaints (mret a).
Proof. intros w. reflexivity. Qed.

Lemma keeps_throw {A} (e : string) : keeps_complaints (@throw A e).
Proof. intros w. reflexivity. Qed.

Lemma keeps_bind {A B} (m : M A) (k : A -> M B) :
  keeps_complaints m -> (forall a, keeps_complaints (k a)) -> keeps_complaints (m ≫= k).
Proof.
  intros Hm Hk w. unfold_M. specialize (Hm w).
  destruct (m w) as [[a|e] w1]; cbn in *; [|exact Hm].
  now rewrite Hk.
Qed.

Lemma keeps_try_catch {A} (body : M A) (handler : string -> M A) :
  keeps_complaints body -> (forall e, keeps_complaints (handler e)) ->
  keeps_complaints (try_catch body handler).
Proof.
  intros Hm Hk w. unfold_M. specialize (Hm w).
  destruct (body w) as [[a|e] w1]; cbn in *; [exact Hm|].
  now rewrite Hk.
Qed.

Lemma keeps_now : keeps_complaints (Firestore.now env).
Proof. intros w. reflexivity. Qed.

Lemma keeps_fresh_uuid : keeps_complaints (Firestore.fresh_uuid env).
Proof. intros w. reflexivity. Qed.

Lemma keeps_get c docId : keeps_complaints (Firestore.get env c docId).
Proof.
  intros w. rewrite get_unfold.
  destruct (firestore_rejects env (firestoreRequests w)); reflexivity.
Qed.

Lemma keeps_chat method p : keeps_complaints (OpenAIClient.chat_completions_create env method p).
Proof.
  intros w. unfold OpenAIClient.chat_completions_create.
  destruct (openai_create env (length (completions w)) method p); reflexivity.
Qed.

Ltac keeps :=
  repeat first
    [ apply keeps_ret | apply keeps_throw | apply keeps_now | apply keeps_fresh_uuid
    | apply keeps_get | apply keeps_chat
    | apply keeps_bind; [|intros ?]
    | apply keeps_try_catch; [|intros ?]
    | match goal with |- keeps_complaints (if ?b then _ else _) => destruct b end
    | match goal with |- keeps_complaints (match ?x with _ => _ end) => destruct x end ].

Lemma keeps_generateFollowupQuestions p :
  keeps_complaints (OpenAIClient.generateFollowupQuestions env p).
Proof. unfold OpenAIClient.generateFollowupQuestions. keeps. Qed.

Lemma keeps_extractInformation p : keeps_complaints (OpenAIClient.extractInformation env p).
Proof. unfold OpenAIClient.extractInformation. keeps. Qed.

Lemma keeps_extractInformationFromText s :
  keeps_complaints (FollowupHandler.extractInformationFromText env s).
Proof.
  unfold FollowupHandler.extractInformationFromText.
  apply keeps_try_catch; [|intros; apply keeps_ret].
  apply keeps_bind; [apply keeps_extractInformation|intros; apply keeps_ret].
Qed.

Lemma keeps_preAnalyzeComplaint context :
  keeps_complaints (FollowupHandler.preAnalyzeComplaint env context).
Proof.
  unfold FollowupHandler.preAnalyzeComplaint.
  apply keeps_try_catch; [|intros; apply keeps_ret].
  apply keeps_bind; [apply keeps_extractInformationFromText|intros; apply keeps_ret].
Qed.

Lemma preAnalyzeComplaint_history context w :
  exists context',
    fst (FollowupHandler.preAnalyzeComplaint env context w) = Returned context' /\
    conversationHistory context' = conversationHistory context.
Proof.
  unfold FollowupHandler.preAnalyzeComplaint. unfold_M.
  destruct (FollowupHandler.extractInformationFromText env (originalComplaint context) w)
    as [[fs|e] w1]; cbn; eauto.
Qed.

Lemma keeps_shouldAskMoreQuestions maxQuestions context :
  keeps_complaints (FollowupHandler.shouldAskMoreQuestions env maxQuestions context).
Proof.
  unfold FollowupHandler.shouldAskMoreQuestions, FollowupHandler.llmShouldContinueAsking.
  destruct (maxQuestions <=? length (conversationHistory context)); [apply keeps_ret|].
  apply keeps_try_catch; [|intros; apply keeps_ret].
  apply keeps_try_catch; [|intros; apply keeps_ret].
  apply keeps_bind; [apply keeps_generateFollowupQuestions|intros; apply keeps_ret].
Qed.

Lemma keeps_generateFollowupQuestion maxQuestions context :
  keeps_complaints (FollowupHandler.generateFollowupQuestion env maxQuestions context).
Proof.
  unfold FollowupHandler.generateFollowupQuestion, FollowupHandler.llmGenerateIntelligentQuestion.
  destruct (maxQuestions <=? length (conversationHistory context)); [apply keeps_ret|].
  apply keeps_try_catch; [|intros; apply keeps_ret].
  apply keeps_bind; [apply keeps_generateFollowupQuestions|intros response].
  cbv zeta.
  repeat match goal with |- keeps_complaints (if ?b then _ else _) => destruct b end;
    first [apply keeps_ret | apply keeps_throw].
Qed.

Lemma keeps_extractInformationFromAnswer context asked answered :
  keeps_complaints (FollowupHandler.extractInformationFromAnswer env context asked answered).
Proof.
  unfold FollowupHandler.extractInformationFromAnswer.
  apply keeps_try_catch; [|intros; apply keeps_ret].
  apply keeps_bind; [apply keeps_extractInformation|intros; apply keeps_ret].
Qed.

(** The extraction never throws. *)
Lemma extractInformationFromAnswer_returns context asked answered w :
  exists extracted,
    fst (FollowupHandler.extractInformationFromAnswer env context asked answered w)
      = Returned extracted.
Proof.
  unfold FollowupHandler.extractInformationFromAnswer. unfold_M.
  destruct (OpenAIClient.extractInformation env _ w) as [[response|e] w1]; cbn; eauto.
Qed.

Lemma keeps_load_user existingData :
  keeps_complaints (ConversationManager.load_user env existingData).
Proof.
  unfold ConversationManager.load_user.
  destruct (str_field existingData "userId") as [userId|]; [|apply keeps_ret].
  destruct (JS.truthy userId); [|apply keeps_ret].
  apply keeps_try_catch; [|intros; apply keeps_ret].
  apply keeps_bind; [apply keeps_get|intros; apply keeps_ret].
Qed.

Lemma load_user_returns existingData w :
  exists u, fst (ConversationManager.load_user env existingData w) = Returned u.
Proof.
  unfold ConversationManager.load_user.
  destruct (str_field existingData "userId") as [userId|]; [|cbn; eauto].
  destruct (JS.truthy userId); [|cbn; eauto].
  unfold_M. destruct (Firestore.get env users userId w) as [[d|e] w1]; cbn; eauto.
Qed.

End Keeps.

(** ** ConversationManager: what one operation does to the stored history *)

Section DialogueSteps.

Variable env : Env.
Variable maxQuestions : nat.

Lemma count_split (h : list ConversationTurn) :
  answered_count h + pending_count h = length h.
Proof.
  unfold answered_count, pending_count.
  induction h as [|turn rest IH]; cbn; [reflexivity|].
  unfold is_pending at 1. unfold is_answered at 1.
  destruct (JS.truthy (answer turn)); cbn; [|lia].
  destruct (String.eqb (JS.trim (answer turn)) ""); cbn; lia.
Qed.

Lemma filter_answered_all (h : list ConversationTurn) :
  pending_count h = 0 -> List.filter is_answered h = h.
Proof.
  unfold pending_count.
  induction h as [|turn rest IH]; cbn; [reflexivity|].
  unfold is_pending at 1. unfold is_answered at 1.
  destruct (JS.truthy (answer turn)); cbn; [|discriminate].
  destruct (String.eqb (JS.trim (answer turn)) ""); cbn; [discriminate|].
  intros H. now rewrite IH.
Qed.

Lemma maybe_ask_spec (context : EnhancedComplaintContext) (questionCount : nat) (w : World) :
  complaintDocs (snd (ConversationManager.maybe_ask env maxQuestions context questionCount w))
    = complaintDocs w /\
  forall h', fst (ConversationManager.maybe_ask env maxQuestions context questionCount w)
               = Returned h' ->
    h' = conversationHistory context \/
    (questionCount < maxQuestions /\
     exists turn, answer turn = "" /\ h' = (conversationHistory context ++ [turn])%list).
Proof.
  unfold ConversationManager.maybe_ask.
  destruct (questionCount <? maxQuestions) eqn:Hlt; [|cbn; split; [reflexivity|]; intros h' H;
    injection H as <-; now left].
  apply Nat.ltb_lt in Hlt.
  unfold_M.
  pose proof (keeps_shouldAskMoreQuestions env maxQuestions context w) as K1.
  destruct (FollowupHandler.shouldAskMoreQuestions env maxQuestions context w) as [[[|]|e] w1];
    cbn in K1; cbn;
    [| split; [exact K1|]; intros h' H; injection H as <-; now left
     | split; [exact K1|]; intros h' H; discriminate H].
  pose proof (keeps_generateFollowupQuestion env maxQuestions context w1) as K2.
  destruct (FollowupHandler.generateFollowupQuestion env maxQuestions context w1) as [[q|e] w2];
    cbn in K2; cbn; [| split; [congruence|]; intros h' H; discriminate H].
  match goal with |- context [if ?b then _ else _] => destruct b end; cbn;
    [| split; [congruence|]; intros h' H; injection H as <-; now left].
  split; [congruence|]. intros h' H. injection H as <-. right.
  split; [exact Hlt|]. eexists. split; [|reflexivity]. reflexivity.
Qed.

Lemma turns_after_update t (h' : list ConversationTurn) rest_ (d : gmap string FsValue) :
  turns_or_empty
    (Firestore.apply_update t
       (list_to_map (("conversationHistory", SetTo (VTurns h')) :: rest_)) d) = h'.
Proof.
  unfold turns_or_empty, Firestore.apply_update.
  rewrite lookup_union, map_lookup_imap. cbn [list_to_map foldr].
  rewrite lookup_insert_eq. cbn.
  destruct (d !! "conversationHistory"); reflexivity.
Qed.

Lemma stored_history_frame (complaintId other : string) (w w' : World) :
  complaintDocs w' = complaintDocs w -> stored_history w' other = stored_history w other.
Proof. unfold stored_history. now intros ->. Qed.

(** One [askQuestions] changes no other complaint, and changes the history
    of its own complaint by one [ask_step]. *)
Lemma askQuestions_step (context : ComplaintContext) (companyInfo : CompanyInfo)
    (complaintId : string) (w : World) (other : string) :
  let w' := snd (ConversationManager.askQuestions env maxQuestions context companyInfo complaintId w) in
  (other <> complaintId -> stored_history w' other = stored_history w other) /\
  ask_step maxQuestions (stored_history w complaintId) (stored_history w' complaintId).
Proof.
  cbv zeta.
  assert (Hsame : forall w1 : World, complaintDocs w1 = complaintDocs w ->
            (other <> complaintId -> stored_history w1 other = stored_history w other) /\
            ask_step maxQuestions (stored_history w complaintId) (stored_history w1 complaintId)).
  { intros w1 H. split; [intros _; now apply (stored_history_frame complaintId)|].
    left. now apply (stored_history_frame complaintId). }
  unfold ConversationManager.askQuestions. unfold_M.
  rewrite get_unfold.
  destruct (firestore_rejects env (firestoreRequests w)); [apply Hsame; reflexivity|].
  cbv beta iota. cbn [Firestore.lookup_document bump_firestore complaintDocs].
  destruct (complaintDocs w !! complaintId) as [d|] eqn:Hd; [|apply Hsame; reflexivity].
  pose proof (keeps_load_user env d (bump_firestore w)) as K1.
  destruct (ConversationManager.load_user env d (bump_firestore w)) as [[u|e] w1];
    cbn [fst snd bump_firestore complaintDocs] in K1; cbv beta iota;
    [|apply Hsame; exact K1].
  cbn [conversationHistory].
  match goal with |- context [(if ?c then FollowupHandler.preAnalyzeComplaint env ?i else ?b) w1] =>
    set (initial := i) end.
  match goal with |- context [(if ?c then FollowupHandler.preAnalyzeComplaint env initial else ?b) w1] =>
    set (pre := if c then FollowupHandler.preAnalyzeComplaint env initial else b) end.
  assert (K2 : complaintDocs (snd (pre w1)) = complaintDocs w1).
  { subst pre. destruct (length (turns_or_empty d) =? 0);
      [apply keeps_preAnalyzeComplaint | reflexivity]. }
  assert (H2 : forall c, fst (pre w1) = Returned c ->
                 conversationHistory c = turns_or_empty d).
  { subst pre. destruct (length (turns_or_empty d) =? 0).
    - intros c Hc. destruct (preAnalyzeComplaint_history env initial w1) as (c' & Hc' & Hh).
      assert (Hcc : Returned c = Returned c') by (rewrite <- Hc, <- Hc'; reflexivity).
      injection Hcc as ->. exact Hh.
    - intros c Hc. injection Hc as <-. reflexivity. }
  destruct (pre w1) as [[enhanced|e] w2]; cbn [fst snd] in K2, H2; cbv beta iota;
    [|apply Hsame; cbn [snd]; congruence].
  specialize (H2 enhanced eq_refl).
  destruct (0 <? length (List.filter is_pending (conversationHistory enhanced))) eqn:Hpending;
    [apply Hsame; cbn [snd]; congruence|].
  apply Nat.ltb_ge in Hpending.
  destruct (maybe_ask_spec enhanced
              (length (List.filter is_answered (conversationHistory enhanced))) w2) as [K3 H3].
  destruct (ConversationManager.maybe_ask env maxQuestions enhanced _ w2) as [[h'|e] w3];
    cbn [fst snd] in K3, H3; cbv beta iota; [|apply Hsame; cbn [snd]; congruence].
  specialize (H3 h' eq_refl).
  rewrite update_complaints_unfold.
  destruct (firestore_rejects env (firestoreRequests w3)); [apply Hsame; cbn [snd bump_firestore complaintDocs]; congruence|].
  cbv zeta. replace (complaintDocs w3 !! complaintId) with (Some d) by (rewrite <- Hd; congruence).
  cbv beta iota. cbn [snd]. split.
  - intros Hne. unfold stored_history.
    cbn [set_complaintDocs complaintDocs bump_draws bump_firestore].
    rewrite lookup_insert_ne by congruence.
    assert (K : complaintDocs w3 = complaintDocs w) by congruence.
    now rewrite K.
  - unfold stored_history at 2.
    cbn [set_complaintDocs complaintDocs bump_draws bump_firestore].
    rewrite lookup_insert_eq, turns_after_update.
    unfold stored_history. rewrite Hd. rewrite H2 in H3, Hpending.
    destruct H3 as [->|(Hlt & turn & Hturn & ->)]; [now left|right].
    assert (Hnone : pending_count (turns_or_empty d) = 0) by (unfold pending_count; lia).
    rewrite (filter_answered_all _ Hnone) in Hlt. eauto.
Qed.

Lemma findIndex_lookup (questionId : string) (h : list ConversationTurn) (index : nat) :
  ConversationManager.findIndex questionId h = Some index ->
  exists turn, h !! index = Some turn /\ id turn = questionId /\
               Forall (fun earlier => id earlier <> questionId) (take index h).
Proof.
  revert index. induction h as [|turn rest IH]; intros index; cbn; [discriminate|].
  destruct (String.eqb (id turn) questionId) eqn:E.
  - intros H. injection H as <-. apply String.eqb_eq in E. cbn. eauto.
  - destruct (ConversationManager.findIndex questionId rest) as [i|]; cbn; [|discriminate].
    intros H. injection H as <-. destruct (IH i eq_refl) as (t & Ht & Hid & Hbefore).
    exists t. cbn. split; [exact Ht|]. split; [exact Hid|].
    constructor; [|exact Hbefore]. now apply String.eqb_neq.
Qed.

Lemma findIndex_none (questionId : string) (h : list ConversationTurn) :
  ConversationManager.findIndex questionId h = None <->
  ~ exists turn, turn ∈ h /\ id turn = questionId.
Proof.
  induction h as [|turn rest IH]; cbn.
  - split; [|reflexivity]. intros _ (t & Hin & _). inversion Hin.
  - destruct (String.eqb (id turn) questionId) eqn:E.
    + apply String.eqb_eq in E. split; [discriminate|].
      intros H. exfalso. apply H. exists turn. split; [left|exact E].
    + apply String.eqb_neq in E.
      destruct (ConversationManager.findIndex questionId rest) as [i|]; cbn.
      * split; [discriminate|]. intros H. exfalso.
        assert (Hnone : @None nat = None) by reflexivity.
        assert (Hrest : ~ exists t, t ∈ rest /\ id t = questionId).
        { intros (t & Hin & Hid). apply H. exists t. split; [now right|exact Hid]. }
        apply (proj2 IH) in Hrest. discriminate Hrest.
      * split; [|reflexivity]. intros _ (t & Hin & Hid).
        apply (proj1 IH eq_refl). inversion Hin; subst; [contradiction|]. eauto.
Qed.

(** One [processAnswer] changes no other complaint, and changes the history
    of its own complaint by one [answer_step]. *)
Lemma processAnswer_step (complaintId questionId answer_ : string) (w : World) (other : string) :
  let w' := snd (ConversationManager.processAnswer env complaintId questionId answer_ w) in
  (other <> complaintId -> stored_history w' other = stored_history w other) /\
  answer_step answer_ (stored_history w complaintId) (stored_history w' complaintId).
Proof.
  cbv zeta.
  assert (Hsame : forall w1 : World, complaintDocs w1 = complaintDocs w ->
            (other <> complaintId -> stored_history w1 other = stored_history w other) /\
            answer_step answer_ (stored_history w complaintId) (stored_history w1 complaintId)).
  { intros w1 H. split; [intros _; now apply (stored_history_frame complaintId)|].
    left. now apply (stored_history_frame complaintId). }
  unfold ConversationManager.processAnswer. unfold_M.
  rewrite get_unfold.
  destruct (firestore_rejects env (firestoreRequests w)); [apply Hsame; reflexivity|].
  cbv beta iota. cbn [Firestore.lookup_document bump_firestore complaintDocs].
  destruct (complaintDocs w !! complaintId) as [d|] eqn:Hd; [|apply Hsame; reflexivity].
  destruct (ConversationManager.findIndex questionId (turns_or_empty d)) as [index|] eqn:Hfind;
    [|apply Hsame; reflexivity].
  destruct (turns_or_empty d !! index) as [turn|] eqn:Hturn; [|apply Hsame; reflexivity].
  match goal with |- context [FollowupHandler.extractInformationFromAnswer env ?c ?q ?a ?w0] =>
    pose proof (keeps_extractInformationFromAnswer env c q a w0) as K1;
    destruct (FollowupHandler.extractInformationFromAnswer env c q a w0) as [[extracted|e] w1] end;
    cbn [fst snd bump_firestore complaintDocs] in K1; cbv beta iota;
    [|apply Hsame; cbn [snd]; exact K1].
  unfold Firestore.now. cbv beta iota.
  rewrite update_complaints_unfold.
  cbn [firestoreRequests bump_draws].
  destruct (firestore_rejects env (firestoreRequests w1));
    [apply Hsame; cbn [snd bump_firestore bump_draws complaintDocs]; exact K1|].
  cbv zeta. cbn [complaintDocs bump_draws].
  replace (complaintDocs w1 !! complaintId) with (Some d) by (rewrite <- Hd; congruence).
  cbv beta iota. cbn [snd]. split.
  - intros Hne. unfold stored_history.
    cbn [set_complaintDocs complaintDocs bump_draws bump_firestore].
    rewrite lookup_insert_ne by congruence. now rewrite K1.
  - unfold stored_history at 2.
    cbn [set_complaintDocs complaintDocs bump_draws bump_firestore].
    rewrite lookup_insert_eq, turns_after_update.
    unfold stored_history. rewrite Hd. right.
    exists index, turn. do 2 eexists. split; [exact Hturn | reflexivity].
Qed.

End DialogueSteps.

(** ** Invariants of the dialogue *)

Section DialogueInvariants.

Variable env : Env.
Variable maxQuestions : nat.

Lemma ask_step_length (h h' : list ConversationTurn) :
  ask_step maxQuestions h h' -> length h <= maxQuestions -> length h' <= maxQuestions.
Proof.
  intros [->|(_ & Hlt & turn & _ & ->)] Hle; [exact Hle|].
  rewrite length_app. cbn. lia.
Qed.

Lemma answer_step_length (a : string) (h h' : list ConversationTurn) :
  answer_step a h h' -> length h' = length h.
Proof.
  intros [->|(index & turn & t & extracted & _ & ->)]; [reflexivity|].
  apply length_insert.
Qed.

Lemma pending_count_app (h1 h2 : list ConversationTurn) :
  pending_count (h1 ++ h2) = pending_count h1 + pending_count h2.
Proof. unfold pending_count. now rewrite List.filter_app, length_app. Qed.

Lemma ask_step_pending (h h' : list ConversationTurn) :
  ask_step maxQuestions h h' -> pending_count h <= 1 -> pending_count h' <= 1.
Proof.
  intros [->|(Hnone & _ & turn & Hturn & ->)] Hle; [exact Hle|].
  rewrite pending_count_app, Hnone. unfold pending_count. cbn.
  destruct (is_pending turn); cbn; lia.
Qed.

Lemma pending_count_insert_answered (h : list ConversationTurn) (index : nat)
    (turn answered : ConversationTurn) :
  h !! index = Some turn -> is_pending answered = false ->
  pending_count (<[index := answered]> h) <= pending_count h.
Proof.
  unfold pending_count. revert index.
  induction h as [|first rest IH]; intros index Hlookup Hanswered; [discriminate|].
  destruct index as [|index]; cbn.
  - rewrite Hanswered. destruct (is_pending first); cbn; lia.
  - cbn in Hlookup. specialize (IH index Hlookup Hanswered).
    destruct (is_pending first); cbn [length]; [apply le_n_S|]; exact IH.
Qed.

Lemma answer_step_pending (a : string) (h h' : list ConversationTurn) :
  JS.truthy a && negb (String.eqb (JS.trim a) "") = true ->
  answer_step a h h' -> pending_count h' <= pending_count h.
Proof.
  intros Htext [->|(index & turn & t & extracted & Hlookup & ->)]; [lia|].
  apply (pending_count_insert_answered h index turn); [exact Hlookup|].
  unfold is_pending, ConversationManager.answered_turn. cbn [answer].
  apply andb_true_iff in Htext as [Htruthy Htrim].
  apply negb_true_iff in Htrim. now rewrite Htruthy, Htrim.
Qed.

Lemma run_operation_length (op : Operation) (w : World) :
  (forall cid, length (stored_history w cid) <= maxQuestions) ->
  forall cid, length (stored_history (run_operation env maxQuestions op w) cid) <= maxQuestions.
Proof.
  intros Hinv cid.
  destruct op as [context companyInfo complaintId | complaintId questionId a]; cbn.
  - destruct (askQuestions_step env maxQuestions context companyInfo complaintId w cid)
      as [Hother Hstep].
    destruct (decide (cid = complaintId)) as [->|Hne].
    + eapply ask_step_length; [exact Hstep | apply Hinv].
    + rewrite Hother by exact Hne. apply Hinv.
  - destruct (processAnswer_step env complaintId questionId a w cid) as [Hother Hstep].
    destruct (decide (cid = complaintId)) as [->|Hne].
    + rewrite (answer_step_length _ _ _ Hstep). apply Hinv.
    + rewrite Hother by exact Hne. apply Hinv.
Qed.

Lemma run_operation_pending (op : Operation) (w : World) :
  submits_text op ->
  (forall cid, pending_count (stored_history w cid) <= 1) ->
  forall cid, pending_count (stored_history (run_operation env maxQuestions op w) cid) <= 1.
Proof.
  intros Htext Hinv cid.
  destruct op as [context companyInfo complaintId | complaintId questionId a]; cbn.
  - destruct (askQuestions_step env maxQuestions context companyInfo complaintId w cid)
      as [Hother Hstep].
    destruct (decide (cid = complaintId)) as [->|Hne].
    + eapply ask_step_pending; [exact Hstep | apply Hinv].
    + rewrite Hother by exact Hne. apply Hinv.
  - destruct (processAnswer_step env complaintId questionId a w cid) as [Hother Hstep].
    destruct (decide (cid = complaintId)) as [->|Hne].
    + pose proof (answer_step_pending a _ _ Htext Hstep). specialize (Hinv complaintId). lia.
    + rewrite Hother by exact Hne. apply Hinv.
Qed.

(** C1.  [askQuestions] leaves a stored history as it is or pushes one
    unanswered turn, and it pushes only when the number of answered turns is
    strictly below [maxQuestions].  Hence, starting from histories of at
    most [maxQuestions] turns (new complaints start empty), after any
    sequence of [askQuestions] and [processAnswer] the number of answered
    turns of every complaint is at most [maxQuestions]. *)
Theorem answered_turns_within_limit :
  (forall context companyInfo complaintId w,
     let h := stored_history w complaintId in
     let h' := stored_history
                 (snd (ConversationManager.askQuestions env maxQuestions
                         context companyInfo complaintId w)) complaintId in
     h' = h \/
     (answered_count h < maxQuestions /\ exists turn, answer turn = "" /\ h' = (h ++ [turn])%list)) /\
  (forall (ops : list Operation) (w : World),
     (forall cid, length (stored_history w cid) <= maxQuestions) ->
     forall cid,
       answered_count (stored_history (run_operations env maxQuestions ops w) cid) <= maxQuestions).
Proof.
  split.
  - intros context companyInfo complaintId w. cbv zeta.
    destruct (askQuestions_step env maxQuestions context companyInfo complaintId w complaintId)
      as [_ [Hsame|(Hnone & Hlt & turn & Hturn & Hpush)]]; [now left|right].
    split; [|eauto].
    pose proof (count_split (stored_history w complaintId)). lia.
  - intros ops. unfold run_operations.
    induction ops as [|op ops IH]; intros w Hinv cid; cbn.
    + pose proof (count_split (stored_history w cid)). specialize (Hinv cid). lia.
    + apply IH. apply run_operation_length, Hinv.
Qed.

End DialogueInvariants.

Lemma answered_turns_within_limit_witness :
  (forall cid, length (stored_history world_with_complaint cid) <= 4) /\
  answered_count
    (stored_history
       (run_operations chatty_env 4
          [ AskQuestions card_complaint acme "c1";
            ProcessAnswer "c1" "uuid-0" "yesterday";
            AskQuestions card_complaint acme "c1" ]
          world_with_complaint) "c1") <= 4.
Proof.
  assert (H : forall cid, length (stored_history world_with_complaint cid) <= 4).
  { intros cid. unfold stored_history, world_with_complaint. cbn.
    destruct (decide (cid = "c1")) as [->|Hne].
    - vm_compute. lia.
    - rewrite lookup_singleton_ne by congruence. cbn. lia. }
  split; [exact H|].
  apply (proj2 (answered_turns_within_limit chatty_env 4)). exact H.
Defined.

(** ** A pending question blocks the next one *)

Lemma pending_turn_counted (h : list ConversationTurn) (turn : ConversationTurn) :
  turn ∈ h -> answer turn = "" -> 0 < pending_count h.
Proof.
  unfold pending_count. intros Hin Hempty.
  induction Hin as [turn rest|turn other rest Hin IH]; cbn.
  - unfold is_pending at 1. rewrite Hempty. cbn. lia.
  - specialize (IH Hempty). destruct (is_pending other); cbn; lia.
Qed.

(** C2, as amended.  When the stored history of a complaint holds a turn
    with an empty answer, [askQuestions] (its read of the complaint being
    served) returns a context with exactly that history and the recomputed
    confidence, and the complaint documents are as before: no turn is
    appended.  Consequently, from histories with at most one pending turn,
    any sequence of [askQuestions] and of [processAnswer] with non-blank
    answers keeps at most one pending turn per complaint. *)
Theorem pending_question_blocks_asking (env : Env) (maxQuestions : nat) :
  (forall context companyInfo complaintId (w : World) (d : gmap string FsValue) turn,
     firestore_rejects env (firestoreRequests w) = false ->
     complaintDocs w !! complaintId = Some d ->
     turn ∈ turns_or_empty d -> answer turn = "" ->
     exists context' w',
       ConversationManager.askQuestions env maxQuestions context companyInfo complaintId w
         = (Returned context', w') /\
       conversationHistory context' = turns_or_empty d /\
       finalConfidence context' =
         ConfidenceEvaluator.calculateOverallConfidence (confidence context) (turns_or_empty d) /\
       complaintDocs w' = complaintDocs w) /\
  (forall (ops : list Operation) (w : World),
     Forall submits_text ops ->
     (forall cid, pending_count (stored_history w cid) <= 1) ->
     forall cid,
       pending_count (stored_history (run_operations env maxQuestions ops w) cid) <= 1).
Proof.
  split.
  - intros context companyInfo complaintId w d turn Hserved Hd Hin Hempty.
    pose proof (pending_turn_counted _ _ Hin Hempty) as Hpending.
    assert (Hnonempty : (length (turns_or_empty d) =? 0) = false).
    { apply Nat.eqb_neq. pose proof (count_split (turns_or_empty d)). lia. }
    unfold ConversationManager.askQuestions. unfold_M.
    rewrite get_unfold, Hserved.
    cbv beta iota. cbn [Firestore.lookup_document bump_firestore complaintDocs]. rewrite Hd.
    pose proof (keeps_load_user env d (bump_firestore w)) as K1.
    destruct (load_user_returns env d (bump_firestore w)) as (u & Hu).
    destruct (ConversationManager.load_user env d (bump_firestore w)) as [o w1].
    cbn [fst snd bump_firestore complaintDocs] in K1, Hu. subst o.
    cbv beta iota. cbn [conversationHistory]. rewrite Hnonempty.
    cbv beta iota. cbn [conversationHistory].
    unfold pending_count in Hpending. apply Nat.ltb_lt in Hpending. rewrite Hpending.
    do 2 eexists. split; [reflexivity|]. auto.
  - intros ops. unfold run_operations.
    induction ops as [|op ops IH]; intros w Htext Hinv cid; cbn; [apply Hinv|].
    inversion Htext as [|? ? Hop Hops]; subst.
    apply IH; [exact Hops|]. now apply run_operation_pending.
Qed.

Lemma pending_question_blocks_asking_witness :
  (firestore_rejects chatty_env (firestoreRequests world_with_question) = false /\
   exists context' w',
     ConversationManager.askQuestions chatty_env 4 card_complaint acme "c1" world_with_question
       = (Returned context', w') /\
     conversationHistory context' = [ConversationManager.new_turn "q1" "When did this occur?" 0] /\
     complaintDocs w' = complaintDocs world_with_question) /\
  (Forall submits_text [ AskQuestions card_complaint acme "c1";
                         ProcessAnswer "c1" "q1" "yesterday";
                         AskQuestions card_complaint acme "c1" ] /\
   pending_count
     (stored_history
        (run_operations chatty_env 4
           [ AskQuestions card_complaint acme "c1";
             ProcessAnswer "c1" "q1" "yesterday";
             AskQuestions card_complaint acme "c1" ]
           world_with_question) "c1") <= 1).
Proof.
  split.
  - split; [reflexivity|].
    destruct (proj1 (pending_question_blocks_asking chatty_env 4)
                card_complaint acme "c1" world_with_question
                {[ "conversationHistory" :=
                     VTurns [ ConversationManager.new_turn "q1" "When did this occur?" 0 ] ]}
                (ConversationManager.new_turn "q1" "When did this occur?" 0))
      as (context' & w' & Hrun & Hhistory & _ & Hdocs).
    + reflexivity.
    + reflexivity.
    + vm_compute. left.
    + reflexivity.
    + exists context', w'. split; [exact Hrun|]. split; [exact Hhistory|exact Hdocs].
  - assert (Htext : Forall submits_text [ AskQuestions card_complaint acme "c1";
                                          ProcessAnswer "c1" "q1" "yesterday";
                                          AskQuestions card_complaint acme "c1" ]).
    { repeat constructor. }
    split; [exact Htext|].
    apply (proj2 (pending_question_blocks_asking chatty_env 4)); [exact Htext|].
    intros cid. unfold stored_history, world_with_question. cbn [complaintDocs].
    destruct (decide (cid = "c1")) as [->|Hne].
    + vm_compute. lia.
    + rewrite lookup_singleton_ne by congruence. cbn. lia.
Defined.

(** C2, the part that fails: a blank answer submitted for a turn that was
    already answered makes it pending again, next to the pending question
    asked in the meantime.  (A single space passes the facade's check that
    an answer is present.) *)
Lemma blank_answer_leaves_two_pending :
  pending_count (stored_history world_with_complaint "c1") = 0 /\
  pending_count
    (stored_history
       (run_operations chatty_env 4
          [ AskQuestions card_complaint acme "c1";
            ProcessAnswer "c1" "uuid-0" "yesterday";
            AskQuestions card_complaint acme "c1";
            ProcessAnswer "c1" "uuid-0" " " ]
          world_with_complaint) "c1") = 2.
Proof. split; vm_compute; reflexivity. Qed.

(** ** processAnswer *)

Section ProcessAnswerFacts.

Variable env : Env.


Lemma processAnswer_known_turn (complaintId questionId a : string) (w : World)
    (turn0 : ConversationTurn) :
  (forall n, firestore_rejects env n = false) ->
  turn0 ∈ stored_history w complaintId -> id turn0 = questionId ->
  exists index turn complaintData extracted w1 t context' w',
    complaintDocs w !! complaintId = Some complaintData /\
    stored_history w complaintId !! index = Some turn /\
    id turn = questionId /\
    Forall (fun earlier => id earlier <> questionId) (take index (stored_history w complaintId)) /\
    conversationHistory (ConversationManager.tempContext complaintData index)
      = take index (stored_history w complaintId) /\
    FollowupHandler.extractInformationFromAnswer env
        (ConversationManager.tempContext complaintData index) (question turn) a (bump_firestore w)
      = (Returned extracted, w1) /\
    ConversationManager.processAnswer env complaintId questionId a w = (Returned context', w') /\
    conversationHistory context' =
      <[index := {| id := questionId; question := question turn; answer := a; timestamp := t;
                    extractedInfo := extracted;
                    confidenceDelta := if 0 <? size extracted then 0.2%float else 0.1%float |}]>
        (stored_history w complaintId) /\
    stored_history w' complaintId = conversationHistory context'.
Proof.
  intros Hserved Hin Hid.
  unfold stored_history in *.
  destruct (complaintDocs w !! complaintId) as [d|] eqn:Hd; [|inversion Hin].
  destruct (ConversationManager.findIndex questionId (turns_or_empty d)) as [index|] eqn:Hfind.
  2:{ apply findIndex_none in Hfind. exfalso. apply Hfind. eauto. }
  destruct (findIndex_lookup _ _ _ Hfind) as (turn & Hturn & Hturnid & Hbefore).
  unfold ConversationManager.processAnswer. unfold_M.
  rewrite get_unfold, Hserved.
  cbv beta iota. cbn [Firestore.lookup_document bump_firestore complaintDocs].
  rewrite Hd, Hfind, Hturn.
  match goal with |- context [FollowupHandler.extractInformationFromAnswer env ?c ?q ?a ?w0] =>
    pose proof (keeps_extractInformationFromAnswer env c q a w0) as K1;
    destruct (extractInformationFromAnswer_returns env c q a w0) as (extracted & Hex);
    exists index, turn, d;
    destruct (FollowupHandler.extractInformationFromAnswer env c q a w0) as [o w1] end.
  cbn [fst snd bump_firestore complaintDocs] in K1, Hex. subst o.
  exists extracted, w1.
  unfold Firestore.now. cbv beta iota.
  rewrite update_complaints_unfold, Hserved.
  cbv zeta. cbn [complaintDocs bump_draws].
  replace (complaintDocs w1 !! complaintId) with (Some d) by (rewrite <- Hd; congruence).
  cbv beta iota.
  do 3 eexists.
  split; [reflexivity|].
  split; [exact Hturn|]. split; [exact Hturnid|]. split; [exact Hbefore|].
  split; [reflexivity|]. split; [reflexivity|]. split; [reflexivity|].
  split.
  - cbn [with_confidence with_fields with_history conversationHistory].
    unfold ConversationManager.answered_turn. rewrite Hturnid. reflexivity.
  - cbn [set_complaintDocs complaintDocs bump_draws bump_firestore
         with_confidence with_fields with_history conversationHistory].
    now rewrite lookup_insert_eq, turns_after_update.
Qed.

End ProcessAnswerFacts.




(** * Further properties of the code *)

(** ** CallManager: retries, whatever the collaborators do *)

Section RetryCases.

Variable env : Env.
Variable maxRetries : Z.

Lemma shouldRetryCall_cases (complaintId : string) (w : World) :
  exists granted w',
    CallManager.shouldRetryCall env maxRetries complaintId w = (Returned granted, w') /\
    dialled w' = dialled w /\
    if granted
    then exists count,
           retryCount_of w complaintId = Some count /\ (count < maxRetries)%Z /\
           retryCount_of w' complaintId = Some (count + 1)%Z
    else complaintDocs w' = complaintDocs w.
Proof.
  destruct (CallManager.shouldRetryCall env maxRetries complaintId w) as [[granted|e] w'] eqn:Hrun.
  - exists granted, w'. split; [reflexivity|].
    destruct granted.
    + split; [|exact (shouldRetryCall_true_inv env maxRetries complaintId w w' Hrun)].
      revert Hrun. unfold CallManager.shouldRetryCall. unfold_M. rewrite get_unfold.
      destruct (firestore_rejects env (firestoreRequests w)); [discriminate|].
      cbn. destruct (complaintDocs w !! complaintId) as [d|] eqn:Hd; [|discriminate].
      destruct (maxRetries <=? int_or_zero d "retryCount")%Z; [discriminate|].
      rewrite update_complaints_unfold. cbn.
      destruct (firestore_rejects env (S (firestoreRequests w))); [discriminate|].
      cbn. rewrite Hd. intros H. injection H as <-. reflexivity.
    + revert Hrun. unfold CallManager.shouldRetryCall. unfold_M. rewrite get_unfold.
      destruct (firestore_rejects env (firestoreRequests w)).
      { intros H. injection H as <-. split; reflexivity. }
      cbn. destruct (complaintDocs w !! complaintId) as [d|] eqn:Hd.
      2:{ intros H. injection H as <-. split; reflexivity. }
      destruct (maxRetries <=? int_or_zero d "retryCount")%Z.
      { intros H. injection H as <-. split; reflexivity. }
      rewrite update_complaints_unfold. cbn.
      destruct (firestore_rejects env (S (firestoreRequests w))).
      { intros H. injection H as <-. split; reflexivity. }
      cbn. rewrite Hd. discriminate.
  - exfalso. revert Hrun. unfold CallManager.shouldRetryCall. unfold_M.
    destruct (Firestore.get env complaints complaintId w) as [[[d|]|] ?]; try discriminate.
    destruct (maxRetries <=? int_or_zero d "retryCount")%Z; try discriminate.
    match goal with |- context [Firestore.update ?a ?b ?c ?d ?e] =>
      destruct (Firestore.update a b c d e) as [[|] ?] end; discriminate.
Qed.

End RetryCases.

Section CallOutcomes.

Variable env : Env.
Variable maxRetries : Z.
Variable context : EnhancedComplaintContext.
Variable contact : ContactDetails.
Variable complaintId : string.

Lemma placeComplaintCall_within_returns (fuel : nat) : forall w,
  Z.to_nat (maxRetries - default 0%Z (retryCount_of w complaintId)) < fuel ->
  exists result w' attempts w_pre,
    CallManager.placeComplaintCall_within env maxRetries fuel context contact complaintId w
      = Some (Returned result, w') /\
    1 <= attempts <= S (Z.to_nat (maxRetries - default 0%Z (retryCount_of w complaintId))) /\
    dialled w' = (dialled w ++ replicate attempts (CallManager.call_request env contact))%list /\
    (forall k, S k < attempts ->
       is_thrown (twilio_calls_create env (length (dialled w) + k)
                    (CallManager.call_request env contact)) = true) /\
    result =
      match twilio_calls_create env (length (dialled w) + (attempts - 1))
              (CallManager.call_request env contact) with
      | Returned sid =>
          {| status := resolved; resolution := "Call initiated successfully";
             nextSteps := ["Awaiting customer service response"]; callId := Some sid |}
      | Thrown error =>
          {| status := failed; resolution := "Call failed: " ++ error;
             nextSteps := []; callId := Some "failed_call" |}
      end /\
    w' = snd (CallManager.updateComplaintStatus env complaintId result w_pre) /\
    (is_Some (complaintDocs w !! complaintId) -> is_Some (complaintDocs w_pre !! complaintId)).
Proof.
  induction fuel as [|fuel IH]; intros w Hfuel; [lia|].
  cbn [CallManager.placeComplaintCall_within].
  rewrite calls_create_unfold.
  set (request := CallManager.call_request env contact) in *.
  destruct (twilio_calls_create env (length (dialled w)) request) as [sid|message] eqn:Hdial.
  - match goal with |- context [CallManager.updateComplaintStatus env complaintId ?r] =>
      destruct (updateComplaintStatus_returns env complaintId r (log_dial request w))
        as (w' & Hrun & (Hd & _) & _); exists r, w', 1, (log_dial request w) end.
    unfold_M. rewrite Hrun. cbn.
    split; [reflexivity|]. split; [lia|]. split; [exact Hd|].
    split; [intros k Hk; lia|].
    rewrite Nat.add_0_r, Hdial. split; [reflexivity|]. split; [reflexivity|]. auto.
  - destruct (shouldRetryCall_cases env maxRetries complaintId (log_dial request w))
      as (granted & w2 & Hretry & Hdialled & Hcase).
    rewrite Hretry. destruct granted.
    + destruct Hcase as (count & Hcount & Hlt & Hcount2).
      change (retryCount_of (log_dial request w) complaintId)
        with (retryCount_of w complaintId) in Hcount.
      rewrite Hcount in Hfuel |- *. cbn in Hfuel |- *.
      destruct (IH w2) as (result & w' & attempts & w_pre & Hrun & Hbound & Hd & Hthrown & Hres & Hw' & Hdoc).
      { rewrite Hcount2. cbn. lia. }
      rewrite Hcount2 in Hbound. cbn in Hbound.
      exists result, w', (S attempts), w_pre.
      split; [exact Hrun|]. split; [lia|].
      split.
      { rewrite Hd, Hdialled. cbn. rewrite <- app_assoc. reflexivity. }
      split.
      { intros [|k] Hk.
        - rewrite Nat.add_0_r, Hdial. reflexivity.
        - specialize (Hthrown k ltac:(lia)).
          rewrite Hdialled in Hthrown. cbn in Hthrown. rewrite length_app in Hthrown.
          cbn in Hthrown. replace (length (dialled w) + S k) with (length (dialled w) + 1 + k) by lia.
          exact Hthrown. }
      split.
      { rewrite Hres, Hdialled. cbn. rewrite length_app. cbn.
        replace (length (dialled w) + 1 + (attempts - 1)) with (length (dialled w) + (attempts - 0)) by lia.
        reflexivity. }
      split; [exact Hw'|].
      intros _. apply Hdoc. unfold retryCount_of in Hcount2.
      destruct (complaintDocs w2 !! complaintId); [eauto|discriminate].
    + match goal with |- context [CallManager.updateComplaintStatus env complaintId ?r] =>
        destruct (updateComplaintStatus_returns env complaintId r w2)
          as (w' & Hrun & (Hd & _) & _); exists r, w', 1, w2 end.
      unfold_M. rewrite Hrun. cbn.
      split; [reflexivity|]. split; [lia|].
      split; [rewrite Hd, Hdialled; reflexivity|].
      split; [intros k Hk; lia|].
      rewrite Nat.add_0_r, Hdial. split; [reflexivity|]. split; [reflexivity|].
      rewrite Hcase. auto.
Qed.

(** What a served status update leaves in the complaint document. *)
Lemma updateComplaintStatus_records (callResult : CallResult) (w : World) (d : Document) :
  firestore_rejects env (firestoreRequests w) = false ->
  complaintDocs w !! complaintId = Some d ->
  exists d',
    complaintDocs (snd (CallManager.updateComplaintStatus env complaintId callResult w))
      !! complaintId = Some d' /\
    d' !! "status" = Some (VStatus (status callResult)) /\
    d' !! "resolution" =
      Some (if JS.truthy (resolution callResult) then VStr (resolution callResult) else VNull) /\
    d' !! "nextSteps" = Some (VStrs (nextSteps callResult)) /\
    d' !! "lastCallId" =
      Some (match callId callResult with Some c => VStr c | None => VNull end) /\
    d' !! "retryCount" = d !! "retryCount".
Proof.
  intros Hserve Hd.
  unfold CallManager.updateComplaintStatus, try_catch.
  rewrite update_complaints_unfold, Hserve. cbn. rewrite Hd. cbn.
  eexists. split; [apply lookup_insert_eq|].
  unfold Firestore.apply_update.
  repeat split; rewrite lookup_union, map_lookup_imap;
    repeat first [rewrite lookup_insert_eq | rewrite lookup_insert_ne by discriminate];
    try rewrite lookup_empty; cbn;
    match goal with |- context [d !! ?k] => destruct (d !! k) end; reflexivity.
Qed.

End CallOutcomes.

(** X1.  [shouldRetryCall] never throws, places no call and asks the LLM
    nothing.  It grants a retry exactly when Firestore serves both its read
    and its update and the stored counter ([0] when the field is missing) is
    below [maxRetries]; the counter has then been incremented by one.  When
    it refuses, no complaint document has changed. *)
Theorem shouldRetryCall_grants_only_counted_retries
    (env : Env) (maxRetries : Z) (complaintId : string) (w : World) :
  exists granted w',
    CallManager.shouldRetryCall env maxRetries complaintId w = (Returned granted, w') /\
    dialled w' = dialled w /\
    (if granted
     then exists count,
            retryCount_of w complaintId = Some count /\ (count < maxRetries)%Z /\
            retryCount_of w' complaintId = Some (count + 1)%Z
     else complaintDocs w' = complaintDocs w) /\
    (granted = true <->
     firestore_rejects env (firestoreRequests w) = false /\
     firestore_rejects env (S (firestoreRequests w)) = false /\
     exists count, retryCount_of w complaintId = Some count /\ (count < maxRetries)%Z).
Proof.
  destruct (shouldRetryCall_cases env maxRetries complaintId w)
    as (granted & w' & Hrun & Hdialled & Hcase).
  exists granted, w'. split; [exact Hrun|]. split; [exact Hdialled|]. split; [exact Hcase|]. split.
  - intros ->. destruct Hcase as (count & Hcount & Hlt & _).
    assert (Hserved : firestore_rejects env (firestoreRequests w) = false /\
                      firestore_rejects env (S (firestoreRequests w)) = false); [|intuition eauto].
    revert Hrun. unfold CallManager.shouldRetryCall. unfold_M. rewrite get_unfold.
    destruct (firestore_rejects env (firestoreRequests w)); [discriminate|].
    cbn. destruct (complaintDocs w !! complaintId) as [d|] eqn:Hd; [|discriminate].
    destruct (maxRetries <=? int_or_zero d "retryCount")%Z; [discriminate|].
    rewrite update_complaints_unfold. cbn.
    destruct (firestore_rejects env (S (firestoreRequests w))); [discriminate|auto].
  - intros (Hfirst & Hsecond & count & Hcount & Hlt).
    revert Hrun. unfold CallManager.shouldRetryCall. unfold_M. rewrite get_unfold, Hfirst.
    cbn. unfold retryCount_of in Hcount.
    destruct (complaintDocs w !! complaintId) as [d|] eqn:Hd; [|discriminate].
    cbn in Hcount. injection Hcount as Hcount.
    destruct (maxRetries <=? int_or_zero d "retryCount")%Z eqn:E; [lia|].
    rewrite update_complaints_unfold. cbn. rewrite Hsecond. cbn. rewrite Hd. congruence.
Qed.

(** X2.  [placeComplaintCall] returns a result for every behaviour of the
    collaborators and every stored state: it never throws, so neither does
    the orchestrator in front of it.  It dials between one and
    [retry_bound] times, every attempt but the last one failed, and the
    result is decided by the last attempt alone: [resolved] with the sid of
    the call if it connected, [failed] with the message of that attempt
    otherwise. *)
Theorem placeComplaintCall_always_returns
    (env : Env) (maxRetries : Z) (context : EnhancedComplaintContext)
    (contact : ContactDetails) (complaintId : string) (w : World) :
  exists result w' attempts,
    CallManager.placeComplaintCall env maxRetries context contact complaintId w
      = Some (Returned result, w') /\
    CallOrchestrator.placeComplaintCall env maxRetries context contact complaintId w
      = Some (Returned result, w') /\
    1 <= attempts <= CallManager.retry_bound maxRetries complaintId w /\
    dialled w' = (dialled w ++ replicate attempts (CallManager.call_request env contact))%list /\
    (forall k, S k < attempts ->
       is_thrown (twilio_calls_create env (length (dialled w) + k)
                    (CallManager.call_request env contact)) = true) /\
    result =
      match twilio_calls_create env (length (dialled w) + (attempts - 1))
              (CallManager.call_request env contact) with
      | Returned sid =>
          {| status := resolved; resolution := "Call initiated successfully";
             nextSteps := ["Awaiting customer service response"]; callId := Some sid |}
      | Thrown error =>
          {| status := failed; resolution := "Call failed: " ++ error;
             nextSteps := []; callId := Some "failed_call" |}
      end.
Proof.
  destruct (placeComplaintCall_within_returns env maxRetries context contact complaintId
              (CallManager.retry_bound maxRetries complaintId w) w)
    as (result & w' & attempts & w_pre & Hrun & Hbound & Hd & Hthrown & Hres & _).
  { unfold CallManager.retry_bound. lia. }
  exists result, w', attempts.
  unfold CallOrchestrator.placeComplaintCall, CallManager.placeComplaintCall.
  rewrite Hrun. auto 7.
Qed.

(** X3.  When Firestore serves its requests and the complaint document
    exists, the result [placeComplaintCall] returns is the one it has
    recorded: the document ends with the status, the resolution text, the
    next steps and the call id of the returned result. *)
Theorem placeComplaintCall_records_what_it_returns
    (env : Env) (maxRetries : Z) (context : EnhancedComplaintContext)
    (contact : ContactDetails) (complaintId : string) (w : World) :
  (forall n, firestore_rejects env n = false) ->
  is_Some (complaintDocs w !! complaintId) ->
  exists result w' d',
    CallManager.placeComplaintCall env maxRetries context contact complaintId w
      = Some (Returned result, w') /\
    complaintDocs w' !! complaintId = Some d' /\
    d' !! "status" = Some (VStatus (status result)) /\
    d' !! "resolution" = Some (VStr (resolution result)) /\
    d' !! "nextSteps" = Some (VStrs (nextSteps result)) /\
    (VStr <$> callId result) = d' !! "lastCallId".
Proof.
  intros Hserve Hexists.
  destruct (placeComplaintCall_within_returns env maxRetries context contact complaintId
              (CallManager.retry_bound maxRetries complaintId w) w)
    as (result & w' & attempts & w_pre & Hrun & _ & _ & _ & Hres & Hw' & Hdoc).
  { unfold CallManager.retry_bound. lia. }
  destruct (Hdoc Hexists) as [d Hd].
  destruct (updateComplaintStatus_records env complaintId result w_pre d (Hserve _) Hd)
    as (d' & Hd' & Hstatus & Hresolution & Hsteps & Hcall & _).
  exists result, w', d'. subst w'.
  split; [exact Hrun|]. split; [exact Hd'|]. split; [exact Hstatus|].
  split; [|split; [exact Hsteps|]].
  - rewrite Hresolution, Hres.
    destruct (twilio_calls_create _ _ _); reflexivity.
  - rewrite Hcall, Hres. destruct (twilio_calls_create _ _ _); reflexivity.
Qed.

Lemma placeComplaintCall_records_what_it_returns_witness :
  (forall n, firestore_rejects quiet_env n = false) /\
  is_Some (complaintDocs world_with_complaint !! "c1") /\
  exists result w' d',
    CallManager.placeComplaintCall quiet_env 2 bare_context acme_contact "c1" world_with_complaint
      = Some (Returned result, w') /\
    complaintDocs w' !! "c1" = Some d' /\
    d' !! "status" = Some (VStatus (status result)) /\
    d' !! "resolution" = Some (VStr (resolution result)) /\
    d' !! "nextSteps" = Some (VStrs (nextSteps result)) /\
    (VStr <$> callId result) = d' !! "lastCallId".
Proof.
  split; [reflexivity|]. split; [vm_compute; eauto|].
  apply (placeComplaintCall_records_what_it_returns quiet_env 2 bare_context acme_contact
           "c1" world_with_complaint).
  - reflexivity.
  - vm_compute. eauto.
Defined.

(** ** The fallback chain with the controller of the sources *)

Lemma simulated_responses_lookup (missingInfo : list string) (info : string) :
  TwilioController.simulated_responses missingInfo !! info =
  if bool_decide (info ∈ missingInfo)
  then Some (TwilioController.simulated_response info) else None.
Proof.
  unfold TwilioController.simulated_responses.
  assert (H : forall (l : list string) (acc : Fields),
             fold_left (fun responses i => <[i := TwilioController.simulated_response i]> responses)
                       l acc !! info =
             if bool_decide (info ∈ l) then Some (TwilioController.simulated_response info)
             else acc !! info).
  { induction l as [|i l IH]; intros acc; cbn.
    - rewrite bool_decide_eq_false_2; [reflexivity|]. apply not_elem_of_nil.
    - rewrite IH. destruct (bool_decide (info ∈ l)) eqn:E.
      + apply bool_decide_eq_true in E.
        rewrite bool_decide_eq_true_2; [reflexivity|]. now apply list_elem_of_further.
      + apply bool_decide_eq_false in E.
        destruct (decide (i = info)) as [->|Hne].
        * rewrite lookup_insert_eq, bool_decide_eq_true_2; [reflexivity|]. apply list_elem_of_here.
        * rewrite lookup_insert_ne by assumption.
          rewrite bool_decide_eq_false_2; [reflexivity|].
          intros Hin. apply elem_of_cons in Hin as [->|Hin]; [now apply Hne|now apply E]. }
  rewrite H. destruct (bool_decide (info ∈ missingInfo)); [reflexivity|apply lookup_empty].
Qed.

Lemma callUserForFallback_unfold (env : Env) (userPhoneNumber : string)
    (missingInfo : list string) (complaintId : string) (w : World) :
  TwilioController.callUserForFallback env userPhoneNumber missingInfo complaintId w =
  if firestore_rejects env (firestoreRequests w)
  then (Thrown "Failed to call user for fallback: Firestore request failed", bump_firestore w)
  else
    let responses := TwilioController.simulated_responses missingInfo in
    let record_ :=
      Firestore.apply_update (clock env (draws w))
        (list_to_map
           [ ("timestamp", ServerTimestamp);
             ("userPhoneNumber", SetTo (VStr userPhoneNumber));
             ("missingInfo", SetTo (VStrs missingInfo));
             ("userResponses", SetTo (VFields responses)) ]) ∅ in
    (Returned {| userResponses := responses; callResumed := true;
                 resumeTimestamp := TwilioController.seconds (clock env (S (S (draws w)))) |},
     bump_draws
       (set_fallbackDocs (fallbackDocs w ++ [(complaintId, record_)])
          (bump_draws (bump_draws (bump_firestore w))))).
Proof.
  unfold TwilioController.callUserForFallback, Firestore.add, Firestore.request,
    Firestore.now, Firestore.fresh_uuid.
  unfold_M.
  destruct (firestore_rejects env (firestoreRequests w)); reflexivity.
Qed.

(** X4.  [callUserForFallback] asks nobody: the responses it returns are
    made up from the names of the missing items, one for each requested item
    and none for any other.  It costs one Firestore request.  If that is
    served, the responses are returned with [callResumed] set and one record
    for the complaint is appended to its fallbacks, holding the phone number,
    the requested items and the same responses; if it is rejected, nothing
    is recorded and the error is that of the request behind a fixed
    prefix. *)
Theorem callUserForFallback_answers_every_item
    (env : Env) (userPhoneNumber : string) (missingInfo : list string)
    (complaintId : string) (w : World) :
  let run := TwilioController.callUserForFallback env userPhoneNumber missingInfo complaintId w in
  let responses := TwilioController.simulated_responses missingInfo in
  (forall info, responses !! info =
                if bool_decide (info ∈ missingInfo)
                then Some (TwilioController.simulated_response info) else None) /\
  firestoreRequests (snd run) = S (firestoreRequests w) /\
  complaintDocs (snd run) = complaintDocs w /\
  if firestore_rejects env (firestoreRequests w)
  then fst run = Thrown "Failed to call user for fallback: Firestore request failed" /\
       fallbackDocs (snd run) = fallbackDocs w
  else exists result record_,
         fst run = Returned result /\
         userResponses result = responses /\ callResumed result = true /\
         fallbackDocs (snd run) = (fallbackDocs w ++ [(complaintId, record_)])%list /\
         record_ !! "userPhoneNumber" = Some (VStr userPhoneNumber) /\
         record_ !! "missingInfo" = Some (VStrs missingInfo) /\
         record_ !! "userResponses" = Some (VFields responses).
Proof.
  cbv zeta. split; [apply simulated_responses_lookup|].
  rewrite callUserForFallback_unfold.
  destruct (firestore_rejects env (firestoreRequests w)); cbn.
  - repeat split.
  - split; [reflexivity|]. split; [reflexivity|].
    eexists _, _. repeat split.
Qed.

(** X5.  Through the orchestrator, the call manager and the fallback
    handler, with the controller of the sources: holding and resuming always
    report success and a phone number is always found, so the whole chain
    does exactly what [callUserForFallback] does for the phone number
    [getUserPhoneNumber] picks.  Its only failure is that of the one
    Firestore request, and each of the three layers puts its prefix in front
    of the message. *)
Theorem handleFallback_chain
    (env : Env) (callSid : string) (missingInfo : list string)
    (context : EnhancedComplaintContext) (complaintId : string) (w : World) :
  let side_call :=
    TwilioController.callUserForFallback env
      (FallbackHandler.getUserPhoneNumber context) missingInfo complaintId w in
  FallbackHandler.handleFallback (TwilioController.methods env)
      callSid context missingInfo complaintId w
  = match side_call with
    | (Returned result, w') => (Returned result, w')
    | (Thrown e, w') => (Thrown ("Fallback handling failed: " ++ e), w')
    end /\
  CallOrchestrator.handleFallback env callSid missingInfo context complaintId w
  = match side_call with
    | (Returned result, w') => (Returned result, w')
    | (Thrown e, w') =>
        (Thrown ("Fallback handling failed: Fallback handling failed: Fallback handling failed: "
                 ++ e), w')
    end /\
  (is_thrown (fst (CallOrchestrator.handleFallback env callSid missingInfo context complaintId w))
   = firestore_rejects env (firestoreRequests w)).
Proof.
  cbv zeta.
  assert (Hinner :
    FallbackHandler.handleFallback (TwilioController.methods env)
      callSid context missingInfo complaintId w
    = match TwilioController.callUserForFallback env
              (FallbackHandler.getUserPhoneNumber context) missingInfo complaintId w with
      | (Returned result, w') => (Returned result, w')
      | (Thrown e, w') => (Thrown ("Fallback handling failed: " ++ e), w')
      end).
  { unfold FallbackHandler.handleFallback, TwilioController.methods,
      TwilioController.placeCallOnHold, TwilioController.resumeCall.
    cbn [invoke_placeCallOnHold invoke_resumeCall invoke_callUserForFallback].
    unfold_M. cbn [negb]. rewrite getUserPhoneNumber_truthy. cbn [negb].
    destruct (TwilioController.callUserForFallback env _ missingInfo complaintId w)
      as [[result|e] w']; reflexivity. }
  split; [exact Hinner|].
  unfold CallOrchestrator.handleFallback, CallManager.handleFallback, try_catch.
  rewrite Hinner, callUserForFallback_unfold.
  destruct (firestore_rejects env (firestoreRequests w)); split; reflexivity.
Qed.

(** ** FollowupHandler: questions and decisions, whatever the LLM does *)

Section QuestionShape.

Variable env : Env.
Variable maxQuestions : nat.

Lemma generateFollowupQuestions_one_request (p : Prompt) (w : World) :
  OpenAIClient.generateFollowupQuestions env p w =
  (match openai_create env (length (completions w)) generateFollowupQuestions_ p with
   | Returned content =>
       Returned (OpenAIClient.content_or content
         "I apologize, but I need more information to help you better. Could you please provide more details about your complaint?")
   | Thrown _ => Thrown "Failed to generate follow-up questions"
   end,
   log_completion (generateFollowupQuestions_, p) w).
Proof.
  unfold OpenAIClient.generateFollowupQuestions, OpenAIClient.chat_completions_create. unfold_M.
  destruct (openai_create env (length (completions w)) generateFollowupQuestions_ p); reflexivity.
Qed.

Lemma llmGenerateIntelligentQuestion_shape (context : EnhancedComplaintContext)
    (isLastQuestion : bool) (w : World) :
  let run := FollowupHandler.llmGenerateIntelligentQuestion env context isLastQuestion w in
  snd run =
    log_completion
      (generateFollowupQuestions_,
       QuestionPrompt (originalComplaint context) (FollowupHandler.buildConversationSummary context)
                      (extractedFields context) isLastQuestion) w /\
  forall question_, fst run = Returned question_ ->
    10 <= String.length question_ <= 150 /\
    (if isLastQuestion then True
     else existsb (fun phrase => JS.includes (JS.toLowerCase question_) phrase)
                  FollowupHandler.vaguePhrases = false).
Proof.
  unfold FollowupHandler.llmGenerateIntelligentQuestion. unfold_M.
  rewrite generateFollowupQuestions_one_request.
  destruct (openai_create env _ _ _) as [content|e]; cbn [fst snd]; [|split; [reflexivity|discriminate]].
  cbv zeta.
  match goal with |- context [String.length ?c <? 10] => set (cleaned := c) end.
  destruct (String.length cleaned <? 10) eqn:Hshort; cbn [orb];
    [split; [reflexivity|discriminate]|].
  destruct (150 <? String.length cleaned) eqn:Hlong; cbn [orb];
    [split; [reflexivity|discriminate]|].
  apply Nat.ltb_ge in Hshort, Hlong.
  destruct (existsb _ FollowupHandler.vaguePhrases) eqn:Hvague; cbn [andb].
  - destruct isLastQuestion; cbn [negb]; (split; [reflexivity|]); [|discriminate].
    intros q [= <-]. split; [lia|exact I].
  - split; [reflexivity|]. intros q [= <-]. split; [lia|].
    destruct isLastQuestion; [exact I|exact Hvague].
Qed.

Lemma getFallbackQuestion_shape (context : EnhancedComplaintContext) (isLastQuestion : bool) :
  let question_ := FollowupHandler.getFallbackQuestion context isLastQuestion in
  10 <= String.length question_ <= 150 /\
  existsb (fun phrase => JS.includes (JS.toLowerCase question_) phrase)
          FollowupHandler.vaguePhrases = false.
Proof.
  unfold FollowupHandler.getFallbackQuestion.
  destruct (length (conversationHistory context) =? 0); [vm_compute; split; [lia|reflexivity]|].
  destruct (length (conversationHistory context) =? 1); [vm_compute; split; [lia|reflexivity]|].
  destruct isLastQuestion; vm_compute; (split; [lia|reflexivity]).
Qed.

Lemma generateFollowupQuestion_cases (context : EnhancedComplaintContext) (w : World) :
  let used := length (conversationHistory context) in
  exists question_ w',
    FollowupHandler.generateFollowupQuestion env maxQuestions context w = (Returned question_, w') /\
    if maxQuestions <=? used
    then question_ = "" /\ w' = w
    else 10 <= String.length question_ <= 150 /\
         (if maxQuestions =? S used then True
          else existsb (fun phrase => JS.includes (JS.toLowerCase question_) phrase)
                       FollowupHandler.vaguePhrases = false) /\
         w' = log_completion
                (generateFollowupQuestions_,
                 QuestionPrompt (originalComplaint context)
                                (FollowupHandler.buildConversationSummary context)
                                (extractedFields context) (maxQuestions =? S used)) w.
Proof.
  cbv zeta. unfold FollowupHandler.generateFollowupQuestion.
  destruct (maxQuestions <=? length (conversationHistory context)); [eexists _, _; repeat split|].
  unfold try_catch.
  destruct (llmGenerateIntelligentQuestion_shape context
              (maxQuestions =? S (length (conversationHistory context))) w) as [Hworld Hshape].
  destruct (FollowupHandler.llmGenerateIntelligentQuestion env context _ w) as [[q|e] w'].
  - cbn [fst snd] in *. destruct (Hshape q eq_refl) as [Hlen Hvague].
    exists q, w'. auto.
  - cbn [fst snd] in *.
    destruct (getFallbackQuestion_shape context
                (maxQuestions =? S (length (conversationHistory context)))) as [Hlen Hvague].
    eexists _, w'. split; [reflexivity|]. split; [exact Hlen|]. split; [|exact Hworld].
    destruct (maxQuestions =? S (length (conversationHistory context))); [exact I|exact Hvague].
Qed.

Lemma llmShouldContinueAsking_cases (context : EnhancedComplaintContext) (w : World) :
  FollowupHandler.llmShouldContinueAsking env context w =
  (Returned
     match openai_create env (length (completions w)) generateFollowupQuestions_
             (ContinuePrompt (originalComplaint context)
                (FollowupHandler.buildConversationSummary context) (extractedFields context)) with
     | Returned content =>
         String.eqb
           (JS.toUpperCase (JS.trim (OpenAIClient.content_or content
              "I apologize, but I need more information to help you better. Could you please provide more details about your complaint?")))
           "CONTINUE"
     | Thrown _ => false
     end,
   log_completion
     (generateFollowupQuestions_,
      ContinuePrompt (originalComplaint context)
        (FollowupHandler.buildConversationSummary context) (extractedFields context)) w).
Proof.
  unfold FollowupHandler.llmShouldContinueAsking. unfold_M.
  rewrite generateFollowupQuestions_one_request.
  destruct (openai_create env _ _ _); reflexivity.
Qed.

Lemma shouldAskMoreQuestions_cases (context : EnhancedComplaintContext) (w : World) :
  FollowupHandler.shouldAskMoreQuestions env maxQuestions context w =
  if maxQuestions <=? length (conversationHistory context) then (Returned false, w)
  else FollowupHandler.llmShouldContinueAsking env context w.
Proof.
  unfold FollowupHandler.shouldAskMoreQuestions.
  destruct (maxQuestions <=? length (conversationHistory context)); [reflexivity|].
  unfold try_catch. rewrite llmShouldContinueAsking_cases. reflexivity.
Qed.

End QuestionShape.


(** X7.  [shouldAskMoreQuestions] never throws, and only an explicit
    CONTINUE continues.  At the limit it answers [false] without asking the
    LLM.  Below the limit it costs one completion request and answers [true]
    exactly when the reply, trimmed and in upper case, is CONTINUE; a failed
    request and a reply without content both answer [false].  The count of
    answered turns never decides. *)
Theorem shouldAskMoreQuestions_needs_explicit_continue
    (env : Env) (maxQuestions : nat) (context : EnhancedComplaintContext) (w : World) :
  let prompt_ :=
    ContinuePrompt (originalComplaint context)
      (FollowupHandler.buildConversationSummary context) (extractedFields context) in
  exists decision w',
    FollowupHandler.shouldAskMoreQuestions env maxQuestions context w = (Returned decision, w') /\
    if maxQuestions <=? length (conversationHistory context)
    then decision = false /\ w' = w
    else w' = log_completion (generateFollowupQuestions_, prompt_) w /\
         decision =
           match openai_create env (length (completions w)) generateFollowupQuestions_ prompt_ with
           | Returned (Some reply) =>
               negb (String.eqb reply "") && String.eqb (JS.toUpperCase (JS.trim reply)) "CONTINUE"
           | _ => false
           end.
Proof.
  cbv zeta. rewrite shouldAskMoreQuestions_cases.
  destruct (maxQuestions <=? length (conversationHistory context)); [eauto|].
  rewrite llmShouldContinueAsking_cases. eexists _, _. split; [reflexivity|].
  split; [reflexivity|].
  destruct (openai_create env _ _ _) as [[reply|]|]; try reflexivity.
  unfold OpenAIClient.content_or, JS.or_else, JS.truthy.
  destruct reply; reflexivity.
Qed.

(** ** BlandAICallManager: what is read from a transcript *)

Section TranscriptScans.






(** The scans skip what the assistant said. *)
Lemma recent_resolution_humans (entries : list TranscriptEntry) :
  BlandAITranscripts.recent_resolution
    (List.filter (fun entry => negb (BlandAITranscripts.is_assistant entry)) entries)
  = BlandAITranscripts.recent_resolution entries.
Proof.
  induction entries as [|entry older IH]; [reflexivity|].
  cbn [List.filter BlandAITranscripts.recent_resolution].
  destruct (BlandAITranscripts.is_assistant entry) eqn:E; cbn [negb]; [exact IH|].
  cbn [BlandAITranscripts.recent_resolution]. rewrite E.
  destruct (BlandAITranscripts.mentions BlandAITranscripts.resolutionKeywords entry);
    [reflexivity|exact IH].
Qed.

Lemma recent_substantial_humans (entries : list TranscriptEntry) :
  BlandAITranscripts.recent_substantial
    (List.filter (fun entry => negb (BlandAITranscripts.is_assistant entry)) entries)
  = BlandAITranscripts.recent_substantial entries.
Proof.
  induction entries as [|entry older IH]; [reflexivity|].
  cbn [List.filter BlandAITranscripts.recent_substantial].
  destruct (BlandAITranscripts.is_assistant entry) eqn:E; cbn [negb andb]; [exact IH|].
  cbn [BlandAITranscripts.recent_substantial]. rewrite E. cbn [negb andb].
  destruct (20 <? String.length (text entry)); [reflexivity|exact IH].
Qed.

Lemma recent_steps_humans (entries : list TranscriptEntry) :
  BlandAITranscripts.recent_steps
    (List.filter (fun entry => negb (BlandAITranscripts.is_assistant entry)) entries)
  = BlandAITranscripts.recent_steps entries.
Proof.
  induction entries as [|entry older IH]; [reflexivity|].
  cbn [List.filter BlandAITranscripts.recent_steps].
  destruct (BlandAITranscripts.is_assistant entry) eqn:E; cbn [negb]; [exact IH|].
  cbn [BlandAITranscripts.recent_steps]. rewrite E.
  destruct (BlandAITranscripts.mentions BlandAITranscripts.stepKeywords entry
            && (30 <? String.length (text entry)));
    [reflexivity|exact IH].
Qed.

Lemma scan_entries_humans (entries : list TranscriptEntry) :
  BlandAICallManager.scan_entries
    (List.filter (fun entry => negb (BlandAITranscripts.is_assistant entry)) entries)
  = BlandAICallManager.scan_entries entries.
Proof.
  induction entries as [|entry older IH]; [reflexivity|].
  cbn [List.filter BlandAICallManager.scan_entries]. unfold BlandAITranscripts.is_assistant at 1.
  destruct (String.eqb (user entry) "assistant") eqn:E; cbn [negb]; [exact IH|].
  cbn [BlandAICallManager.scan_entries]. rewrite E.
  destruct (BlandAICallManager.try_patterns BlandAICallManager.referencePatterns (text entry));
    [reflexivity|exact IH].
Qed.

Lemma filter_nil_scans (transcript : list TranscriptEntry) :
  List.filter (fun entry => negb (BlandAITranscripts.is_assistant entry)) transcript = [] ->
  BlandAITranscripts.recent_resolution (rev transcript) = None /\
  BlandAITranscripts.recent_substantial (rev transcript) = None /\
  BlandAITranscripts.recent_steps (rev transcript) = None /\
  BlandAICallManager.scan_entries (rev transcript) = None.
Proof.
  intros H.
  assert (Hrev : List.filter (fun entry => negb (BlandAITranscripts.is_assistant entry))
                   (rev transcript) = []).
  { rewrite filter_rev, H. reflexivity. }
  rewrite <- recent_resolution_humans, <- recent_substantial_humans, <- recent_steps_humans,
    <- scan_entries_humans, Hrev. auto.
Qed.

End TranscriptScans.



(** X10.  Nothing the assistant said is ever reported: the resolution and
    the reference number read from a transcript are those read from its
    human lines alone.  So are the next steps, except that a transcript in
    which only the assistant spoke gets the sentence for a transcript
    without actionable lines, not the one for an empty transcript. *)
Theorem transcript_extractors_ignore_assistant (transcript : list TranscriptEntry) :
  let humans :=
    List.filter (fun entry => negb (BlandAITranscripts.is_assistant entry)) transcript in
  BlandAITranscripts.extractResolutionFromTranscript transcript
    = BlandAITranscripts.extractResolutionFromTranscript humans /\
  BlandAICallManager.extractReferenceNumber transcript
    = BlandAICallManager.extractReferenceNumber humans /\
  BlandAITranscripts.extractNextSteps transcript
    = match humans, transcript with
      | [], _ :: _ => "Please follow up if you don't hear back within 24-48 hours"
      | _, _ => BlandAITranscripts.extractNextSteps humans
      end.
Proof.
  cbv zeta.
  destruct transcript as [|first others]; [repeat split|].
  set (transcript := first :: others).
  destruct (List.filter _ transcript) as [|human humans] eqn:Hhumans.
  - destruct (filter_nil_scans transcript Hhumans) as (H1 & H2 & H3 & H4).
    unfold BlandAITranscripts.extractResolutionFromTranscript,
      BlandAICallManager.extractReferenceNumber, BlandAITranscripts.extractNextSteps.
    subst transcript. cbv beta iota. fold (rev (first :: others)). rewrite H1, H2, H3, H4.
    repeat split.
  - assert (Hrev : rev (human :: humans) =
                   List.filter (fun entry => negb (BlandAITranscripts.is_assistant entry))
                     (rev transcript)) by (rewrite filter_rev, Hhumans; reflexivity).
    unfold BlandAITranscripts.extractResolutionFromTranscript,
      BlandAICallManager.extractReferenceNumber, BlandAITranscripts.extractNextSteps.
    subst transcript. cbv beta iota. fold (rev (first :: others)). fold (rev (human :: humans)).
    rewrite Hrev, recent_resolution_humans, recent_substantial_humans, recent_steps_humans,
      scan_entries_humans.
    repeat split.
Qed.

(** ** FallbackHandler.detectFallbackNeeded *)

Section FallbackDetectionFacts.

Variable fallbackTriggers : list string.

Lemma in_insertion_order_fold (l seen : list string) :
  NoDup seen ->
  let result :=
    fold_left (fun seen x => if existsb (String.eqb x) seen then seen else (seen ++ [x])%list)
              l seen in
  NoDup result /\ forall x, x ∈ result <-> x ∈ seen \/ x ∈ l.
Proof.
  revert seen. induction l as [|y l IH]; intros seen Hseen; cbn.
  - split; [exact Hseen|]. intros x. rewrite elem_of_nil. tauto.
  - destruct (existsb (String.eqb y) seen) eqn:E.
    + destruct (IH seen Hseen) as [Hnd Hin]. split; [exact Hnd|].
      intros x. rewrite Hin, elem_of_cons.
      apply existsb_exists in E as (z & Hz & Heq). apply String.eqb_eq in Heq. subst z.
      apply list_elem_of_In in Hz. split; [tauto|]. intros [H|[->|H]]; auto.
    + assert (Hy : y ∉ seen).
      { intros Hy. apply list_elem_of_In in Hy.
        assert (existsb (String.eqb y) seen = true); [|congruence].
        apply existsb_exists. exists y. split; [exact Hy|apply String.eqb_refl]. }
      destruct (IH (seen ++ [y])%list) as [Hnd Hin].
      { apply NoDup_app. split; [exact Hseen|]. split; [|apply NoDup_singleton].
        intros x Hx Hx'. apply list_elem_of_singleton in Hx'. subst x. contradiction. }
      split; [exact Hnd|].
      intros x. rewrite Hin, elem_of_app, list_elem_of_singleton, elem_of_cons. tauto.
Qed.

Lemma in_insertion_order_spec (l : list string) :
  NoDup (FallbackDetection.in_insertion_order l) /\
  forall x, x ∈ FallbackDetection.in_insertion_order l <-> x ∈ l.
Proof.
  destruct (in_insertion_order_fold l [] (NoDup_nil_2)) as [Hnd Hin].
  split; [exact Hnd|]. intros x. unfold FallbackDetection.in_insertion_order.
  rewrite Hin, elem_of_nil. tauto.
Qed.

Lemma last_three_length {A} (l : list A) : length (FallbackDetection.last_three l) <= 3.
Proof. unfold FallbackDetection.last_three. rewrite length_drop. lia. Qed.

Lemma last_three_idem {A} (l : list A) :
  FallbackDetection.last_three (FallbackDetection.last_three l) = FallbackDetection.last_three l.
Proof.
  unfold FallbackDetection.last_three. rewrite length_drop.
  replace (length l - (length l - 3) - 3) with 0 by lia. reflexivity.
Qed.

Lemma pushes_for_spec (message x : string) :
  x ∈ FallbackDetection.pushes_for fallbackTriggers message <->
  x = FallbackDetection.missing_category message /\
  exists trigger, trigger ∈ fallbackTriggers /\
                  JS.includes message (JS.toLowerCase trigger) = true.
Proof.
  unfold FallbackDetection.pushes_for. rewrite list_elem_of_fmap. split.
  - intros (trigger & -> & Hin). split; [reflexivity|].
    apply list_elem_of_In, filter_In in Hin as [Hin Hp].
    exists trigger. split; [now apply list_elem_of_In|exact Hp].
  - intros (-> & trigger & Hin & Hp). exists trigger. split; [reflexivity|].
    apply list_elem_of_In, filter_In. split; [now apply list_elem_of_In|exact Hp].
Qed.

End FallbackDetectionFacts.

(** X11.  [detectFallbackNeeded] looks at the last three lines of customer
    service only, in lower case.  It reports a category exactly when one of
    these lines contains a trigger (in lower case), the category being
    decided by the first of account, order, date and address that the line
    mentions.  The report has no duplicates, so it names at most three
    items, all among the five categories. *)
Theorem detectFallbackNeeded_reports
    (fallbackTriggers : list string) (transcript : list SpokenLine) :
  let recent := FallbackDetection.recentMessages transcript in
  let report := FallbackDetection.detectFallbackNeeded fallbackTriggers transcript in
  NoDup report /\
  length report <= 3 /\
  (forall item, item ∈ report <->
     exists message trigger,
       message ∈ recent /\ trigger ∈ fallbackTriggers /\
       JS.includes message (JS.toLowerCase trigger) = true /\
       item = FallbackDetection.missing_category message) /\
  (forall item, item ∈ report ->
     item ∈ ["account_number"; "order_number"; "purchase_date"; "shipping_address";
             "additional_details"]) /\
  report =
    FallbackDetection.detectFallbackNeeded fallbackTriggers
      (FallbackDetection.last_three
         (List.filter (fun entry => String.eqb (speaker entry) "customer_service") transcript)).
Proof.
  intros recent report.
  assert (Hreport : report =
            FallbackDetection.in_insertion_order
              (recent ≫= FallbackDetection.pushes_for fallbackTriggers)).
  { subst report recent. unfold FallbackDetection.detectFallbackNeeded.
    destruct (FallbackDetection.recentMessages transcript); reflexivity. }
  destruct (in_insertion_order_spec (recent ≫= FallbackDetection.pushes_for fallbackTriggers))
    as [Hnd Hin].
  assert (Hitems : forall item, item ∈ report <->
            exists message trigger,
              message ∈ recent /\ trigger ∈ fallbackTriggers /\
              JS.includes message (JS.toLowerCase trigger) = true /\
              item = FallbackDetection.missing_category message).
  { intros item. rewrite Hreport, Hin, list_elem_of_bind. split.
    - intros (message & Hpush & Hmessage).
      apply pushes_for_spec in Hpush as (-> & trigger & Htrigger & Hp). eauto 7.
    - intros (message & trigger & Hmessage & Htrigger & Hp & ->).
      exists message. split; [|exact Hmessage]. apply pushes_for_spec. eauto. }
  split; [rewrite Hreport; exact Hnd|].
  split.
  { transitivity (length (FallbackDetection.missing_category <$> recent)).
    - apply submseteq_length, NoDup_submseteq; [rewrite Hreport; exact Hnd|].
      intros item Hitem. apply Hitems in Hitem as (message & _ & Hmessage & _ & _ & ->).
      apply list_elem_of_fmap. eauto.
    - subst recent. unfold FallbackDetection.recentMessages.
      rewrite !length_fmap. apply last_three_length. }
  split; [exact Hitems|].
  split.
  { intros item Hitem. apply Hitems in Hitem as (message & _ & _ & _ & _ & ->).
    unfold FallbackDetection.missing_category.
    repeat match goal with |- context [if ?b then _ else _] => destruct b end;
      repeat first [apply list_elem_of_here | apply list_elem_of_further]. }
  subst report. unfold FallbackDetection.detectFallbackNeeded.
  assert (Hsame : FallbackDetection.recentMessages
                    (FallbackDetection.last_three
                       (List.filter (fun entry => String.eqb (speaker entry) "customer_service")
                                    transcript))
                  = FallbackDetection.recentMessages transcript).
  { unfold FallbackDetection.recentMessages. f_equal.
    assert (Hall : forall l : list SpokenLine,
              Forall (fun entry => String.eqb (speaker entry) "customer_service" = true) l ->
              List.filter (fun entry => String.eqb (speaker entry) "customer_service") l = l).
    { induction l as [|entry l IH]; [reflexivity|]. intros H. inversion H as [|? ? Hentry Hl]; subst.
      cbn. rewrite Hentry. f_equal. now apply IH. }
    rewrite Hall; [apply last_three_idem|].
    unfold FallbackDetection.last_three. apply Forall_drop.
    apply Forall_forall. intros entry Hentry. apply list_elem_of_In, filter_In in Hentry. tauto. }
  rewrite Hsame. reflexivity.
Qed.

(** ** IVR navigation *)

(** X12.  Executing a plan cannot fail.  [navigateIVR] reports success for
    every plan; the keys it logs for sending are the keys of the [press]
    steps of the plan, in order, and the time it sleeps is the sum of the
    delays of all steps.  For the plans [generateIVRNavigationPlan] makes,
    that time is the [estimatedDuration] of the plan. *)
Theorem navigateIVR_executes_the_plan (callSid : string) (navigationPlan : IVRNavigationPlan) :
  let run := IVRNavigator.navigateIVR callSid navigationPlan in
  fst run = true /\
  IVRNavigator.keys_logged (snd run) = TwilioPlans.pressed_keys navigationPlan /\
  IVRNavigator.time_slept (snd run) = foldr Z.add 0%Z (delayMs <$> steps navigationPlan) /\
  forall ivrStructure targetDepartment,
    let plan := TwilioPlans.generateIVRNavigationPlan ivrStructure targetDepartment in
    IVRNavigator.time_slept (snd (IVRNavigator.navigateIVR callSid plan)) = estimatedDuration plan.
Proof.
  cbv zeta. split; [reflexivity|].
  unfold IVRNavigator.navigateIVR, TwilioPlans.pressed_keys. cbn [snd].
  split; [|split].
  - induction (steps navigationPlan) as [|step rest IH]; [reflexivity|].
    cbn [mbind list_bind]. rewrite filter_cons.
    unfold IVRNavigator.executeNavigationStep at 1.
    destruct (decide (action step = press)) as [Hpress|Hother].
    + rewrite Hpress. cbn. now rewrite <- IH.
    + destruct (action step); [| contradiction |]; cbn; exact IH.
  - induction (steps navigationPlan) as [|step rest IH]; [reflexivity|].
    cbn [mbind list_bind fmap list_fmap foldr]. rewrite <- IH.
    unfold IVRNavigator.executeNavigationStep at 1.
    destruct (action step); reflexivity.
  - intros [[|node others]|] targetDepartment; reflexivity.
Qed.

(** X13.  [navigateToHuman] always reports success, and the complaint has
    no say in where the call goes: a department, one of five, is determined
    from the issue, but the keys pressed are 2 and 1 whenever the company
    has a menu on record, and 0 otherwise. *)
Theorem navigateToHuman_ignores_the_department
    (callSid : string) (context : EnhancedComplaintContext) (contact : ContactDetails) :
  let run := IVRNavigator.navigateToHuman callSid context contact in
  fst run = true /\
  IVRNavigator.keys_logged (snd run) =
    match ivrStructure contact with
    | Some (_ :: _) => ["2"; "1"]
    | _ => ["0"]
    end /\
  IVRNavigator.determineTargetDepartment context ∈
    ["billing"; "technical_support"; "account_management"; "returns";
     "general_customer_service"].
Proof.
  cbv zeta. split; [reflexivity|]. split.
  - unfold IVRNavigator.navigateToHuman.
    destruct (ivrStructure contact) as [[|node others]|]; reflexivity.
  - unfold IVRNavigator.determineTargetDepartment.
    repeat match goal with |- context [if ?b then _ else _] => destruct b end;
      repeat first [apply list_elem_of_here | apply list_elem_of_further].
Qed.

(** ** ConfidenceEvaluator.evaluateAnswer *)

(** [Math.min(0.3, Math.max(0, d))] of a number lies between 0 and 0.3. *)
Lemma clamped_delta_range (d : float) :
  is_nan d = false ->
  (0 <=? JSMath.min 0.3 (JSNumber.max 0 d))%float = true /\
  (JSMath.min 0.3 (JSNumber.max 0 d) <=? 0.3)%float = true.
Proof.
  intros Hd.
  assert (Hmax : (0 <=? JSNumber.max 0 d)%float = true).
  { unfold JSNumber.max. rewrite Hd. change (is_nan 0) with false. cbn [orb].
    destruct (0 <? d)%float eqn:E; [apply ltb_leb, E|].
    destruct (d <? 0)%float; reflexivity. }
  set (m := JSNumber.max 0 d) in *.
  unfold JSMath.min. rewrite (nonneg_not_nan m Hmax).
  change (is_nan 0.3) with false. change (is_zero 0.3) with false. cbn [orb].
  destruct (m <? 0.3)%float eqn:E.
  - split; [exact Hmax|apply ltb_leb, E].
  - destruct (0.3 <? m)%float; split; reflexivity.
Qed.

(** X14.  [evaluateAnswer] either returns an evaluation whose
    [confidenceDelta] lies between 0 and 0.3, whatever number the LLM gave
    (0.1 when it gave none), or throws an error whose message is the
    evaluation prefix followed by the complaint about the missing API key,
    or by the API-error prefix and the cause.  Without an API key it always
    throws. *)
Theorem evaluateAnswer_delta_in_range
    (openaiApiKey : string) (axios_post : EvaluationPrompt -> Outcome (option string))
    (JSON_parse_reply : string -> Outcome ParsedReply)
    (question_ answer_ : string) (context : ComplaintContext) (companyInfo : CompanyInfo)
    (expectedInfoFields : list string) :
  (forall text_ info d,
     JSON_parse_reply text_ = Returned (ReplyValue info (Some d)) -> is_nan d = false) ->
  match AnswerEvaluation.evaluateAnswer openaiApiKey axios_post JSON_parse_reply
          question_ answer_ context companyInfo expectedInfoFields with
  | Returned evaluation =>
      JS.truthy openaiApiKey = true /\
      (0 <=? evaluated_delta evaluation)%float = true /\
      (evaluated_delta evaluation <=? 0.3)%float = true
  | Thrown e =>
      if JS.truthy openaiApiKey
      then exists cause, e = "Failed to evaluate answer: OpenAI API error: " ++ cause
      else e = "Failed to evaluate answer: OpenAI API key not configured"
  end.
Proof.
  intros Hnumbers.
  unfold AnswerEvaluation.evaluateAnswer, AnswerEvaluation.extractInfoWithOpenAI.
  destruct (JS.truthy openaiApiKey); cbn [negb]; [|reflexivity].
  destruct (axios_post _) as [content|e]; [|eauto].
  assert (Hparsed : forall info d,
            AnswerEvaluation.parse_content JSON_parse_reply content
              = Returned (ReplyValue info (Some d)) -> is_nan d = false).
  { intros info d. unfold AnswerEvaluation.parse_content.
    destruct content as [content_|]; [|discriminate].
    destruct (JSON_parse_reply content_) as [parsed|e] eqn:Hfirst.
    - intros [= ->]. eapply Hnumbers, Hfirst.
    - destruct (RegExp.match_ content_ AnswerEvaluation.json_in_text) as [[|[jsonText|] ?]|];
        try discriminate.
      apply Hnumbers. }
  destruct (AnswerEvaluation.parse_content JSON_parse_reply content) as [[|info [d|]]|e];
    cbn; [eauto | | repeat split | eauto].
  split; [reflexivity|]. apply clamped_delta_range. eapply Hparsed. reflexivity.
Qed.

Lemma evaluateAnswer_delta_in_range_witness :
  (forall (text_ : string) (info : option Fields) (d : float),
     Returned (ReplyValue None (Some 0.7%float)) = Returned (ReplyValue info (Some d)) ->
     is_nan d = false) /\
  match AnswerEvaluation.evaluateAnswer "sk-test" (fun _ => Returned (Some "{}"))
          (fun _ => Returned (ReplyValue None (Some 0.7%float)))
          "When did this occur?" "yesterday" card_complaint acme ["date"] with
  | Returned evaluation =>
      JS.truthy "sk-test" = true /\
      (0 <=? evaluated_delta evaluation)%float = true /\
      (evaluated_delta evaluation <=? 0.3)%float = true
  | Thrown e =>
      if JS.truthy "sk-test"
      then exists cause, e = "Failed to evaluate answer: OpenAI API error: " ++ cause
      else e = "Failed to evaluate answer: OpenAI API key not configured"
  end.
Proof.
  assert (H : forall (text_ : string) (info : option Fields) (d : float),
            Returned (ReplyValue None (Some 0.7%float)) = Returned (ReplyValue info (Some d)) ->
            is_nan d = false).
  { intros text_ info d [= _ <-]. reflexivity. }
  split; [exact H|].
  apply (evaluateAnswer_delta_in_range "sk-test" (fun _ => Returned (Some "{}"))
           (fun _ => Returned (ReplyValue None (Some 0.7%float)))
           "When did this occur?" "yesterday" card_complaint acme ["date"] H).
Defined.

(** ** BlandAICallManager: watching a call *)

Section Monitoring.

Variable axios_post : string -> Outcome string.
Variable axios_get : nat -> string -> Outcome CallInfo.
Variable callId_ companyName : string.

Lemma on_tick_at_limit (checkCount : nat) :
  BlandAICalls.maxChecks <= checkCount ->
  BlandAICalls.on_tick axios_get callId_ companyName checkCount <> KeepPolling.
Proof.
  intros Hlimit. unfold BlandAICalls.on_tick.
  destruct (axios_get checkCount callId_) as [call|e]; [|discriminate].
  destruct (String.eqb (call_status call) "completed"); [discriminate|].
  destruct (_ || _); [discriminate|].
  apply Nat.leb_le in Hlimit. rewrite Hlimit. discriminate.
Qed.

Lemma monitor_within_settles (fuel : nat) : forall checkCount,
  0 < fuel -> BlandAICalls.maxChecks <= checkCount + fuel ->
  exists outcome polls,
    BlandAICalls.monitor_within axios_get fuel callId_ companyName checkCount
      = Some (outcome, polls) /\
    checkCount < polls <= Nat.max BlandAICalls.maxChecks (S checkCount) /\
    BlandAICalls.on_tick axios_get callId_ companyName polls = Settled outcome /\
    forall k, checkCount < k < polls ->
      BlandAICalls.on_tick axios_get callId_ companyName k = KeepPolling.
Proof.
  induction fuel as [|fuel IH]; intros checkCount Hfuel Hbound; [lia|].
  cbn [BlandAICalls.monitor_within].
  destruct (BlandAICalls.on_tick axios_get callId_ companyName (S checkCount))
    as [outcome|] eqn:Htick.
  - exists outcome, (S checkCount). split; [reflexivity|]. split; [lia|].
    split; [exact Htick|]. intros k Hk. lia.
  - assert (Hbelow : S checkCount < BlandAICalls.maxChecks).
    { destruct (le_lt_dec BlandAICalls.maxChecks (S checkCount)) as [Hle|Hlt]; [|exact Hlt].
      exfalso. exact (on_tick_at_limit _ Hle Htick). }
    destruct (IH (S checkCount)) as (outcome & polls & Hrun & Hpolls & Hsettled & Hbefore);
      [lia|lia|].
    exists outcome, polls. split; [exact Hrun|]. split; [lia|]. split; [exact Hsettled|].
    intros k Hk. destruct (Nat.eq_dec k (S checkCount)) as [->|Hne]; [exact Htick|].
    apply Hbefore. lia.
Qed.

Lemma monitorCallProgress_settles :
  exists outcome polls,
    BlandAICalls.monitorCallProgress axios_get callId_ companyName = Some (outcome, polls) /\
    1 <= polls <= BlandAICalls.maxChecks /\
    BlandAICalls.on_tick axios_get callId_ companyName polls = Settled outcome /\
    forall k, 1 <= k < polls ->
      BlandAICalls.on_tick axios_get callId_ companyName k = KeepPolling.
Proof.
  destruct (monitor_within_settles BlandAICalls.maxChecks 0)
    as (outcome & polls & Hrun & Hpolls & Hsettled & Hbefore);
    [unfold BlandAICalls.maxChecks; lia|lia|].
  exists outcome, polls. split; [exact Hrun|].
  split; [unfold BlandAICalls.maxChecks in *; lia|]. split; [exact Hsettled|].
  intros k Hk. apply Hbefore. lia.
Qed.

Lemma on_tick_resolves (checkCount : nat) (callResult : MonitoredCall) :
  BlandAICalls.on_tick axios_get callId_ companyName checkCount = Settled (Returned callResult) ->
  monitored_resolution callResult <> "" /\ monitored_nextSteps callResult <> "" /\
  exists call, axios_get checkCount callId_ = Returned call /\ call_status call = "completed".
Proof.
  unfold BlandAICalls.on_tick.
  destruct (axios_get checkCount callId_) as [call|e]; [|discriminate].
  destruct (String.eqb (call_status call) "completed") eqn:Hstatus.
  - intros [= <-]. cbn [monitored_resolution monitored_nextSteps].
    split; [|split; [|apply String.eqb_eq in Hstatus; eauto]].
    + unfold OpenAIClient.content_or, JS.or_else.
      destruct (BlandAITranscripts.extractResolutionFromTranscript _) as [[|c s]|]; discriminate.
    + unfold JS.or_else.
      destruct (BlandAITranscripts.extractNextSteps _); discriminate.
  - destruct (_ || _); [discriminate|].
    destruct (BlandAICalls.maxChecks <=? checkCount); discriminate.
Qed.

End Monitoring.

(** X15.  Taking each poll to finish before the next one starts, the
    monitor always settles, after at least one and at most 400 polls: with
    the outcome of the first poll that fails, reports the call completed,
    failed, cancelled or unanswered, or is the 400th.  No poll is made after
    that one. *)
Theorem monitorCallProgress_settles_within_400_polls
    (axios_get : nat -> string -> Outcome CallInfo) (callId_ companyName : string) :
  exists outcome polls,
    BlandAICalls.monitorCallProgress axios_get callId_ companyName = Some (outcome, polls) /\
    1 <= polls <= 400 /\
    BlandAICalls.on_tick axios_get callId_ companyName polls = Settled outcome /\
    (forall k, 1 <= k < polls ->
       BlandAICalls.on_tick axios_get callId_ companyName k = KeepPolling) /\
    (polls = 400 ->
     forall call, axios_get 400 callId_ = Returned call ->
       call_status call ∉ ["completed"; "failed"; "cancelled"; "no-answer"] ->
       outcome = Thrown "Call monitoring timeout - call may still be in progress").
Proof.
  destruct (monitorCallProgress_settles axios_get callId_ companyName)
    as (outcome & polls & Hrun & Hpolls & Hsettled & Hbefore).
  exists outcome, polls. split; [exact Hrun|]. split; [exact Hpolls|].
  split; [exact Hsettled|]. split; [exact Hbefore|].
  intros -> call Hcall Hstatus. revert Hsettled. unfold BlandAICalls.on_tick. rewrite Hcall.
  assert (Hne : forall s, s ∈ ["completed"; "failed"; "cancelled"; "no-answer"] ->
                  String.eqb (call_status call) s = false).
  { intros s Hs. apply String.eqb_neq. intros Heq. apply Hstatus. now rewrite Heq. }
  rewrite !Hne by (repeat first [apply list_elem_of_here | apply list_elem_of_further]).
  cbn. congruence.
Qed.

(** X16.  [initiateCall] never throws: every failure, of the request that
    places the call or of the monitoring, ends in a result with status
    failed, two fixed sentences, the message of the failure, and no call
    id, even when the call had been placed and its id was known.  A result
    with status completed carries the call id, a resolution and next steps
    that are not empty, and means that the last poll reported the call
    completed. *)
Theorem initiateCall_never_throws
    (axios_post : string -> Outcome string) (axios_get : nat -> string -> Outcome CallInfo)
    (phoneNumber : string) (companyInfo : CompanyInfo) :
  exists result polls,
    BlandAICalls.initiateCall axios_post axios_get phoneNumber companyInfo = Some (result, polls) /\
    polls <= 400 /\
    ((exists callId_ call,
        axios_post phoneNumber = Returned callId_ /\
        axios_get polls callId_ = Returned call /\ call_status call = "completed" /\
        bland_status result = "completed" /\ bland_callId result = Some callId_ /\
        bland_error result = None /\
        bland_resolution result <> "" /\ bland_nextSteps result <> "") \/
     (exists message, result = BlandAICalls.failed_call message /\
        bland_status result = "failed" /\ bland_callId result = None /\
        bland_error result = Some message)).
Proof.
  unfold BlandAICalls.initiateCall.
  destruct (axios_post phoneNumber) as [callId_|e] eqn:Hpost.
  2:{ eexists _, 0. split; [reflexivity|]. split; [lia|]. right. eauto. }
  destruct (monitorCallProgress_settles axios_get callId_ (company_name companyInfo))
    as (outcome & polls & Hrun & Hpolls & Hsettled & _).
  rewrite Hrun. unfold BlandAICalls.maxChecks in Hpolls.
  destruct outcome as [callResult|e].
  - eexists _, polls. split; [reflexivity|]. split; [lia|]. left.
    destruct (on_tick_resolves _ _ _ _ _ Hsettled) as (Hres & Hsteps & call & Hcall & Hstatus).
    exists callId_, call. cbn. auto 10.
  - eexists _, polls. split; [reflexivity|]. split; [lia|]. right. eauto.
Qed.

(** X17.  A call that never reaches a final status is given up after
    exactly 400 polls, and [initiateCall] then reports it as failed. *)
Theorem initiateCall_gives_up_after_400_polls
    (axios_post : string -> Outcome string) (axios_get : nat -> string -> Outcome CallInfo)
    (phoneNumber callId_ : string) (companyInfo : CompanyInfo) :
  axios_post phoneNumber = Returned callId_ ->
  (forall n, exists call,
     axios_get n callId_ = Returned call /\
     call_status call ∉ ["completed"; "failed"; "cancelled"; "no-answer"]) ->
  BlandAICalls.monitorCallProgress axios_get callId_ (company_name companyInfo)
    = Some (Thrown "Call monitoring timeout - call may still be in progress", 400) /\
  BlandAICalls.initiateCall axios_post axios_get phoneNumber companyInfo
    = Some (BlandAICalls.failed_call "Call monitoring timeout - call may still be in progress",
            400).
Proof.
  intros Hpost Hopen.
  assert (Htick : forall k,
            BlandAICalls.on_tick axios_get callId_ (company_name companyInfo) k =
            if BlandAICalls.maxChecks <=? k
            then Settled (Thrown "Call monitoring timeout - call may still be in progress")
            else KeepPolling).
  { intros k. unfold BlandAICalls.on_tick.
    destruct (Hopen k) as (call & -> & Hstatus).
    assert (Hne : forall s, s ∈ ["completed"; "failed"; "cancelled"; "no-answer"] ->
                    String.eqb (call_status call) s = false).
    { intros s Hs. apply String.eqb_neq. intros Heq. apply Hstatus. now rewrite Heq. }
    rewrite !Hne by (repeat first [apply list_elem_of_here | apply list_elem_of_further]).
    reflexivity. }
  assert (Hrun : BlandAICalls.monitorCallProgress axios_get callId_ (company_name companyInfo)
                 = Some (Thrown "Call monitoring timeout - call may still be in progress", 400)).
  { destruct (monitorCallProgress_settles axios_get callId_ (company_name companyInfo))
      as (outcome & polls & Hrun & Hpolls & Hsettled & Hbefore).
    rewrite Hrun. rewrite Htick in Hsettled. unfold BlandAICalls.maxChecks in *.
    destruct (400 <=? polls) eqn:E; [|discriminate].
    apply Nat.leb_le in E. assert (polls = 400) as -> by lia. congruence. }
  split; [exact Hrun|].
  unfold BlandAICalls.initiateCall. rewrite Hpost, Hrun. reflexivity.
Qed.

Lemma initiateCall_gives_up_after_400_polls_witness :
  (fun _ : string => @Returned string "call-1") "+18005550100" = Returned "call-1" /\
  (forall n : nat, exists call,
     (fun (_ : nat) (_ : string) =>
        Returned {| call_status := "in-progress"; error_message := None;
                    call_transcript := None; call_length := None; call_cost := None |})
       n "call-1" = Returned call /\
     call_status call ∉ ["completed"; "failed"; "cancelled"; "no-answer"]) /\
  BlandAICalls.monitorCallProgress
    (fun _ _ => Returned {| call_status := "in-progress"; error_message := None;
                            call_transcript := None; call_length := None; call_cost := None |})
    "call-1" (company_name acme)
    = Some (Thrown "Call monitoring timeout - call may still be in progress", 400) /\
  BlandAICalls.initiateCall (fun _ => Returned "call-1")
    (fun _ _ => Returned {| call_status := "in-progress"; error_message := None;
                            call_transcript := None; call_length := None; call_cost := None |})
    "+18005550100" acme
    = Some (BlandAICalls.failed_call "Call monitoring timeout - call may still be in progress",
            400).
Proof.
  assert (Hopen : forall n : nat, exists call,
            (fun (_ : nat) (_ : string) =>
               Returned {| call_status := "in-progress"; error_message := None;
                           call_transcript := None; call_length := None; call_cost := None |})
              n "call-1" = Returned call /\
            call_status call ∉ ["completed"; "failed"; "cancelled"; "no-answer"]).
  { intros n. eexists. split; [reflexivity|]. cbn.
    intros H. repeat (apply elem_of_cons in H as [H|H]; [discriminate H|]).
    now apply elem_of_nil in H. }
  split; [reflexivity|]. split; [exact Hopen|].
  exact (initiateCall_gives_up_after_400_polls (fun _ => Returned "call-1") _
           "+18005550100" "call-1" acme eq_refl Hopen).
Defined.

(** ** ConversationManager: all or nothing *)

Section AllOrNothing.

Variable env : Env.
Variable maxQuestions : nat.

Lemma askQuestions_outcome (context : ComplaintContext) (companyInfo : CompanyInfo)
    (complaintId : string) (w : World) :
  match ConversationManager.askQuestions env maxQuestions context companyInfo complaintId w with
  | (Returned context', w') =>
      is_Some (complaintDocs w !! complaintId) /\
      stored_history w' complaintId = conversationHistory context'
  | (Thrown _, w') => complaintDocs w' = complaintDocs w
  end.
Proof.
  unfold ConversationManager.askQuestions. unfold_M.
  rewrite get_unfold.
  destruct (firestore_rejects env (firestoreRequests w)); [reflexivity|].
  cbv beta iota. cbn [Firestore.lookup_document bump_firestore complaintDocs].
  destruct (complaintDocs w !! complaintId) as [d|] eqn:Hd; [|reflexivity].
  pose proof (keeps_load_user env d (bump_firestore w)) as K1.
  destruct (ConversationManager.load_user env d (bump_firestore w)) as [[u|e] w1];
    cbn [fst snd bump_firestore complaintDocs] in K1; cbv beta iota; [|exact K1].
  cbn [conversationHistory].
  match goal with |- context [(if ?c then FollowupHandler.preAnalyzeComplaint env ?i else ?b) w1] =>
    set (initial := i) end.
  match goal with |- context [(if ?c then FollowupHandler.preAnalyzeComplaint env initial else ?b) w1] =>
    set (pre := if c then FollowupHandler.preAnalyzeComplaint env initial else b) end.
  assert (K2 : complaintDocs (snd (pre w1)) = complaintDocs w1).
  { subst pre. destruct (length (turns_or_empty d) =? 0);
      [apply keeps_preAnalyzeComplaint | reflexivity]. }
  assert (H2 : forall c, fst (pre w1) = Returned c ->
                 conversationHistory c = turns_or_empty d).
  { subst pre. destruct (length (turns_or_empty d) =? 0).
    - intros c Hc. destruct (preAnalyzeComplaint_history env initial w1) as (c' & Hc' & Hh).
      assert (Hcc : Returned c = Returned c') by (rewrite <- Hc, <- Hc'; reflexivity).
      injection Hcc as ->. exact Hh.
    - intros c Hc. injection Hc as <-. reflexivity. }
  destruct (pre w1) as [[enhanced|e] w2]; cbn [fst snd] in K2, H2; cbv beta iota;
    [|congruence].
  specialize (H2 enhanced eq_refl).
  destruct (0 <? length (List.filter is_pending (conversationHistory enhanced))) eqn:Hpending.
  { split; [eauto|]. cbn [with_confidence conversationHistory].
    unfold stored_history. replace (complaintDocs w2) with (complaintDocs w) by congruence.
    rewrite Hd. now rewrite H2. }
  destruct (maybe_ask_spec env maxQuestions enhanced
              (length (List.filter is_answered (conversationHistory enhanced))) w2) as [K3 _].
  destruct (ConversationManager.maybe_ask env maxQuestions enhanced _ w2) as [[h'|e] w3];
    cbn [fst snd] in K3; cbv beta iota; [|congruence].
  rewrite update_complaints_unfold.
  destruct (firestore_rejects env (firestoreRequests w3));
    [cbn [snd bump_firestore complaintDocs]; congruence|].
  cbv zeta. replace (complaintDocs w3 !! complaintId) with (Some d) by (rewrite <- Hd; congruence).
  cbv beta iota. split; [eauto|].
  unfold stored_history.
  cbn [set_complaintDocs complaintDocs bump_draws bump_firestore
       with_confidence with_history conversationHistory].
  now rewrite lookup_insert_eq, turns_after_update.
Qed.

Lemma processAnswer_outcome (complaintId questionId answer_ : string) (w : World) :
  match ConversationManager.processAnswer env complaintId questionId answer_ w with
  | (Returned context', w') =>
      stored_history w' complaintId = conversationHistory context' /\
      exists index turn t extracted,
        ConversationManager.findIndex questionId (stored_history w complaintId) = Some index /\
        stored_history w complaintId !! index = Some turn /\ id turn = questionId /\
        conversationHistory context' =
          <[index := ConversationManager.answered_turn turn answer_ t extracted]>
            (stored_history w complaintId)
  | (Thrown _, w') => complaintDocs w' = complaintDocs w
  end.
Proof.
  unfold ConversationManager.processAnswer. unfold_M.
  rewrite get_unfold.
  destruct (firestore_rejects env (firestoreRequests w)); [reflexivity|].
  cbv beta iota. cbn [Firestore.lookup_document bump_firestore complaintDocs].
  unfold stored_history.
  destruct (complaintDocs w !! complaintId) as [d|] eqn:Hd; [|reflexivity].
  destruct (ConversationManager.findIndex questionId (turns_or_empty d)) as [index|] eqn:Hfind;
    [|reflexivity].
  destruct (findIndex_lookup _ _ _ Hfind) as (turn & Hturn & Hturnid & _).
  rewrite Hturn.
  match goal with |- context [FollowupHandler.extractInformationFromAnswer env ?c ?q ?a ?w0] =>
    pose proof (keeps_extractInformationFromAnswer env c q a w0) as K1;
    destruct (FollowupHandler.extractInformationFromAnswer env c q a w0) as [[extracted|e] w1] end;
    cbn [fst snd bump_firestore complaintDocs] in K1; cbv beta iota; [|exact K1].
  unfold Firestore.now. cbv beta iota.
  rewrite update_complaints_unfold.
  cbn [firestoreRequests bump_draws].
  destruct (firestore_rejects env (firestoreRequests w1));
    [cbn [snd bump_firestore bump_draws complaintDocs]; exact K1|].
  cbv zeta. cbn [complaintDocs bump_draws].
  replace (complaintDocs w1 !! complaintId) with (Some d) by (rewrite <- Hd; congruence).
  cbv beta iota. split.
  - cbn [set_complaintDocs complaintDocs bump_draws bump_firestore
         with_confidence with_fields with_history conversationHistory].
    now rewrite lookup_insert_eq, turns_after_update.
  - exists index, turn. do 2 eexists. split; [reflexivity|]. split; [exact Hturn|].
    split; [exact Hturnid|]. reflexivity.
Qed.

End AllOrNothing.

(** X18.  [askQuestions] is all or nothing.  When it returns, the
    conversation history of the returned context is the stored one; when it
    throws, no complaint document has changed.  The flow in front of it only
    puts its prefix before the message of the error. *)
Theorem askQuestions_all_or_nothing
    (env : Env) (maxQuestions : nat) (context : ComplaintContext) (companyInfo : CompanyInfo)
    (complaintId : string) (w : World) :
  match FollowupQuestionFlow.askQuestions env maxQuestions context companyInfo complaintId w with
  | (Returned context', w') =>
      ConversationManager.askQuestions env maxQuestions context companyInfo complaintId w
        = (Returned context', w') /\
      is_Some (complaintDocs w !! complaintId) /\
      stored_history w' complaintId = conversationHistory context'
  | (Thrown e, w') =>
      (exists cause,
         e = "Failed to process follow-up questions: " ++ cause /\
         ConversationManager.askQuestions env maxQuestions context companyInfo complaintId w
           = (Thrown cause, w')) /\
      complaintDocs w' = complaintDocs w
  end.
Proof.
  pose proof (askQuestions_outcome env maxQuestions context companyInfo complaintId w) as H.
  unfold FollowupQuestionFlow.askQuestions, try_catch, throw.
  destruct (ConversationManager.askQuestions env maxQuestions context companyInfo complaintId w)
    as [[context'|cause] w']; [tauto|eauto].
Qed.

(** X19.  [processAnswer] never adds, removes or reorders turns, and never
    touches an id or a question: the stored ids and questions are the same
    after it as before, whether it returns or throws.  When it returns, the
    returned history is the stored one, and it differs from the previous one
    in one turn only, the first with the given id.  When it throws, no
    complaint document has changed. *)
Theorem processAnswer_rewrites_one_turn
    (env : Env) (complaintId questionId answer_ : string) (w : World) :
  let run := ConversationManager.processAnswer env complaintId questionId answer_ w in
  let h := stored_history w complaintId in
  let h' := stored_history (snd run) complaintId in
  (id <$> h') = (id <$> h) /\
  (question <$> h') = (question <$> h) /\
  match fst run with
  | Returned context' =>
      conversationHistory context' = h' /\
      exists index turn,
        ConversationManager.findIndex questionId h = Some index /\
        h !! index = Some turn /\
        (answer <$> h') = <[index := answer_]> (answer <$> h) /\
        forall other, other <> index -> h' !! other = h !! other
  | Thrown _ => complaintDocs (snd run) = complaintDocs w
  end.
Proof.
  cbv zeta.
  pose proof (processAnswer_outcome env complaintId questionId answer_ w) as H.
  destruct (ConversationManager.processAnswer env complaintId questionId answer_ w)
    as [[context'|e] w']; cbn [fst snd].
  - destruct H as (Hstored & index & turn & t & extracted & Hfind & Hturn & Hid & Hhistory).
    rewrite Hstored, Hhistory.
    set (answered := ConversationManager.answered_turn turn answer_ t extracted).
    split; [|split; [|split; [reflexivity|]]].
    + rewrite list_fmap_insert. apply list_insert_id.
      rewrite list_lookup_fmap, Hturn. reflexivity.
    + rewrite list_fmap_insert. apply list_insert_id.
      rewrite list_lookup_fmap, Hturn. reflexivity.
    + exists index, turn. split; [exact Hfind|]. split; [exact Hturn|].
      split; [apply list_fmap_insert|].
      intros other Hother. apply list_lookup_insert_ne. congruence.
  - assert (Hsame : stored_history w' complaintId = stored_history w complaintId)
      by (unfold stored_history; now rewrite H).
    rewrite Hsame. auto.
Qed.

(** X20.  Stored histories are append-only in their questions: over any
    sequence of [askQuestions] and [processAnswer] calls, whatever the
    collaborators do, the ids and questions a complaint had stay where they
    were; new turns only come after them. *)
Theorem stored_questions_append_only
    (env : Env) (maxQuestions : nat) (ops : list Operation) (w : World) (complaintId : string) :
  ((fun turn => (id turn, question turn)) <$> stored_history w complaintId)
    `prefix_of`
  ((fun turn => (id turn, question turn))
     <$> stored_history (run_operations env maxQuestions ops w) complaintId).
Proof.
  revert w. induction ops as [|op ops IH]; intros w; [reflexivity|].
  cbn [run_operations fold_left]. etransitivity; [|apply IH].
  destruct op as [context companyInfo cid|cid questionId answer_]; cbn [run_operation].
  - destruct (askQuestions_step env maxQuestions context companyInfo cid w complaintId)
      as [Hother Hstep].
    destruct (decide (complaintId = cid)) as [->|Hne]; [|rewrite (Hother Hne); reflexivity].
    destruct Hstep as [->|(_ & _ & turn & _ & ->)]; [reflexivity|].
    rewrite fmap_app. now apply prefix_app_r.
  - destruct (processAnswer_step env cid questionId answer_ w complaintId) as [Hother Hstep].
    destruct (decide (complaintId = cid)) as [->|Hne]; [|rewrite (Hother Hne); reflexivity].
    destruct Hstep as [->|(index & turn & t & extracted & Hturn & ->)]; [reflexivity|].
    rewrite list_fmap_insert, list_insert_id; [reflexivity|].
    rewrite list_lookup_fmap, Hturn. reflexivity.
Qed.

(** ** ConversationManager at the edges *)

Section DialogueEdges.

Variable env : Env.
Variable maxQuestions : nat.

Lemma load_user_frame (existingData : Document) (w : World) :
  exists u w',
    ConversationManager.load_user env existingData w = (Returned u, w') /\
    complaintDocs w' = complaintDocs w /\ completions w' = completions w.
Proof.
  unfold ConversationManager.load_user.
  destruct (str_field existingData "userId") as [userId|]; [|eexists _, _; repeat split].
  destruct (JS.truthy userId); [|eexists _, _; repeat split].
  unfold_M. rewrite get_unfold.
  destruct (firestore_rejects env (firestoreRequests w)); eexists _, _; repeat split.
Qed.

Lemma extractInformationFromAnswer_cases
    (context : EnhancedComplaintContext) (asked answered : string) (w : World) :
  FollowupHandler.extractInformationFromAnswer env context asked answered w =
  (Returned
     (FollowupHandler.parse_fields env
        match openai_create env (length (completions w)) extractInformation_
                (AnswerPrompt (originalComplaint context) asked answered
                              (extractedFields context)) with
        | Returned content =>
            default "{}" (FollowupHandler.first_match (OpenAIClient.content_or content "{}")
                                                      FollowupHandler.json_object)
        | Thrown _ => "{}"
        end),
   log_completion
     (extractInformation_,
      AnswerPrompt (originalComplaint context) asked answered (extractedFields context)) w).
Proof.
  unfold FollowupHandler.extractInformationFromAnswer, OpenAIClient.extractInformation,
    OpenAIClient.chat_completions_create.
  unfold_M.
  destruct (openai_create env (length (completions w)) extractInformation_ _); reflexivity.
Qed.

End DialogueEdges.

(** X21.  A complaint that is not stored is reported by every entry point
    of the dialogue, at the cost of one Firestore read and nothing else:
    [askQuestions] and [processAnswer] throw the same message, the flow puts
    its prefix before it, and the follow-up branch of the API answers that
    the answer could not be saved. *)
Theorem missing_complaint_is_reported
    (env : Env) (maxQuestions : nat) (context : ComplaintContext) (companyInfo : CompanyInfo)
    (complaintId questionId answer_ : string) (w : World) :
  firestore_rejects env (firestoreRequests w) = false ->
  complaintDocs w !! complaintId = None ->
  ConversationManager.askQuestions env maxQuestions context companyInfo complaintId w
    = (Thrown ("Complaint document " ++ complaintId ++ " not found"), bump_firestore w) /\
  FollowupQuestionFlow.askQuestions env maxQuestions context companyInfo complaintId w
    = (Thrown ("Failed to process follow-up questions: Complaint document "
               ++ complaintId ++ " not found"), bump_firestore w) /\
  ConversationManager.processAnswer env complaintId questionId answer_ w
    = (Thrown ("Complaint document " ++ complaintId ++ " not found"), bump_firestore w) /\
  UnifiedComplaint.followUp env maxQuestions complaintId questionId answer_ w
    = (Returned (NotSaved "Could not save your answer, please retry"), bump_firestore w).
Proof.
  intros Hserved Hmissing.
  assert (Hask : ConversationManager.askQuestions env maxQuestions context companyInfo
                   complaintId w
                 = (Thrown ("Complaint document " ++ complaintId ++ " not found"),
                    bump_firestore w)).
  { unfold ConversationManager.askQuestions. unfold_M. rewrite get_unfold, Hserved.
    cbn [Firestore.lookup_document bump_firestore complaintDocs]. rewrite Hmissing. reflexivity. }
  assert (Hanswer : ConversationManager.processAnswer env complaintId questionId answer_ w
                    = (Thrown ("Complaint document " ++ complaintId ++ " not found"),
                       bump_firestore w)).
  { unfold ConversationManager.processAnswer. unfold_M. rewrite get_unfold, Hserved.
    cbn [Firestore.lookup_document bump_firestore complaintDocs]. rewrite Hmissing. reflexivity. }
  split; [exact Hask|]. split; [|split; [exact Hanswer|]].
  - unfold FollowupQuestionFlow.askQuestions, try_catch. rewrite Hask. reflexivity.
  - unfold UnifiedComplaint.followUp. unfold_M. rewrite Hanswer. reflexivity.
Qed.

Lemma missing_complaint_is_reported_witness :
  firestore_rejects quiet_env (firestoreRequests empty_world) = false /\
  complaintDocs empty_world !! "c9" = None /\
  ConversationManager.askQuestions quiet_env 4 card_complaint acme "c9" empty_world
    = (Thrown ("Complaint document " ++ "c9" ++ " not found"), bump_firestore empty_world) /\
  FollowupQuestionFlow.askQuestions quiet_env 4 card_complaint acme "c9" empty_world
    = (Thrown ("Failed to process follow-up questions: Complaint document "
               ++ "c9" ++ " not found"), bump_firestore empty_world) /\
  ConversationManager.processAnswer quiet_env "c9" "q1" "yesterday" empty_world
    = (Thrown ("Complaint document " ++ "c9" ++ " not found"), bump_firestore empty_world) /\
  UnifiedComplaint.followUp quiet_env 4 "c9" "q1" "yesterday" empty_world
    = (Returned (NotSaved "Could not save your answer, please retry"),
       bump_firestore empty_world).
Proof.
  split; [reflexivity|]. split; [reflexivity|].
  apply (missing_complaint_is_reported quiet_env 4 card_complaint acme "c9" "q1" "yesterday"
           empty_world); reflexivity.
Defined.

(** X22.  Once a complaint has as many turns as the limit allows, all of
    them answered, [askQuestions] asks the LLM nothing at all: it returns
    the stored history as it is and records the question flow as
    completed, with the numbers of questions asked and answered. *)
Theorem askQuestions_at_the_limit
    (env : Env) (maxQuestions : nat) (context : ComplaintContext) (companyInfo : CompanyInfo)
    (complaintId : string) (w : World) (d : Document) :
  (forall n, firestore_rejects env n = false) ->
  complaintDocs w !! complaintId = Some d ->
  turns_or_empty d <> [] ->
  pending_count (turns_or_empty d) = 0 ->
  maxQuestions <= length (turns_or_empty d) ->
  exists context' w' d',
    ConversationManager.askQuestions env maxQuestions context companyInfo complaintId w
      = (Returned context', w') /\
    conversationHistory context' = turns_or_empty d /\
    completions w' = completions w /\
    complaintDocs w' !! complaintId = Some d' /\
    turns_or_empty d' = turns_or_empty d /\
    d' !! "questionFlowCompleted" = Some (VBool true) /\
    d' !! "questionsAsked" = Some (VInt (Z.of_nat (length (turns_or_empty d)))) /\
    d' !! "questionsAnswered" = Some (VInt (Z.of_nat (length (turns_or_empty d)))).
Proof.
  intros Hserved Hd Hsome Hpending Hlimit.
  unfold ConversationManager.askQuestions. unfold_M.
  rewrite get_unfold, Hserved.
  cbv beta iota. cbn [Firestore.lookup_document bump_firestore complaintDocs]. rewrite Hd.
  destruct (load_user_frame env d (bump_firestore w)) as (u & w1 & Hload & K1 & C1).
  rewrite Hload. cbv beta iota. cbn [conversationHistory].
  assert (Hlen : (length (turns_or_empty d) =? 0) = false).
  { apply Nat.eqb_neq. destruct (turns_or_empty d); [contradiction|discriminate]. }
  rewrite Hlen. cbv beta iota. cbn [conversationHistory].
  assert (Hfilter : List.filter is_pending (turns_or_empty d) = []).
  { unfold pending_count in Hpending.
    destruct (List.filter is_pending (turns_or_empty d)); [reflexivity|discriminate]. }
  rewrite Hfilter. cbn [length Nat.ltb Nat.leb].
  rewrite (filter_answered_all _ Hpending).
  unfold ConversationManager.maybe_ask.
  assert (Hguard : (length (turns_or_empty d) <? maxQuestions) = false)
    by (apply Nat.ltb_ge; exact Hlimit).
  cbn [conversationHistory]. rewrite Hguard.
  unfold_M. cbv beta iota.
  rewrite update_complaints_unfold, Hserved.
  cbv zeta. replace (complaintDocs w1 !! complaintId) with (Some d)
    by (rewrite <- Hd; cbn [bump_firestore complaintDocs] in K1; congruence).
  cbv beta iota.
  eexists _, _, _. split; [reflexivity|].
  cbn [with_confidence with_history conversationHistory extractedFields
       set_complaintDocs complaintDocs completions bump_draws bump_firestore].
  split; [reflexivity|]. split; [exact C1|].
  split; [apply lookup_insert_eq|].
  split; [apply turns_after_update|].
  assert (Hnone : existsb is_pending (turns_or_empty d) = false).
  { clear -Hfilter. induction (turns_or_empty d) as [|turn rest IH]; [reflexivity|].
    cbn in *. destruct (is_pending turn); [discriminate|]. exact (IH Hfilter). }
  rewrite (filter_answered_all _ Hpending), Hnone.
  unfold Firestore.apply_update.
  repeat split; rewrite lookup_union, map_lookup_imap;
    repeat first [rewrite lookup_insert_eq | rewrite lookup_insert_ne by discriminate];
    cbn; match goal with |- context [d !! ?k] => destruct (d !! k) end; reflexivity.
Qed.

Lemma askQuestions_at_the_limit_witness :
  (forall n, firestore_rejects chatty_env n = false) /\
  complaintDocs
    (set_complaintDocs {[ "c1" := {[ "conversationHistory" :=
                                        VTurns [turn_with_delta 0.2%float] ]} ]} empty_world)
    !! "c1" = Some {[ "conversationHistory" := VTurns [turn_with_delta 0.2%float] ]} /\
  pending_count [turn_with_delta 0.2%float] = 0 /\
  exists context' w' d',
    ConversationManager.askQuestions chatty_env 1 card_complaint acme "c1"
      (set_complaintDocs {[ "c1" := {[ "conversationHistory" :=
                                          VTurns [turn_with_delta 0.2%float] ]} ]} empty_world)
      = (Returned context', w') /\
    conversationHistory context' =
      turns_or_empty {[ "conversationHistory" := VTurns [turn_with_delta 0.2%float] ]} /\
    completions w' =
      completions
        (set_complaintDocs {[ "c1" := {[ "conversationHistory" :=
                                            VTurns [turn_with_delta 0.2%float] ]} ]} empty_world) /\
    complaintDocs w' !! "c1" = Some d' /\
    turns_or_empty d' =
      turns_or_empty {[ "conversationHistory" := VTurns [turn_with_delta 0.2%float] ]} /\
    d' !! "questionFlowCompleted" = Some (VBool true) /\
    d' !! "questionsAsked" =
      Some (VInt (Z.of_nat (length (turns_or_empty
              {[ "conversationHistory" := VTurns [turn_with_delta 0.2%float] ]})))) /\
    d' !! "questionsAnswered" =
      Some (VInt (Z.of_nat (length (turns_or_empty
              {[ "conversationHistory" := VTurns [turn_with_delta 0.2%float] ]})))).
Proof.
  split; [reflexivity|]. split; [reflexivity|]. split; [reflexivity|].
  apply (askQuestions_at_the_limit chatty_env 1 card_complaint acme "c1"
           (set_complaintDocs {[ "c1" := {[ "conversationHistory" :=
                                               VTurns [turn_with_delta 0.2%float] ]} ]}
                              empty_world)
           {[ "conversationHistory" := VTurns [turn_with_delta 0.2%float] ]}).
  - reflexivity.
  - reflexivity.
  - discriminate.
  - reflexivity.
  - vm_compute. lia.
Defined.

(** ** Answers and the API in front of the dialogue *)

(** X23.  A failure of the LLM does not lose an answer.  When the
    completion request of the extraction fails while Firestore serves its
    requests, [processAnswer] still returns and stores the submitted answer
    on the first turn with the given id, with no extracted fields and a
    [confidenceDelta] of 0.1. *)
Theorem processAnswer_survives_llm_failure
    (env : Env) (complaintId questionId answer_ : string) (w : World)
    (turn0 : ConversationTurn) :
  (forall n, firestore_rejects env n = false) ->
  (forall p, is_thrown (openai_create env (length (completions w)) extractInformation_ p) = true) ->
  JSON_parse env "{}" = Some ∅ ->
  turn0 ∈ stored_history w complaintId -> id turn0 = questionId ->
  exists context' w' index turn t,
    ConversationManager.processAnswer env complaintId questionId answer_ w
      = (Returned context', w') /\
    stored_history w complaintId !! index = Some turn /\
    stored_history w' complaintId = conversationHistory context' /\
    conversationHistory context' =
      <[index := {| id := questionId; question := question turn; answer := answer_;
                    timestamp := t; extractedInfo := ∅; confidenceDelta := 0.1 |}]>
        (stored_history w complaintId).
Proof.
  intros Hserved Hdown Hparse Hin Hid.
  destruct (processAnswer_known_turn env complaintId questionId answer_ w turn0 Hserved Hin Hid)
    as (index & turn & d & extracted & w1 & t & context' & w' &
        _ & Hturn & _ & _ & _ & Hextract & Hrun & Hhistory & Hstored).
  rewrite extractInformationFromAnswer_cases in Hextract.
  cbn [bump_firestore completions] in Hextract.
  match type of Hextract with context [openai_create env ?n ?m ?p] =>
    specialize (Hdown p); destruct (openai_create env n m p); [discriminate Hdown|] end.
  injection Hextract as Hextracted _.
  unfold FollowupHandler.parse_fields in Hextracted. rewrite Hparse in Hextracted.
  cbn in Hextracted. subst extracted.
  exists context', w', index, turn, t. auto.
Qed.

Lemma processAnswer_survives_llm_failure_witness :
  (forall n, firestore_rejects llm_down_env n = false) /\
  (forall p, is_thrown (openai_create llm_down_env (length (completions world_with_question))
                          extractInformation_ p) = true) /\
  JSON_parse llm_down_env "{}" = Some ∅ /\
  ConversationManager.new_turn "q1" "When did this occur?" 0
    ∈ stored_history world_with_question "c1" /\
  exists context' w' index turn t,
    ConversationManager.processAnswer llm_down_env "c1" "q1" "yesterday" world_with_question
      = (Returned context', w') /\
    stored_history world_with_question "c1" !! index = Some turn /\
    stored_history w' "c1" = conversationHistory context' /\
    conversationHistory context' =
      <[index := {| id := "q1"; question := question turn; answer := "yesterday";
                    timestamp := t; extractedInfo := ∅; confidenceDelta := 0.1 |}]>
        (stored_history world_with_question "c1").
Proof.
  assert (Hin : ConversationManager.new_turn "q1" "When did this occur?" 0
                  ∈ stored_history world_with_question "c1")
    by (vm_compute; apply list_elem_of_here).
  split; [reflexivity|]. split; [reflexivity|]. split; [reflexivity|]. split; [exact Hin|].
  apply (processAnswer_survives_llm_failure llm_down_env "c1" "q1" "yesterday"
           world_with_question (ConversationManager.new_turn "q1" "When did this occur?" 0));
    try reflexivity.
  exact Hin.
Defined.

(** X24.  The follow-up branch of the API turns every failure of
    [processAnswer] into the reply that the answer could not be saved: it
    does not throw, changes no complaint document, and goes no further (no
    next question is looked for).  It gives that reply in no other case. *)
Theorem followUp_reports_unsaved_answers
    (env : Env) (maxQuestions : nat) (complaintId questionId answer_ : string) (w : World) :
  match ConversationManager.processAnswer env complaintId questionId answer_ w with
  | (Thrown _, w1) =>
      UnifiedComplaint.followUp env maxQuestions complaintId questionId answer_ w
        = (Returned (NotSaved "Could not save your answer, please retry"), w1) /\
      complaintDocs w1 = complaintDocs w
  | (Returned _, w1) =>
      forall message,
        fst (UnifiedComplaint.followUp env maxQuestions complaintId questionId answer_ w)
          <> Returned (NotSaved message)
  end.
Proof.
  pose proof (processAnswer_outcome env complaintId questionId answer_ w) as H.
  unfold UnifiedComplaint.followUp. unfold_M.
  destruct (ConversationManager.processAnswer env complaintId questionId answer_ w)
    as [[context'|e] w1]; [|split; [reflexivity|exact H]].
  intros message. cbn [negb].
  destruct (Firestore.get env complaints complaintId w1) as [[[d|]|e] w2]; try discriminate.
  unfold FollowupQuestionFlow.askQuestions, try_catch, throw.
  match goal with |- context [ConversationManager.askQuestions ?x1 ?x2 ?x3 ?x4 ?x5 ?x6] =>
    destruct (ConversationManager.askQuestions x1 x2 x3 x4 x5 x6) as [[enhanced|cause] w3] end;
    discriminate.
Qed.

Section BlankAnswers.

Variable env : Env.
Variable maxQuestions : nat.

Lemma askQuestions_while_pending (context : ComplaintContext) (companyInfo : CompanyInfo)
    (complaintId : string) (w : World) (d : Document) :
  firestore_rejects env (firestoreRequests w) = false ->
  complaintDocs w !! complaintId = Some d ->
  0 < pending_count (turns_or_empty d) ->
  exists context' w',
    ConversationManager.askQuestions env maxQuestions context companyInfo complaintId w
      = (Returned context', w') /\
    conversationHistory context' = turns_or_empty d /\
    complaintDocs w' = complaintDocs w.
Proof.
  intros Hserved Hd Hpending.
  assert (Hnonempty : (length (turns_or_empty d) =? 0) = false).
  { apply Nat.eqb_neq. pose proof (count_split (turns_or_empty d)). lia. }
  unfold ConversationManager.askQuestions. unfold_M.
  rewrite get_unfold, Hserved.
  cbv beta iota. cbn [Firestore.lookup_document bump_firestore complaintDocs]. rewrite Hd.
  destruct (load_user_frame env d (bump_firestore w)) as (u & w1 & Hload & K1 & _).
  rewrite Hload.
  cbv beta iota. cbn [conversationHistory]. rewrite Hnonempty.
  cbv beta iota. cbn [conversationHistory].
  unfold pending_count in Hpending. apply Nat.ltb_lt in Hpending. rewrite Hpending.
  do 2 eexists. split; [reflexivity|]. auto.
Qed.

Lemma answers_present (h : list ConversationTurn) :
  Forall (fun turn => answer turn <> "") h ->
  List.filter UnifiedComplaint.lacks_answer h = [] /\
  List.filter UnifiedComplaint.has_answer h = h.
Proof.
  induction 1 as [|turn rest Hturn _ [IH1 IH2]]; [split; reflexivity|].
  cbn. unfold UnifiedComplaint.lacks_answer at 1, UnifiedComplaint.has_answer at 1.
  destruct (answer turn) as [|c s]; [contradiction|]. cbn. rewrite IH1, IH2. split; reflexivity.
Qed.

End BlankAnswers.

(** X25.  An answer made of white space only is not empty, so the API
    saves it and, if no other question lacks an answer, replies that the
    conversation is complete, with no next question and every question
    counted as answered.  For the conversation manager the same turn is
    still pending: no further question was generated, and none will be
    while it stays that way. *)
Theorem followUp_takes_blank_answer_for_an_answer
    (env : Env) (maxQuestions : nat) (complaintId questionId answer_ : string) (w : World)
    (turn0 : ConversationTurn) :
  let h := stored_history w complaintId in
  (forall n, firestore_rejects env n = false) ->
  answer_ <> "" -> JS.trim answer_ = "" ->
  turn0 ∈ h -> id turn0 = questionId ->
  NoDup (id <$> h) ->
  Forall (fun turn => answer turn = "" -> id turn = questionId) h ->
  exists w',
    UnifiedComplaint.followUp env maxQuestions complaintId questionId answer_ w
      = (Returned (Saved complaintId None [] true (length h) (length h)), w') /\
    length (stored_history w' complaintId) = length h /\
    0 < pending_count (stored_history w' complaintId).
Proof.
  intros h Hserved Hnonempty Hblank Hin Hid Hnodup Hothers.
  destruct (processAnswer_known_turn env complaintId questionId answer_ w turn0 Hserved Hin Hid)
    as (index & turn & d & extracted & w0 & t & context' & w1 &
        _ & Hturn & Hturnid & _ & _ & _ & Hrun & Hhistory & Hstored).
  fold h in Hturn, Hhistory.
  set (answered := {| id := questionId; question := question turn; answer := answer_;
                      timestamp := t; extractedInfo := extracted;
                      confidenceDelta := if 0 <? size extracted then 0.2%float else 0.1%float |})
    in *.
  set (h1 := <[index := answered]> h) in *.
  assert (Hindex : index < length h) by (eapply lookup_lt_Some; exact Hturn).
  assert (Hlength : length h1 = length h) by apply length_insert.
  assert (Hat : h1 !! index = Some answered) by (apply list_lookup_insert_eq; exact Hindex).
  (* every turn of the new history has a non-empty answer *)
  assert (Hall : Forall (fun turn => answer turn <> "") h1).
  { apply Forall_lookup_2. intros i x Hx.
    destruct (decide (i = index)) as [->|Hne].
    - rewrite Hat in Hx. injection Hx as <-. exact Hnonempty.
    - subst h1. rewrite list_lookup_insert_ne in Hx by congruence.
      intros Hempty.
      pose proof (Forall_lookup_1 _ _ _ _ Hothers Hx Hempty) as Hsame.
      apply Hne. apply (NoDup_lookup (id <$> h) i index questionId Hnodup).
      + rewrite list_lookup_fmap, Hx. cbn. now rewrite Hsame.
      + rewrite list_lookup_fmap, Hturn. cbn. now rewrite Hturnid. }
  (* but the answered turn is pending for the conversation manager *)
  assert (Hpending : 0 < pending_count h1).
  { unfold pending_count.
    assert (Hp : is_pending answered = true).
    { unfold is_pending. cbn [answer answered]. rewrite Hblank. apply orb_true_r. }
    assert (Helem : answered ∈ List.filter is_pending h1).
    { apply list_elem_of_In, filter_In. split; [|exact Hp].
      apply list_elem_of_In. eapply list_elem_of_lookup_2. exact Hat. }
    destruct (List.filter is_pending h1); [inversion Helem|cbn; lia]. }
  (* the stored document after the answer *)
  assert (Hd1 : exists d1, complaintDocs w1 !! complaintId = Some d1 /\ turns_or_empty d1 = h1).
  { unfold stored_history in Hstored. rewrite Hhistory in Hstored.
    destruct (complaintDocs w1 !! complaintId) as [d1|]; [eauto|].
    exfalso. rewrite <- Hstored in Hat. rewrite lookup_nil in Hat. discriminate. }
  destruct Hd1 as (d1 & Hd1 & Hturns1).
  unfold UnifiedComplaint.followUp. unfold_M. rewrite Hrun. cbn [negb].
  rewrite get_unfold, Hserved.
  cbn [Firestore.lookup_document bump_firestore complaintDocs]. rewrite Hd1.
  unfold FollowupQuestionFlow.askQuestions, try_catch.
  match goal with |- context [ConversationManager.askQuestions env maxQuestions ?c ?i complaintId ?w2] =>
    destruct (askQuestions_while_pending env maxQuestions c i complaintId w2 d1)
      as (context2 & w3 & Hask & Hhistory2 & Hdocs) end.
  { apply Hserved. }
  { exact Hd1. }
  { rewrite Hturns1. exact Hpending. }
  rewrite Hask. exists w3.
  unfold UnifiedComplaint.response_for. rewrite Hhistory2, Hturns1.
  destruct (answers_present h1 Hall) as [Hnone Hevery].
  rewrite Hnone, Hevery, Hlength. cbn.
  assert (Hfinal : stored_history w3 complaintId = h1).
  { unfold stored_history. rewrite Hdocs. cbn [bump_firestore complaintDocs].
    rewrite Hd1. exact Hturns1. }
  rewrite Hfinal, Hlength. auto.
Qed.

Lemma followUp_takes_blank_answer_for_an_answer_witness :
  (forall n, firestore_rejects chatty_env n = false) /\
  " " <> "" /\ JS.trim " " = "" /\
  ConversationManager.new_turn "q1" "When did this occur?" 0
    ∈ stored_history world_with_question "c1" /\
  NoDup (id <$> stored_history world_with_question "c1") /\
  Forall (fun turn => answer turn = "" -> id turn = "q1")
         (stored_history world_with_question "c1") /\
  exists w',
    UnifiedComplaint.followUp chatty_env 4 "c1" "q1" " " world_with_question
      = (Returned (Saved "c1" None [] true
                     (length (stored_history world_with_question "c1"))
                     (length (stored_history world_with_question "c1"))), w') /\
    length (stored_history w' "c1") = length (stored_history world_with_question "c1") /\
    0 < pending_count (stored_history w' "c1").
Proof.
  assert (Hin : ConversationManager.new_turn "q1" "When did this occur?" 0
                  ∈ stored_history world_with_question "c1")
    by (vm_compute; apply list_elem_of_here).
  assert (Hnodup : NoDup (id <$> stored_history world_with_question "c1"))
    by (vm_compute; apply NoDup_singleton).
  assert (Hothers : Forall (fun turn => answer turn = "" -> id turn = "q1")
                           (stored_history world_with_question "c1"))
    by (vm_compute; repeat constructor).
  split; [reflexivity|]. split; [discriminate|]. split; [reflexivity|].
  split; [exact Hin|]. split; [exact Hnodup|]. split; [exact Hothers|].
  apply (followUp_takes_blank_answer_for_an_answer chatty_env 4 "c1" "q1" " "
           world_with_question (ConversationManager.new_turn "q1" "When did this occur?" 0));
    [reflexivity | discriminate | reflexivity | exact Hin | reflexivity | exact Hnodup
    | exact Hothers].
Defined.

(** X26.  [FollowupHandler.processAnswer] appends: the returned history is
    the given one followed by one new turn with the question and the answer
    as given, and a [confidenceDelta] of 0.2 if the extraction found a field
    and of 0.1 otherwise; the fields found are merged over the known ones.
    Without a usable complaint id it makes no Firestore request and cannot
    throw.  With one, the stored history is the returned one, unless the
    update fails: then it throws and no complaint document has changed. *)
Theorem FollowupHandler_processAnswer_appends
    (env : Env) (context : EnhancedComplaintContext) (question_ answer_ : string)
    (complaintId : option string) (w : World) :
  match FollowupHandlerAnswers.processAnswer env context question_ answer_ complaintId w with
  | (Returned context', w') =>
      exists turn,
        conversationHistory context' = (conversationHistory context ++ [turn])%list /\
        question turn = question_ /\ answer turn = answer_ /\
        confidenceDelta turn = (if 0 <? size (extractedInfo turn) then 0.2%float else 0.1%float) /\
        extractedFields context' = extractedInfo turn ∪ extractedFields context /\
        if FollowupHandlerAnswers.names_a_complaint complaintId
        then stored_history w' (default "" complaintId) = conversationHistory context'
        else firestoreRequests w' = firestoreRequests w /\ complaintDocs w' = complaintDocs w
  | (Thrown _, w') =>
      FollowupHandlerAnswers.names_a_complaint complaintId = true /\
      complaintDocs w' = complaintDocs w
  end.
Proof.
  unfold FollowupHandlerAnswers.processAnswer. unfold_M.
  rewrite extractInformationFromAnswer_cases.
  unfold Firestore.fresh_uuid, Firestore.now. cbv beta iota.
  destruct (FollowupHandlerAnswers.names_a_complaint complaintId) eqn:Hnamed.
  - rewrite update_complaints_unfold.
    destruct (firestore_rejects env _); [split; reflexivity|].
    cbv zeta. cbn [complaintDocs bump_draws log_completion].
    destruct (complaintDocs w !! default "" complaintId) as [d|] eqn:Hd;
      [|split; reflexivity].
    eexists. cbn [with_fields with_history conversationHistory extractedFields
                  question answer confidenceDelta extractedInfo].
    repeat split.
    unfold stored_history. cbn [set_complaintDocs complaintDocs].
    now rewrite lookup_insert_eq, turns_after_update.
  - eexists. cbn [with_fields with_history conversationHistory extractedFields
                  question answer confidenceDelta extractedInfo].
    repeat split.
Qed.

(** ** When a question is asked *)

Section AskingQuestions.

Variable env : Env.
Variable maxQuestions : nat.





End AskingQuestions.



(** ** The question loop of the command-line dialogue *)

Section QuestionLoop.

Variable env : Env.
Variable maxQuestions : nat.
Variable promptUserInput : nat -> string -> string.
Variable complaintId : string.

(** One round of the loop.  At the limit it breaks and changes nothing.
    Below the limit it adds one turn: a question of 10 to 150 characters
    with what the user typed as its answer; it goes on if and only if the
    update of the stored history went through. *)
Lemma questionRound_cases (prompts : nat) (context : EnhancedComplaintContext) (w : World) :
  let h := conversationHistory context in
  exists goes_on context' w',
    ComplaintProcessor.questionRound env maxQuestions promptUserInput complaintId prompts context w
      = (Returned (goes_on, context'), w') /\
    originalComplaint context' = originalComplaint context /\
    ((maxQuestions <= length h /\ goes_on = false /\ context' = context /\ w' = w) \/
     (length h < maxQuestions /\
      (goes_on = true -> stored_history w' complaintId = conversationHistory context') /\
      ((forall n, firestore_rejects env n = false) ->
       is_Some (complaintDocs w !! complaintId) -> goes_on = true) /\
      exists turn,
        conversationHistory context' = (h ++ [turn])%list /\
        answer turn = promptUserInput prompts (question turn) /\
        10 <= String.length (question turn) <= 150)).
Proof.
  cbv zeta. unfold ComplaintProcessor.questionRound. unfold_M.
  destruct (generateFollowupQuestion_cases env maxQuestions context w)
    as (question_ & w1 & Hq & Hshape).
  rewrite Hq. cbv beta iota.
  pose proof (keeps_generateFollowupQuestion env maxQuestions context w) as K1.
  rewrite Hq in K1. cbn [snd] in K1.
  destruct (maxQuestions <=? length (conversationHistory context)) eqn:Hlimit.
  { destruct Hshape as [-> ->]. cbn [JS.truthy negb]. cbv beta iota.
    apply Nat.leb_le in Hlimit. eexists _, _, _. split; [reflexivity|]. split; [reflexivity|].
    left. auto. }
  apply Nat.leb_gt in Hlimit. destruct Hshape as (Hlen & _ & _).
  assert (Htruthy : JS.truthy question_ = true)
    by (destruct question_; [cbn in Hlen; lia|reflexivity]).
  rewrite Htruthy. cbn [negb]. cbv beta iota.
  unfold FollowupHandlerAnswers.processAnswer, FollowupHandlerAnswers.names_a_complaint.
  unfold_M. rewrite extractInformationFromAnswer_cases.
  unfold Firestore.fresh_uuid, Firestore.now. cbv beta iota zeta.
  rewrite update_complaints_unfold.
  cbn [with_fields with_history conversationHistory originalComplaint
       bump_draws log_completion complaintDocs firestoreRequests draws].
  rewrite K1.
  destruct (firestore_rejects env (firestoreRequests w1)) eqn:Hrejects.
  { eexists _, _, _. split; [reflexivity|]. split; [reflexivity|]. right.
    split; [exact Hlimit|]. split; [discriminate|].
    split; [intros Hserved; now rewrite Hserved in Hrejects|].
    eexists. split; [reflexivity|]. cbn [answer question]. auto. }
  cbv zeta. destruct (complaintDocs w !! complaintId) as [d|] eqn:Hd.
  - eexists _, _, _. split; [reflexivity|]. split; [reflexivity|]. right.
    split; [exact Hlimit|]. split.
    { intros _. unfold stored_history. cbn [set_complaintDocs complaintDocs].
      rewrite lookup_insert_eq. apply turns_after_update. }
    split; [reflexivity|].
    eexists. split; [reflexivity|]. cbn [answer question]. auto.
  - eexists _, _, _. split; [reflexivity|]. split; [reflexivity|]. right.
    split; [exact Hlimit|]. split; [discriminate|].
    split; [intros _ [d Hsome]; discriminate|].
    eexists. split; [reflexivity|]. cbn [answer question]. auto.
Qed.

Lemma stored_turn_has_document (w : World) (h : list ConversationTurn) (turn : ConversationTurn) :
  stored_history w complaintId = (h ++ [turn])%list -> is_Some (complaintDocs w !! complaintId).
Proof.
  unfold stored_history. destruct (complaintDocs w !! complaintId); [eauto|].
  intros H. now destruct h.
Qed.

(** The loop started with as many prompts behind it as there are turns, and
    with enough fuel to reach the limit.  It ends, at the limit at the
    latest; it is the update of the stored history, not the decision of the
    LLM, that ends it earlier. *)
Lemma questionLoop_runs (fuel : nat) :
  forall (context : EnhancedComplaintContext) (w : World),
    let h := conversationHistory context in
    maxQuestions < fuel + length h ->
    length h <= maxQuestions ->
    (forall i turn, h !! i = Some turn ->
       answer turn = promptUserInput i (question turn) /\
       10 <= String.length (question turn) <= 150) ->
    exists context' w',
      ComplaintProcessor.questionLoop env maxQuestions promptUserInput fuel complaintId
        (length h) context w = Some (context', w') /\
      originalComplaint context' = originalComplaint context /\
      h `prefix_of` conversationHistory context' /\
      length (conversationHistory context') <= maxQuestions /\
      (forall i turn, conversationHistory context' !! i = Some turn ->
         answer turn = promptUserInput i (question turn) /\
         10 <= String.length (question turn) <= 150) /\
      ((forall n, firestore_rejects env n = false) ->
       is_Some (complaintDocs w !! complaintId) ->
       length (conversationHistory context') = maxQuestions /\
       (stored_history w complaintId = h \/ length h < maxQuestions ->
        stored_history w' complaintId = conversationHistory context')).
Proof.
  induction fuel as [|fuel IH]; intros context w h Hfuel Hbelow Hanswers; [lia|].
  subst h.
  cbn [ComplaintProcessor.questionLoop]. cbv zeta.
  pose proof (keeps_shouldAskMoreQuestions env maxQuestions context w) as K0.
  set (w1 := snd (FollowupHandler.shouldAskMoreQuestions env maxQuestions context w)) in *.
  destruct (questionRound_cases (length (conversationHistory context)) context w1)
    as (goes_on & context1 & w2 & Hround & Horiginal & Hcases).
  rewrite Hround.
  destruct Hcases
    as [(Hlimit & -> & -> & ->)|(Hlimit & Hstored & Hserved & turn & Hpush & Hanswer & Hlen)].
  { exists context, w1. split; [reflexivity|]. split; [reflexivity|]. split; [reflexivity|].
    split; [exact Hbelow|]. split; [exact Hanswers|].
    intros _ _. split; [lia|]. intros [Hsaved|Hmore]; [|lia].
    rewrite <- Hsaved. subst w1. now apply (stored_history_frame complaintId). }
  assert (Hanswers1 : forall i t, conversationHistory context1 !! i = Some t ->
            answer t = promptUserInput i (question t) /\
            10 <= String.length (question t) <= 150).
  { intros i t. rewrite Hpush. intros Hi.
    apply lookup_app_Some in Hi as [Hi|[Hge Hi]]; [now apply Hanswers|].
    apply list_lookup_singleton_Some in Hi as [Hi <-].
    assert (Hindex : i = length (conversationHistory context)) by (clear - Hge Hi; lia).
    rewrite Hindex. auto. }
  assert (Hlength1 : length (conversationHistory context1) = S (length (conversationHistory context)))
    by (rewrite Hpush, length_app; cbn [length]; lia).
  destruct goes_on.
  - destruct (IH context1 w2) as (context' & w' & Hloop & Horiginal' & Hprefix & Hmax & Hall & Hfull).
    + rewrite Hlength1. lia.
    + rewrite Hlength1. lia.
    + exact Hanswers1.
    + rewrite Hlength1 in Hloop. exists context', w'. split; [exact Hloop|].
      split; [congruence|].
      split; [etrans; [|exact Hprefix]; rewrite Hpush; now apply prefix_app_r|].
      split; [exact Hmax|]. split; [exact Hall|].
      intros Hn Hdoc.
      assert (Hdoc2 : is_Some (complaintDocs w2 !! complaintId)).
      { apply (stored_turn_has_document w2 (conversationHistory context) turn). rewrite <- Hpush. now apply Hstored. }
      destruct (Hfull Hn Hdoc2) as [Hexactly Hsaved]. split; [exact Hexactly|].
      intros _. apply Hsaved. left. now apply Hstored.
  - exists context1, w2. split; [reflexivity|]. split; [exact Horiginal|].
    split; [rewrite Hpush; now apply prefix_app_r|].
    split; [lia|]. split; [exact Hanswers1|].
    intros Hn Hdoc. exfalso.
    assert (Hdoc1 : is_Some (complaintDocs w1 !! complaintId)) by (subst w1; now rewrite K0).
    specialize (Hserved Hn Hdoc1). discriminate.
Qed.

End QuestionLoop.

(** X28.  When the chat completion behind the continuation decision fails,
    [llmShouldContinueAsking] answers [false], and so does
    [shouldAskMoreQuestions], for every context and every limit; and the
    question block of [askQuestions] then pushes no turn. *)
Theorem shouldAskMoreQuestions_stops_when_decision_fails
    (env : Env) (maxQuestions : nat) (context : EnhancedComplaintContext) (w : World)
    (error : string) :
  openai_create env (length (completions w)) generateFollowupQuestions_
    (ContinuePrompt (originalComplaint context)
                    (FollowupHandler.buildConversationSummary context)
                    (extractedFields context)) = Thrown error ->
  fst (FollowupHandler.llmShouldContinueAsking env context w) = Returned false /\
  fst (FollowupHandler.shouldAskMoreQuestions env maxQuestions context w) = Returned false /\
  (forall questionCount,
     fst (ConversationManager.maybe_ask env maxQuestions context questionCount w)
       = Returned (conversationHistory context)).
Proof.
  intros Hfail.
  destruct (llmShouldContinueAsking_on_failure env context w error Hfail) as (w1 & H1).
  destruct (shouldAskMoreQuestions_on_failure env maxQuestions context w error Hfail) as (w2 & H2).
  rewrite H1, H2. split; [reflexivity|]. split; [reflexivity|].
  intros questionCount. unfold ConversationManager.maybe_ask.
  destruct (questionCount <? maxQuestions); [|reflexivity].
  unfold_M. rewrite H2. reflexivity.
Qed.

Lemma shouldAskMoreQuestions_stops_when_decision_fails_witness :
  openai_create llm_down_env (length (completions empty_world)) generateFollowupQuestions_
    (ContinuePrompt (originalComplaint bare_context)
                    (FollowupHandler.buildConversationSummary bare_context)
                    (extractedFields bare_context)) = Thrown "503 Service Unavailable" /\
  fst (FollowupHandler.llmShouldContinueAsking llm_down_env bare_context empty_world)
    = Returned false /\
  fst (FollowupHandler.shouldAskMoreQuestions llm_down_env 4 bare_context empty_world)
    = Returned false /\
  (forall questionCount,
     fst (ConversationManager.maybe_ask llm_down_env 4 bare_context questionCount empty_world)
       = Returned (conversationHistory bare_context)).
Proof.
  split; [reflexivity|].
  apply (shouldAskMoreQuestions_stops_when_decision_fails
           llm_down_env 4 bare_context empty_world "503 Service Unavailable").
  reflexivity.
Defined.


(** X30.  When Firestore serves its requests and the complaint exists, the
    question loop of [processComplaint] asks exactly [maxQuestions]
    questions, whatever the LLM replies to the should-continue requests and
    whether or not they fail: the decision is requested and never read.
    What the loop returns is what it stored. *)
Theorem questionLoop_ignores_the_decision
    (env : Env) (maxQuestions : nat) (promptUserInput : nat -> string -> string)
    (complaintId complaintText : string) (w : World) :
  (forall n, firestore_rejects env n = false) ->
  is_Some (complaintDocs w !! complaintId) ->
  exists context' w',
    ComplaintProcessor.askFollowupQuestions env maxQuestions promptUserInput
      complaintId complaintText w = Some (context', w') /\
    length (conversationHistory context') = maxQuestions /\
    (0 < maxQuestions -> stored_history w' complaintId = conversationHistory context').
Proof.
  intros Hserved Hdoc. unfold ComplaintProcessor.askFollowupQuestions.
  destruct (questionLoop_runs env maxQuestions promptUserInput complaintId (S maxQuestions)
              (ComplaintProcessor.initial_context complaintText) w)
    as (context' & w' & Hloop & _ & _ & _ & _ & Hfull).
  - cbn. lia.
  - cbn. lia.
  - intros i turn Hi. discriminate.
  - destruct (Hfull Hserved Hdoc) as [Hexactly Hsaved].
    exists context', w'. split; [exact Hloop|]. split; [exact Hexactly|].
    intros Hpositive. apply Hsaved. right. exact Hpositive.
Qed.

Lemma questionLoop_ignores_the_decision_witness :
  (forall n, firestore_rejects quiet_env n = false) /\
  is_Some (complaintDocs world_with_complaint !! "c1") /\
  exists context' w',
    ComplaintProcessor.askFollowupQuestions quiet_env 4 (fun _ _ => "It was on 3 May")
      "c1" "My card was charged twice" world_with_complaint = Some (context', w') /\
    length (conversationHistory context') = 4 /\
    (0 < 4 -> stored_history w' "c1" = conversationHistory context').
Proof.
  split; [reflexivity|]. split; [vm_compute; eauto|].
  apply (questionLoop_ignores_the_decision quiet_env 4 (fun _ _ => "It was on 3 May")
           "c1" "My card was charged twice" world_with_complaint).
  - reflexivity.
  - vm_compute. eauto.
Defined.
